(** * EventSnap: the live-streaming Socket.IO hub of [app.py]

    A shallow embedding of the Socket.IO handlers of [src/app.py]
    ([on_join], [on_leave], [handle_start_stream], [handle_stream_frame],
    [handle_stream_audio], [handle_stream_audio_pcm], [handle_stop_stream],
    [handle_reaction]) and of the [debug_rooms] route, together with the
    three module-level dictionaries they share ([active_streams],
    [audio_stats], [audio_headers]).

    The handlers are written in a small state-and-exception monad: the
    state is the whole server ([world]), an exception leaves the state as
    the statements before it made it, exactly as a Python exception leaves
    the dictionaries it has already mutated. *)

From Stdlib Require Import ZArith String Ascii.
From stdpp Require Import gmap strings list pretty.

Local Open Scope Z_scope.

(** ** Python values *)

(** The values a Socket.IO client can put in a message field: [None],
    booleans, integers, strings and binary attachments; floats and nested
    containers are left out.  A [str] is taken over the characters below
    256, which is also how [bytes] are kept. *)
Inductive pyval : Type :=
| PNone
| PBool (b : bool)
| PInt (n : Z)
| PStr (s : string)
| PBytes (b : string).

Global Instance pyval_eq_dec : EqDecision pyval.
Proof. solve_decision. Defined.

Module Py.

(** [bool(v)]: what [not v] tests. *)
Definition truthy (v : pyval) : bool :=
  match v with
  | PNone => false
  | PBool b => b
  | PInt n => negb (n =? 0)%Z
  | PStr s => negb (String.eqb s "")
  | PBytes b => negb (String.eqb b "")
  end.

(** [len(v)]; [None] stands for the [TypeError] of a value without
    length. *)
Definition len (v : pyval) : option Z :=
  match v with
  | PStr s => Some (Z.of_nat (String.length s))
  | PBytes b => Some (Z.of_nat (String.length b))
  | _ => None
  end.

Definition hex_digit (n : N) : ascii :=
  ascii_of_N (if (n <? 10)%N then 48 + n else 87 + n)%N.

Definition dquote : ascii := ascii_of_N 34.

Definition contains (c : ascii) (s : string) : bool :=
  existsb (Ascii.eqb c) (list_ascii_of_string s).

(** One byte of [repr(b'...')] for the chosen quote character. *)
Definition repr_byte (quote c : ascii) : string :=
  let n := N_of_ascii c in
  if (Ascii.eqb c quote || Ascii.eqb c "\")%bool then String "\" (String c "")
  else if (n =? 9)%N then "\t"
  else if (n =? 10)%N then "\n"
  else if (n =? 13)%N then "\r"
  else if ((n <? 32) || (127 <=? n))%N%bool then
    String "\" (String "x" (String (hex_digit (n / 16)) (String (hex_digit (n mod 16)) "")))
  else String c "".

Fixpoint repr_bytes_go (quote : ascii) (b : string) : string :=
  match b with
  | EmptyString => ""
  | String c b' => repr_byte quote c +:+ repr_bytes_go quote b'
  end.

(** [repr] of a [bytes] object: single quotes unless the bytes hold a
    single quote and no double quote. *)
Definition repr_bytes (b : string) : string :=
  let quote : ascii :=
    if (contains "'" b && negb (contains dquote b))%bool then dquote else "'"%char in
  String "b" (String quote (repr_bytes_go quote b +:+ String quote "")).

(** [str(v)], also what an f-string field prints. *)
Definition str (v : pyval) : string :=
  match v with
  | PNone => "None"
  | PBool true => "True"
  | PBool false => "False"
  | PInt n => pretty n
  | PStr s => s
  | PBytes b => repr_bytes b
  end.

(** The white space [int] passes over at both ends of a text: tab to
    carriage return and the space, and of the characters from 128 on the
    next-line and the no-break space.  The separators 28 to 31 are white
    space for [str.isspace] and not for [int]. *)
Definition is_space (c : ascii) : bool :=
  let n := N_of_ascii c in
  (((9 <=? n) && (n <=? 13)) || (n =? 32) || (n =? 133) || (n =? 160))%N%bool.

Fixpoint lstrip (s : string) : string :=
  match s with
  | String c s' => if is_space c then lstrip s' else s
  | EmptyString => s
  end.

Definition strip (s : string) : string :=
  String.rev (lstrip (String.rev (lstrip s))).

Definition digit (c : ascii) : option Z :=
  let n := N_of_ascii c in
  if ((48 <=? n) && (n <=? 57))%N%bool then Some (Z.of_N n - 48) else None.

(** Decimal digits with single underscores between them; [after_digit]
    says whether the previous character was a digit, [acc] is the value
    read so far. *)
Fixpoint digits (after_digit : bool) (acc : Z) (s : string) : option Z :=
  match s with
  | EmptyString => if after_digit then Some acc else None
  | String c s' =>
      match digit c with
      | Some d => digits true (10 * acc + d) s'
      | None =>
          if (Ascii.eqb c "_" && after_digit)%bool then digits false acc s' else None
      end
  end.

(** [int(s)] on a string in base ten; [None] stands for [ValueError]. *)
Definition int (s : string) : option Z :=
  match strip s with
  | String "-" s' => Z.opp <$> digits false 0 s'
  | String "+" s' => digits false 0 s'
  | s' => digits false 0 s'
  end.

End Py.


(** ** Messages, packets and the server state *)

(** A connection handle ([request.sid]).  Handles and room names are kept
    in two name spaces: the private room Socket.IO gives every connection
    is only ever used to address that one connection. *)
Definition sid : Type := nat.

(** A reading of the server clock, in microseconds. *)
Definition Time : Type := Z.

(** The [data] argument of a handler: the dictionary the client sent. *)
Abbreviation message := (gmap string pyval).

(** The value stored under ['timestamp']: the client's own field, or
    [datetime.utcnow().timestamp()] when the client sent none. *)
Inductive stamp : Type :=
| FromClient (v : pyval)
| FromClock (t : Time).

(** The dictionary of a [new_audio] packet; [is_header] tells the cached
    copy (which carries ['is_header': True]) from the relayed one (which
    has no such key). *)
Record audio_chunk : Type := AudioChunk {
  audio : pyval;
  mimeType : pyval;
  timestamp : stamp;
  chunk_event_id : string;
  is_header : bool
}.

(** What [emit] sends: the event name with its payload. *)
Inductive packet : Type :=
| new_audio (chunk : audio_chunk)
| new_frame (image : pyval)
| new_audio_pcm (data : message)
| stream_started (event_id : string)
| stream_stopped (event_id : string)
| new_reaction (emoji : pyval).

(** The values of one [audio_stats] entry: counters and the start date. *)
Inductive statval : Type :=
| SInt (n : Z)
| SDate (t : Time).

Global Instance statval_eq_dec : EqDecision statval.
Proof. solve_decision. Defined.

Abbreviation stats := (gmap string statval).

(** The exceptions the handlers can meet. *)
Inductive exn : Type :=
| KeyError (key : string)
| TypeError
| ValueError.

(** The lines the handlers print, with the values they interpolate. *)
Inductive logline : Type :=
| LogConnected
| LogDisconnected
| LogJoined (room : string)
| LogSendingHeader (room : string)
| LogLeft (room : string)
| LogStarted (event_id room : string)
| LogMissingEventId
| LogEmptyAudio (event_id : string)
| LogCachingHeader (event_id : string)
| LogChunksSent (event_id : string) (chunk_count : statval) (room : string)
| LogStreamError (e : exn)
| LogPcmRelay (chunks : statval) (event_id : string)
| LogPcmError (e : exn)
| LogFinalStats (event_id : string) (duration : Z) (total_chunks : statval)
| LogStopped (event_id : string).

(** The ['message'] of an error acknowledgement: a literal, or [str(e)]. *)
Inductive errmsg : Type :=
| Text (s : string)
| StrOf (e : exn).

(** The dictionary [handle_stream_audio] returns to its sender:
    [{'status': 'success'}] or [{'status': 'error', 'message': ...}]. *)
Inductive ack : Type :=
| Success
| Error (msg : errmsg).

(** The dictionary [debug_rooms] returns. *)
Record room_info : Type := RoomInfo {
  info_room : string;
  info_clients : list sid;
  info_audio_stats : stats;
  info_is_streaming : bool
}.

(** The server: Socket.IO's room table, the three module-level
    dictionaries, the [is_live] column of the [events] table, and what
    left the process: the packets delivered, each with the connection it
    went to, and the lines printed.  [ticks] counts the clock readings
    taken so far. *)
Record world : Type := World {
  rooms : gmap string (gset sid);
  active_streams : gset string;
  audio_stats : gmap string stats;
  audio_headers : gmap string audio_chunk;
  events : gmap Z bool;
  outbox : list (sid * packet);
  console : list logline;
  ticks : nat
}.

Definition set_rooms (f : gmap string (gset sid) → gmap string (gset sid)) (w : world) : world :=
  World (f (rooms w)) (active_streams w) (audio_stats w) (audio_headers w)
        (events w) (outbox w) (console w) (ticks w).

Definition set_audio_stats (f : gmap string stats → gmap string stats) (w : world) : world :=
  World (rooms w) (active_streams w) (f (audio_stats w)) (audio_headers w)
        (events w) (outbox w) (console w) (ticks w).

Definition set_audio_headers (f : gmap string audio_chunk → gmap string audio_chunk)
    (w : world) : world :=
  World (rooms w) (active_streams w) (audio_stats w) (f (audio_headers w))
        (events w) (outbox w) (console w) (ticks w).

Definition set_events (f : gmap Z bool → gmap Z bool) (w : world) : world :=
  World (rooms w) (active_streams w) (audio_stats w) (audio_headers w)
        (f (events w)) (outbox w) (console w) (ticks w).

Definition set_outbox (f : list (sid * packet) → list (sid * packet)) (w : world) : world :=
  World (rooms w) (active_streams w) (audio_stats w) (audio_headers w)
        (events w) (f (outbox w)) (console w) (ticks w).

Definition set_console (f : list logline → list logline) (w : world) : world :=
  World (rooms w) (active_streams w) (audio_stats w) (audio_headers w)
        (events w) (outbox w) (f (console w)) (ticks w).

Definition set_ticks (f : nat → nat) (w : world) : world :=
  World (rooms w) (active_streams w) (audio_stats w) (audio_headers w)
        (events w) (outbox w) (console w) (f (ticks w)).

(** The server as the module is loaded: empty dictionaries, nobody
    connected, the given [events] table. *)
Definition initial (db : gmap Z bool) : world :=
  World ∅ ∅ ∅ ∅ db [] [] 0.

(** The members of a room. *)
Definition members (w : world) (room : string) : gset sid :=
  default ∅ (rooms w !! room).

(** The hub state the handlers share: membership, counters, header cache
    and live flags (in memory and persisted). *)
Definition hub_state (w : world) :
    gmap string (gset sid) * gset string * gmap string stats *
    gmap string audio_chunk * gmap Z bool :=
  (rooms w, active_streams w, audio_stats w, audio_headers w, events w).

(** ** The handler monad *)

Inductive outcome (A : Type) : Type :=
| Returned (a : A)
| Raised (e : exn).
Arguments Returned {A} a.
Arguments Raised {A} e.

Definition hub (A : Type) : Type := world → outcome A * world.

Global Instance hub_ret : MRet hub := λ A a w, (Returned a, w).

Global Instance hub_bind : MBind hub := λ A B k m w,
  match m w with
  | (Returned a, w') => k a w'
  | (Raised e, w') => (Raised e, w')
  end.

(** Nothing to do: the branch a Python [if] without [else] leaves out. *)
Definition pass : hub unit := mret tt.

Definition raise {A : Type} (e : exn) : hub A := λ w, (Raised e, w).

(** [try: body except Exception as e: handler e]. *)
Definition try_except {A : Type} (body : hub A) (handler : exn → hub A) : hub A := λ w,
  match body w with
  | (Returned a, w') => (Returned a, w')
  | (Raised e, w') => handler e w'
  end.

Definition gets {A : Type} (f : world → A) : hub A := λ w, (Returned (f w), w).

Definition modify (f : world → world) : hub unit := λ w, (Returned tt, f w).

Definition print (l : logline) : hub unit := modify (set_console (λ c, c ++ [l])).

(** [data[key]]. *)
Definition getitem (data : message) (key : string) : hub pyval :=
  match data !! key with
  | Some v => mret v
  | None => raise (KeyError key)
  end.

(** [int(s)]. *)
Definition int (s : string) : hub Z :=
  match Py.int s with
  | Some n => mret n
  | None => raise ValueError
  end.

(** [len(v)]. *)
Definition len (v : pyval) : hub Z :=
  match Py.len v with
  | Some n => mret n
  | None => raise TypeError
  end.

(** *** Flask-SocketIO *)

(** The library is taken at its documented contract: a room is the set of
    connections that entered it and did not leave, and [emit] with a room
    reaches the members of that room, the sender among them unless
    [include_self] is false. *)

(** [join_room(room)] and [leave_room(room)] for the connection [me]. *)
Definition join_room (me : sid) (room : string) : hub unit :=
  modify (λ w, set_rooms <[room := members w room ∪ {[me]}]> w).

Definition leave_room (me : sid) (room : string) : hub unit :=
  modify (λ w, set_rooms <[room := members w room ∖ {[me]}]> w).

(** One copy of [pkt] for each connection of [to]. *)
Definition deliveries (to : gset sid) (pkt : packet) : list (sid * packet) :=
  (λ r, (r, pkt)) <$> elements to.

(** [emit(event, payload, room=room, broadcast=True)]: every member of
    the room, the sender too when it is one. *)
Definition emit_broadcast (pkt : packet) (room : string) : hub unit :=
  modify (λ w, set_outbox (λ o, o ++ deliveries (members w room) pkt) w).

(** [emit(event, payload, room=room, include_self=False)]: every member
    of the room but the sender. *)
Definition emit_others (me : sid) (pkt : packet) (room : string) : hub unit :=
  modify (λ w, set_outbox (λ o, o ++ deliveries (members w room ∖ {[me]}) pkt) w).

(** [emit(event, payload, room=request.sid)]: the sender alone. *)
Definition emit_self (me : sid) (pkt : packet) : hub unit :=
  modify (set_outbox (λ o, o ++ [(me, pkt)])).

(** ** The handlers of [app.py] *)

Section Hub.

(** [clock n] is the [n]-th reading of [datetime.utcnow()] the server
    takes. *)
Variable clock : nat → Time.

Definition utcnow : hub Time := λ w, (Returned (clock (ticks w)), set_ticks S w).

(** [data.get('timestamp', datetime.utcnow().timestamp())], the default
    having been read as [now]. *)
Definition get_timestamp (data : message) (now : Time) : stamp :=
  match data !! "timestamp" with
  | Some v => FromClient v
  | None => FromClock now
  end.

(** [audio_stats[event_id]]. *)
Definition stats_of (event_id : string) : hub stats := λ w,
  match audio_stats w !! event_id with
  | Some entry => (Returned entry, w)
  | None => (Raised (KeyError event_id), w)
  end.

(** [audio_stats[event_id][key]]. *)
Definition stat (event_id key : string) : hub statval :=
  entry ← stats_of event_id;
  match entry !! key with
  | Some v => mret v
  | None => raise (KeyError key)
  end.

(** [audio_stats[event_id][key] += rhs]: the counter is read, then [rhs]
    is evaluated, then the sum is stored. *)
Definition stat_iadd (event_id key : string) (rhs : hub Z) : hub unit :=
  entry ← stats_of event_id;
  old ← stat event_id key;
  n ← rhs;
  match old with
  | SInt c => modify (set_audio_stats <[event_id := <[key := SInt (c + n)]> entry]>)
  | SDate _ => raise TypeError
  end.

(** [count % 50 == 1]. *)
Definition every_50th (count : statval) : hub bool :=
  match count with
  | SInt c => mret (c mod 50 =? 1)
  | SDate _ => raise TypeError
  end.

(** [(now - started).total_seconds()], kept in microseconds. *)
Definition seconds_since (now : Time) (started : statval) : hub Z :=
  match started with
  | SDate t => mret (now - t)
  | SInt _ => raise TypeError
  end.

(** [not data or 'event_id' not in data]. *)
Definition no_event_id (data : message) : bool :=
  bool_decide (data = ∅) || bool_decide (data !! "event_id" = None).

(** The data URI [f'data:{mime_type};base64,{audio_data}'] for a string
    that does not start with [data:]; any other payload as it is. *)
Definition data_uri (mime_type audio_data : pyval) : pyval :=
  match audio_data with
  | PStr s =>
      if negb (String.prefix "data:" s)
      then PStr ("data:" +:+ Py.str mime_type +:+ ";base64," +:+ s)
      else audio_data
  | _ => audio_data
  end.

Definition handle_connect : hub unit := print LogConnected.

Definition on_join (me : sid) (data : message) : hub unit :=
  v ← getitem data "event_id";
  let event_id := Py.str v in
  let room := event_id in
  join_room me room;;
  print (LogJoined room);;
  cached ← gets (λ w, audio_headers w !! event_id);
  match cached with
  | Some header_data =>
      print (LogSendingHeader room);;
      emit_self me (new_audio header_data)
  | None => pass
  end.

Definition on_leave (me : sid) (data : message) : hub unit :=
  v ← getitem data "event_id";
  let room := Py.str v in
  leave_room me room;;
  print (LogLeft room).

Definition handle_start_stream (me : sid) (data : message) : hub unit :=
  v ← getitem data "event_id";
  let event_id := Py.str v in
  let room := event_id in
  cached ← gets (λ w, audio_headers w !! event_id);
  match cached with
  | Some _ => modify (set_audio_headers (delete event_id))
  | None => pass
  end;;
  key ← int event_id;
  event ← gets (λ w, events w !! key);
  match event with
  | Some _ =>
      modify (set_events <[key := true]>);;
      print (LogStarted event_id room);;
      emit_broadcast (stream_started event_id) room
  | None => pass
  end.

Definition handle_stream_frame (me : sid) (data : message) : hub unit :=
  v ← getitem data "event_id";
  let room := Py.str v in
  image ← getitem data "image";
  emit_others me (new_frame image) room.

Definition handle_stream_audio (me : sid) (data : message) : hub ack :=
  try_except
    (if no_event_id data then
       print LogMissingEventId;;
       mret (Error (Text "Missing event_id"))
     else
       v ← getitem data "event_id";
       let event_id := Py.str v in
       let room := event_id in
       let audio_data := default PNone (data !! "audio") in
       if negb (Py.truthy audio_data) then
         print (LogEmptyAudio event_id);;
         mret (Error (Text "No audio data"))
       else
         let mime_type := default (PStr "audio/webm") (data !! "mimeType") in
         let audio_data := data_uri mime_type audio_data in
         known ← gets (λ w, audio_stats w !! event_id);
         match known with
         | None =>
             started_at ← utcnow;
             modify (set_audio_stats
               <[event_id := {[ "started_at" := SDate started_at;
                                "chunks_sent" := SInt 0;
                                "total_bytes" := SInt 0 ]}]>)
         | Some _ => pass
         end;;
         stat_iadd event_id "chunks_sent" (mret 1);;
         stat_iadd event_id "total_bytes" (len audio_data);;
         sent ← stat event_id "chunks_sent";
         (if bool_decide (sent = SInt 1) then
            print (LogCachingHeader event_id);;
            now ← utcnow;
            modify (set_audio_headers
              <[event_id := AudioChunk audio_data mime_type (get_timestamp data now)
                                       event_id true]>)
          else pass);;
         chunk_count ← stat event_id "chunks_sent";
         due ← every_50th chunk_count;
         (if (due : bool) then print (LogChunksSent event_id chunk_count room) else pass);;
         now ← utcnow;
         emit_others me
           (new_audio (AudioChunk audio_data mime_type (get_timestamp data now)
                                  event_id false))
           room;;
         mret Success)
    (λ e, print (LogStreamError e);; mret (Error (StrOf e))).

Definition debug_rooms (event_id : string) : hub room_info :=
  let room := event_id in
  gets (λ w, RoomInfo room []
                      (default ∅ (audio_stats w !! event_id))
                      (bool_decide (event_id ∈ active_streams w))).

Definition handle_stream_audio_pcm (me : sid) (data : message) : hub unit :=
  try_except
    (if no_event_id data then pass
     else
       v ← getitem data "event_id";
       let event_id := Py.str v in
       let room := event_id in
       known ← gets (λ w, audio_stats w !! event_id);
       match known with
       | None => modify (set_audio_stats <[event_id := {[ "chunks" := SInt 0 ]}]>)
       | Some _ => pass
       end;;
       stat_iadd event_id "chunks" (mret 1);;
       chunks ← stat event_id "chunks";
       due ← every_50th chunks;
       (if (due : bool) then
          chunks ← stat event_id "chunks";
          print (LogPcmRelay chunks event_id)
        else pass);;
       emit_others me (new_audio_pcm data) room)
    (λ e, print (LogPcmError e)).

Definition handle_stop_stream (me : sid) (data : message) : hub unit :=
  v ← getitem data "event_id";
  let event_id := Py.str v in
  cached ← gets (λ w, audio_headers w !! event_id);
  match cached with
  | Some _ => modify (set_audio_headers (delete event_id))
  | None => pass
  end;;
  let room := event_id in
  known ← gets (λ w, audio_stats w !! event_id);
  match known with
  | Some stats =>
      now ← utcnow;
      fallback ← utcnow;
      duration ← seconds_since now (default (SDate fallback) (stats !! "started_at"));
      print (LogFinalStats event_id duration (default (SInt 0) (stats !! "chunks_sent")));;
      modify (set_audio_stats (delete event_id))
  | None => pass
  end;;
  key ← int event_id;
  event ← gets (λ w, events w !! key);
  match event with
  | Some _ =>
      modify (set_events <[key := false]>);;
      print (LogStopped event_id);;
      emit_broadcast (stream_stopped event_id) room
  | None => pass
  end.

Definition handle_reaction (me : sid) (data : message) : hub unit :=
  v ← getitem data "event_id";
  let room := Py.str v in
  emoji ← getitem data "emoji";
  emit_broadcast (new_reaction emoji) room.

Definition handle_disconnect : hub unit := print LogDisconnected.

(** *** The server loop *)

(** What a connection can ask of the server: a Socket.IO event with its
    [data], or the HTTP route [/debug/rooms/<event_id>]. *)
Inductive request : Type :=
| connect
| join_event (data : message)
| leave_event (data : message)
| start_stream (data : message)
| stream_frame (data : message)
| stream_audio (data : message)
| stream_audio_pcm (data : message)
| stop_stream (data : message)
| send_reaction (data : message)
| disconnect
| get_debug_rooms (event_id : string).

(** What the server gives back to the connection that asked: nothing
    (a handler that returns [None]), the acknowledgement dictionary, or
    the JSON body of the route. *)
Inductive reply : Type :=
| Nothing
| Acked (a : ack)
| Json (info : room_info).

(** Socket.IO takes a connection that went away out of every room. *)
Definition drop_connection (me : sid) : hub unit :=
  modify (set_rooms (fmap (λ room, room ∖ {[me]}))).

(** The handler registered for each request, run for connection [me]. *)
Definition handle (me : sid) (r : request) : hub reply :=
  match r with
  | connect => handle_connect;; mret Nothing
  | join_event data => on_join me data;; mret Nothing
  | leave_event data => on_leave me data;; mret Nothing
  | start_stream data => handle_start_stream me data;; mret Nothing
  | stream_frame data => handle_stream_frame me data;; mret Nothing
  | stream_audio data => a ← handle_stream_audio me data; mret (Acked a)
  | stream_audio_pcm data => handle_stream_audio_pcm me data;; mret Nothing
  | stop_stream data => handle_stop_stream me data;; mret Nothing
  | send_reaction data => handle_reaction me data;; mret Nothing
  | disconnect => handle_disconnect;; drop_connection me;; mret Nothing
  | get_debug_rooms event_id => info ← debug_rooms event_id; mret (Json info)
  end.

(** The world one request leaves, whatever its handler returned or
    raised: an exception that escapes a handler ends that handler and
    nothing else. *)
Definition serve (me : sid) (r : request) (w : world) : world :=
  (handle me r w).2.

(** The server handling a sequence of requests, each with its sender. *)
Definition run (trace : list (sid * request)) (w : world) : world :=
  foldl (λ w '(me, r), serve me r w) w trace.

End Hub.

(** ** Vocabulary of the properties *)

(** The packets of [o] that went to connection [r], in order. *)
Definition received_by (r : sid) (o : list (sid * packet)) : list packet :=
  snd <$> filter (λ d, d.1 = r) o.

(** The payload and the header flag of an audio packet. *)
Definition audio_of (pkt : packet) : option (pyval * bool) :=
  match pkt with
  | new_audio chunk => Some (audio chunk, is_header chunk)
  | _ => None
  end.

(** [key] is not among the fields of the message. *)
Definition lacks (key : string) (data : message) : bool :=
  bool_decide (data !! key = None).

(** A message without its event id or without the payload of its type:
    the field its handler reads (['image'], ['audio'], ['emoji']) or, for
    a raw chunk, whose handler reads no field but the event id, the samples
    (['raw_samples'] in the table of the specification). *)
Definition malformed (r : request) : bool :=
  match r with
  | join_event data | leave_event data | start_stream data | stop_stream data =>
      lacks "event_id" data
  | stream_frame data => lacks "event_id" data || lacks "image" data
  | stream_audio data => lacks "event_id" data || lacks "audio" data
  | stream_audio_pcm data => lacks "event_id" data || lacks "raw_samples" data
  | send_reaction data => lacks "event_id" data || lacks "emoji" data
  | connect | disconnect | get_debug_rooms _ => false
  end.

(** The event id a request names, as the handlers compute it:
    [str(data['event_id'])]. *)
Definition event_of (data : message) : option string :=
  Py.str <$> data !! "event_id".

(** A counter of the [audio_stats] entry of an event; an entry or a key
    that is not there reads as zero. *)
Definition counter (w : world) (event_id key : string) : Z :=
  match audio_stats w !! event_id ≫= (.!! key) with
  | Some (SInt c) => c
  | _ => 0
  end.

Definition is_counter (v : option statval) : bool :=
  match v with
  | Some (SInt _) => true
  | _ => false
  end.

(** The entry of the event, if any, has the counters that
    [handle_stream_audio] keeps. *)
Definition counts_chunks (w : world) (event_id : string) : bool :=
  match audio_stats w !! event_id with
  | None => true
  | Some entry => is_counter (entry !! "chunks_sent") && is_counter (entry !! "total_bytes")
  end.

(** The entry of the event, if any, has the counter that
    [handle_stream_audio_pcm] keeps. *)
Definition counts_samples (w : world) (event_id : string) : bool :=
  match audio_stats w !! event_id with
  | None => true
  | Some entry => is_counter (entry !! "chunks")
  end.

(** The entry of the event is there and has no field [key]. *)
Definition entry_without (key event_id : string) (w : world) : Prop :=
  ∃ entry, audio_stats w !! event_id = Some entry ∧ entry !! key = None.

(** The request is a [stop_stream] that names the event. *)
Definition stops (event_id : string) (r : request) : Prop :=
  match r with
  | stop_stream data => event_of data = Some event_id
  | _ => False
  end.

(** The entry of the event, if any, has a date, if anything, under
    ['started_at']. *)
Definition dated (w : world) (event_id : string) : bool :=
  match audio_stats w !! event_id ≫= (.!! "started_at") with
  | Some (SInt _) => false
  | _ => true
  end.

(** The summary a stop owes: the time since the entry was started and its
    chunk count, from the entry the event has in [w]; nothing when it has
    none. *)
Definition summary (clock : nat → Time) (w : world) (event_id : string) : list logline :=
  match audio_stats w !! event_id with
  | Some entry =>
      let started :=
        match entry !! "started_at" with
        | Some (SDate t) => t
        | _ => clock (S (ticks w))
        end in
      [LogFinalStats event_id (clock (ticks w) - started)
                     (default (SInt 0) (entry !! "chunks_sent"))]
  | None => []
  end.

(** The header replay a connection that joins the room is owed. *)
Definition replay (me : sid) (w : world) (event_id : string) : list (sid * packet) :=
  match audio_headers w !! event_id with
  | Some header => [(me, new_audio header)]
  | None => []
  end.

(** A cached header is backed by counters: the entry of the event is
    there and has counted at least one compressed chunk. *)
Definition header_counted (w : world) : Prop :=
  ∀ E, is_Some (audio_headers w !! E) →
    ∃ entry c, audio_stats w !! E = Some entry ∧
      entry !! "chunks_sent" = Some (SInt c) ∧ 1 ≤ c.



(** ** A weakest-precondition reading of the monad *)

(** [wp m w Q]: run from [w], the computation [m] ends, returning or
    raising, with an outcome and a world that satisfy [Q]. *)
Definition wp {A : Type} (m : hub A) (w : world) (Q : outcome A → world → Prop) : Prop :=
  Q (m w).1 (m w).2.

(** The postcondition past a bind: an exception skips the continuation. *)
Definition after {A B : Type} (k : A → hub B) (Q : outcome B → world → Prop)
    (o : outcome A) (w : world) : Prop :=
  match o with
  | Returned a => wp (k a) w Q
  | Raised e => Q (Raised e) w
  end.

(** The same past a [try]: an exception enters the handler. *)
Definition caught {A : Type} (handler : exn → hub A) (Q : outcome A → world → Prop)
    (o : outcome A) (w : world) : Prop :=
  match o with
  | Returned a => Q (Returned a) w
  | Raised e => wp (handler e) w Q
  end.

(** ** Frames *)

(** [stable R m]: whatever [m] does, the world it leaves is related by
    [R] to the one it found. *)
Definition stable {A : Type} (R : relation world) (m : hub A) : Prop :=
  ∀ w, R w (m w).2.

(** A relation that every update of the handlers respects, provided the
    outbox is only ever appended to and [active_streams] is left alone. *)
Record frame (R : relation world) : Prop := Frame {
  frame_refl : ∀ w, R w w;
  frame_trans : ∀ w1 w2 w3, R w1 w2 → R w2 w3 → R w1 w3;
  frame_rooms : ∀ f w, R w (set_rooms f w);
  frame_audio_stats : ∀ f w, R w (set_audio_stats f w);
  frame_audio_headers : ∀ f w, R w (set_audio_headers f w);
  frame_events : ∀ f w, R w (set_events f w);
  frame_console : ∀ f w, R w (set_console f w);
  frame_ticks : ∀ f w, R w (set_ticks f w);
  frame_outbox : ∀ more w, R w (set_outbox (λ o, o ++ more) w)
}.

(** ** Sample data *)

(** A clock that starts at 1000 and advances by one at each reading. *)
Definition sample_clock (n : nat) : Time := 1000 + Z.of_nat n.

(** A message for the event [id] with the given further fields. *)
Definition for_event (id : Z) (fields : list (string * pyval)) : message :=
  list_to_map (("event_id", PInt id) :: fields).

(** The server just loaded, event 7 being in the store and not live. *)
Definition sample_world : world := initial {[ 7 := false ]}.


(** ** Further vocabulary *)

(** The event a Socket.IO request names, if it names one. *)
Definition names (r : request) : option string :=
  match r with
  | join_event data | leave_event data | start_stream data | stream_frame data
  | stream_audio data | stream_audio_pcm data | stop_stream data
  | send_reaction data => event_of data
  | connect | disconnect | get_debug_rooms _ => None
  end.

(** The request is a [join_event] that names the event. *)
Definition joins (event_id : string) (r : request) : Prop :=
  match r with
  | join_event data => event_of data = Some event_id
  | _ => False
  end.

(** The payload of a compressed chunk as the handler relays it. *)
Definition normalized (data : message) : pyval :=
  data_uri (default (PStr "audio/webm") (data !! "mimeType"))
           (default PNone (data !! "audio")).

(** A compressed chunk for the event that passes the two checks of the
    handler and whose payload has a length. *)
Definition relayable (event_id : string) (data : message) : Prop :=
  event_of data = Some event_id ∧
  Py.truthy (default PNone (data !! "audio")) = true ∧
  is_Some (Py.len (default PNone (data !! "audio"))).

(** The bytes the chunks add to [total_bytes]. *)
Definition total_len (chunks : list message) : Z :=
  foldr (λ data acc, default 0 (Py.len (normalized data)) + acc) 0 chunks.

(** A cached header as [handle_stream_audio] writes it for the event: the
    flagged copy of a chunk of that event, a string payload being a data
    URI. *)
Definition header_of (event_id : string) (header : audio_chunk) : Prop :=
  chunk_event_id header = event_id ∧ is_header header = true ∧
  Py.truthy (audio header) = true ∧
  ∀ s, audio header = PStr s → String.prefix "data:" s = true.

(** The event has counted a compressed chunk and has no header cached:
    every later chunk finds [chunks_sent] past 1. *)
Definition headerless (event_id : string) (w : world) : Prop :=
  audio_headers w !! event_id = None ∧
  ∃ entry c, audio_stats w !! event_id = Some entry ∧
    entry !! "chunks_sent" = Some (SInt c) ∧ 1 ≤ c.

(** The request is a [join_event] with an event id. *)
Definition is_join (r : request) : Prop :=
  match r with
  | join_event data => is_Some (data !! "event_id")
  | _ => False
  end.

(** The connection is in no room. *)
Definition nowhere (me : sid) (w : world) : Prop :=
  ∀ E, me ∉ members w E.

(** Every cached header is the header of the event it is filed under. *)
Definition headers_ok (w : world) : Prop :=
  ∀ E header, audio_headers w !! E = Some header → header_of E header.

(** No character of the string is white space. *)
Fixpoint spaceless (s : string) : bool :=
  match s with
  | EmptyString => true
  | String c s' => negb (Py.is_space c) && spaceless s'
  end.

(** * The highlight reel of [reel_engine.py] *)

Module Reel.

(** A row of the [photos] table, as far as the engine reads it. *)
Record Photo : Type := {
  filename : string;
  event_id : Z
}.

(** [list.sort(key=..., reverse=True)] on the pairs [(score, path)]: the
    sort is stable, also in reverse, so the result is the one list that is
    ordered by falling score and keeps pairs of equal score in the order
    they had.  [insert_desc] puts a pair that came earlier in front of the
    pairs of the same score. *)
Fixpoint insert_desc (x : Z * string) (l : list (Z * string)) : list (Z * string) :=
  match l with
  | [] => [x]
  | y :: l' => if (y.1 <=? x.1)%Z then x :: l else y :: insert_desc x l'
  end.

Definition sort_desc (l : list (Z * string)) : list (Z * string) :=
  foldr insert_desc [] l.

(** The scores fall along the list: no pair scores more than a pair
    before it. *)
Fixpoint falling (l : list (Z * string)) : Prop :=
  match l with
  | [] => True
  | a :: l' => Forall (λ b, b.1 ≤ a.1) l' ∧ falling l'
  end.

Section Engine.

(** OpenCV, NumPy and the file system as the engine sees them.  A call
    that raises is [None]; [imread] does not raise but returns [None] for a
    file it cannot read.  The readings are floats, of which the engine
    only uses the comparison with 100 and 200. *)
Variables (image gray float : Type).
Variable flt : float → float → bool.
Variable of_int : Z → float.
Variable imread : string → option image.
Variable cvtColor : image → option gray.
Variable laplacian_var : gray → option float.
Variable mean : gray → option float.
Variable detect_faces : gray → option nat.
Variable exists_ : string → bool.
Variable PHOTOS_FOLDER : string.

(** The statements of the [try] block after [gray] is there; an exception
    ends the block with the score the statements before it built up. *)
Definition score_gray (g : gray) : Z :=
  match laplacian_var g with
  | None => 0
  | Some variance =>
      let score := if flt (of_int 100) variance then 2 else 0 in
      match mean g with
      | None => score
      | Some brightness =>
          let score :=
            score + if flt (of_int 100) brightness && flt brightness (of_int 200)
                    then 2 else 0 in
          match detect_faces g with
          | None => score
          | Some faces =>
              score + (if (0 <? faces)%nat then 3 else 0)
                    + (if (1 <? faces)%nat then 2 else 0)
          end
      end
  end.

Definition score_photo (photo_path : string) : Z :=
  match imread photo_path with
  | None => 0
  | Some img =>
      match cvtColor img with
      | None => 0
      | Some g => score_gray g
      end
  end.

(** [os.path.join(Config.PHOTOS_FOLDER, name)], the folder being an
    absolute path that does not end in a slash. *)
Definition photo_path (name : string) : string :=
  if String.prefix "/" name then name else PHOTOS_FOLDER +:+ "/" +:+ name.

(** [Photo.query.filter_by(event_id=event_id).all()], in the order of the
    table. *)
Definition photos_of (id : Z) (table : list Photo) : list Photo :=
  filter (λ p, event_id p = id) table.

(** The loop that scores the photos whose file is there. *)
Definition scored_list (photos : list Photo) : list (Z * string) :=
  (λ path, (score_photo path, path)) <$>
    filter (λ path, exists_ path = true) (photo_path ∘ filename <$> photos).

(** What [generate_reel] does before it hands the clips to MoviePy:
    the error message for an event with fewer than three photos, or the
    fifteen best of the photos that are on disk. *)
Definition top_photos (id : Z) (table : list Photo) : string + list (Z * string) :=
  let photos := photos_of id table in
  if (length photos <? 3)%nat then inl "Need at least 3 photos to make a reel."
  else inr (take 15 (sort_desc (scored_list photos))).

(** The name of the file the reel is written to. *)
Definition output_filename (id : Z) : string :=
  "reel_event_" +:+ pretty id +:+ ".mp4".

End Engine.

End Reel.

(** * The tags of [ml_classifier.py] *)

Module Tags.

(** The tag stored with a photo, and the descriptions CLIP is asked to
    compare the image with; a [dict] keeps the order it was written in. *)
Definition CATEGORY_MAP : list (string * list string) :=
  [ ("awards", ["award ceremony"; "holding a trophy"; "receiving a certificate";
                "medal"; "winner on stage"]);
    ("certifications", ["holding a certificate"; "diploma distribution";
                        "paper document"]);
    ("passport", ["passport size photo"; "id card photo"; "formal headshot";
                  "face closeup"]);
    ("dance", ["people dancing"; "dance performance"; "choreography"; "ballet"]);
    ("music", ["playing guitar"; "singing with microphone"; "musical instrument";
               "band performing"; "drummer"]);
    ("stage", ["person giving speech"; "podium"; "anchor holding mic";
               "stage presentation"]);
    ("group", ["group of friends"; "team photo"; "class photo"; "crowd gathering"]);
    ("food", ["food buffet"; "eating lunch"; "snacks"; "cake"]);
    ("candid", ["candid moment"; "people laughing"; "random shot"]) ].

(** [[desc for sublist in CATEGORY_MAP.values() for desc in sublist]]. *)
Definition SEARCH_TEXTS : list string := mjoin (snd <$> CATEGORY_MAP).

(** The inner loop of [analyze_image]: the tags whose descriptions hold
    [matched_desc]. *)
Definition tags_of (matched_desc : string) : gset string :=
  list_to_set (fst <$> filter (λ entry, matched_desc ∈ entry.2) CATEGORY_MAP).

(** The module globals [model] and [processor]: loaded, or still [None]. *)
Record clip : Type := Clip {
  model : bool;
  processor : bool
}.

(** What the two [from_pretrained] calls of [load_model] do when they are
    reached: both return, the first raises, or the first returns and the
    second raises. *)
Inductive loading : Type :=
| Loads
| ModelFails
| ProcessorFails.

Section Classifier.

(** Whether [torch] and [transformers] could be imported. *)
Variable ML_AVAILABLE : bool.

(** The probabilities are floats, of which [analyze_image] only uses the
    comparison with 0.2. *)
Variable float : Type.
Variable flt : float → float → bool.
Variable point_two : float.

(** [load_model()], with what loading would do, from the globals [s]: the
    globals are assigned one after the other, so a processor that fails to
    load leaves the model set. *)
Definition load_model (attempt : loading) (s : clip) : bool * clip :=
  if negb ML_AVAILABLE then (false, s)
  else if negb (model s) then
    match attempt with
    | Loads => (true, Clip true true)
    | ModelFails => (false, s)
    | ProcessorFails => (false, Clip true (processor s))
    end
  else (true, s).

(** One round of the loop over the three best matches; [None] stands for
    the [IndexError] of an index outside [SEARCH_TEXTS]. *)
Definition add_match (detected_tags : gset string) (m : float * nat)
    : option (gset string) :=
  if flt point_two m.1 then
    match SEARCH_TEXTS !! m.2 with
    | Some matched_desc => Some (detected_tags ∪ tags_of matched_desc)
    | None => None
    end
  else Some detected_tags.

(** The loop [for i in range(3)], from the empty set. *)
Definition detect (m0 m1 m2 : float * nat) : option (gset string) :=
  match add_match ∅ m0 with
  | Some tags =>
      match add_match tags m1 with
      | Some tags => add_match tags m2
      | None => None
      end
  | None => None
  end.

(** [analyze_image(image_path)], as the set of tags it joins with commas
    (in the order the set happens to have).  [inference] is what opening
    the image and running CLIP give when model and processor are loaded:
    the three pairs [(values[i], indices[i])] of [topk(3)], or [None] if
    one of the calls raises.  Any exception in the [try] ends in the
    single tag [event]. *)
Definition analyze_image (attempt : loading)
    (inference : option ((float * nat) * (float * nat) * (float * nat)))
    (s : clip) : gset string * clip :=
  if negb ML_AVAILABLE then ({["event"]}, s)
  else
    let '(loaded, s) := load_model attempt s in
    if negb loaded then ({["event"]}, s)
    else if negb (processor s) then ({["event"]}, s)
    else
      match inference with
      | None => ({["event"]}, s)
      | Some (m0, m1, m2) =>
          match detect m0 m1 m2 with
          | Some detected_tags => (detected_tags ∪ {["event"]}, s)
          | None => ({["event"]}, s)
          end
      end.

(** A sequence of calls, each with what loading and CLIP would do. *)
Definition analyze_all
    (calls : list (loading * option ((float * nat) * (float * nat) * (float * nat))))
    (s : clip) : list (gset string) * clip :=
  foldl (λ '(out, s) '(attempt, inference),
           let '(tags, s) := analyze_image attempt inference s in (out ++ [tags], s))
        ([], s) calls.

End Classifier.

End Tags.

(** * Texts *)

(** The [str] methods the routes use on form fields and file names, on the
    characters below 256. *)
Module Str.

(** [c.isspace()]: what [strip] takes off. *)
Definition isspace (c : ascii) : bool :=
  let n := N_of_ascii c in
  (((9 <=? n) && (n <=? 13)) || ((28 <=? n) && (n <=? 32)) || (n =? 133) || (n =? 160))%N%bool.

Fixpoint lstrip (s : string) : string :=
  match s with
  | String c s' => if isspace c then lstrip s' else s
  | EmptyString => s
  end.

Definition strip (s : string) : string :=
  String.rev (lstrip (String.rev (lstrip s))).

(** [c.lower()]: the capitals of ASCII and of Latin-1. *)
Definition lower_char (c : ascii) : ascii :=
  let n := N_of_ascii c in
  if (((65 <=? n) && (n <=? 90)) ||
      ((192 <=? n) && (n <=? 222) && negb (n =? 215)))%N%bool
  then ascii_of_N (n + 32) else c.

Fixpoint lower (s : string) : string :=
  match s with
  | String c s' => String (lower_char c) (lower s')
  | EmptyString => EmptyString
  end.

(** [c.upper()], as code points: the sharp s becomes two letters, and the
    capitals of the micro sign and of y with diaeresis lie above 255. *)
Definition upper_char (c : ascii) : list N :=
  let n := N_of_ascii c in
  if (((97 <=? n) && (n <=? 122)) ||
      ((224 <=? n) && (n <=? 254) && negb (n =? 247)))%N%bool then [n - 32]%N
  else if (n =? 223)%N then [83; 83]%N
  else if (n =? 181)%N then [924]%N
  else if (n =? 255)%N then [376]%N
  else [n].

Fixpoint upper (s : string) : list N :=
  match s with
  | String c s' => upper_char c ++ upper s'
  | EmptyString => []
  end.

(** The code points of a text. *)
Fixpoint code_points (s : string) : list N :=
  match s with
  | String c s' => N_of_ascii c :: code_points s'
  | EmptyString => []
  end.

(** [s.rsplit('.', 1)]: the text cut at its last dot, or the whole text if
    it has none. *)
Fixpoint rsplit_dot (s : string) : list string :=
  match s with
  | EmptyString => [EmptyString]
  | String c s' =>
      match rsplit_dot s' with
      | [tail] => if Ascii.eqb c "." then [EmptyString; tail] else [String c tail]
      | head :: rest => String c head :: rest
      | [] => []
      end
  end.

End Str.

(** * File names and access codes *)

Module Upload.

Definition ALLOWED_EXTENSIONS : gset string :=
  {[ "png"; "jpg"; "jpeg"; "gif"; "webp" ]}.

(** [allowed_file(filename)]; the index [[1]] is only reached for a name
    with a dot. *)
Definition allowed_file (filename : string) : bool :=
  Py.contains "." filename &&
  match Str.rsplit_dot filename !! 1%nat with
  | Some ext => bool_decide (Str.lower ext ∈ ALLOWED_EXTENSIONS)
  | None => false
  end.

End Upload.

Module Codes.

(** [binascii.hexlify]: two lower-case digits for each byte. *)
Fixpoint hexlify (bytes : string) : string :=
  match bytes with
  | String b bytes' =>
      let n := N_of_ascii b in
      String (Py.hex_digit (n / 16)) (String (Py.hex_digit (n mod 16)) (hexlify bytes'))
  | EmptyString => EmptyString
  end.

(** [secrets.token_hex(n)], from the [n] random bytes it draws. *)
Definition token_hex (bytes : string) : string := hexlify bytes.

(** [Event.generate_access_code], from the four random bytes, as code
    points. *)
Definition generate_access_code (bytes : string) : list N :=
  Str.upper (token_hex bytes).

(** The characters of an access code: digits and the capitals A to F. *)
Definition code_char (n : N) : bool :=
  (((48 <=? n) && (n <=? 57)) || ((65 <=? n) && (n <=? 70)))%N%bool.

(** What [unlock_event] looks up for the text the viewer typed:
    [request.form.get('access_code').strip().upper()]. *)
Definition typed_code (access_code : string) : list N :=
  Str.upper (Str.strip access_code).

End Codes.

(** Every character of the text is white space. *)
Fixpoint blank (s : string) : bool :=
  match s with
  | EmptyString => true
  | String c s' => Str.isspace c && blank s'
  end.

(** No character of the text is white space. *)
Fixpoint tight (s : string) : bool :=
  match s with
  | EmptyString => true
  | String c s' => negb (Str.isspace c) && tight s'
  end.

(** ** Sample data *)

(** An OpenCV that reads every file, finds it the sharper the longer its
    path is, evenly lit, and with as many faces as the length of the path
    leaves over three; a disk without [gone.jpg]; and a table with five
    photos of event 7 and one of event 8. *)
Module ReelSample.

Definition imread (path : string) : option string := Some path.
Definition cvtColor (img : string) : option string := Some img.
Definition laplacian_var (g : string) : option Z := Some (8 * Z.of_nat (String.length g)).
Definition mean (g : string) : option Z := Some 150.
Definition detect_faces (g : string) : option nat := Some (String.length g mod 3)%nat.
Definition exists_ (path : string) : bool := negb (String.eqb path "/photos/gone.jpg").

Definition table : list Reel.Photo :=
  [ {| Reel.filename := "a.jpg"; Reel.event_id := 7 |};
    {| Reel.filename := "stage.jpg"; Reel.event_id := 7 |};
    {| Reel.filename := "other.jpg"; Reel.event_id := 8 |};
    {| Reel.filename := "gone.jpg"; Reel.event_id := 7 |};
    {| Reel.filename := "group.jpg"; Reel.event_id := 7 |};
    {| Reel.filename := "bb.jpg"; Reel.event_id := 7 |} ].

End ReelSample.

(** * Properties *)

Section Properties.

Variable clock : nat → Time.

(** ** Rules *)

Section Rules.

Context {A : Type} (w : world) (Q : outcome A → world → Prop).

Lemma wp_run (m : hub A) : wp m w Q → ∃ o w', m w = (o, w') ∧ Q o w'.
Proof. unfold wp. destruct (m w) as [o w']. eauto. Qed.

Lemma wp_wand (m : hub A) (P : outcome A → world → Prop) :
  wp m w P → (∀ o w', P o w' → Q o w') → wp m w Q.
Proof. unfold wp. auto. Qed.

Lemma wp_ret (a : A) : Q (Returned a) w → wp (mret a) w Q.
Proof. done. Qed.

Lemma wp_raise (e : exn) : Q (Raised e) w → wp (raise e) w Q.
Proof. done. Qed.

Lemma wp_bind {B : Type} (m : hub B) (k : B → hub A) :
  wp m w (after k Q) → wp (m ≫= k) w Q.
Proof. unfold wp, after, mbind, hub_bind. by destruct (m w) as [[b|e] w']. Qed.

Lemma wp_try (body : hub A) (handler : exn → hub A) :
  wp body w (caught handler Q) → wp (try_except body handler) w Q.
Proof. unfold wp, caught, try_except. by destruct (body w) as [[b|e] w']. Qed.

Lemma wp_gets (f : world → A) : Q (Returned (f w)) w → wp (gets f) w Q.
Proof. done. Qed.

End Rules.

Section UnitRules.

Context (w : world) (Q : outcome unit → world → Prop).

Lemma wp_modify (f : world → world) : Q (Returned tt) (f w) → wp (modify f) w Q.
Proof. done. Qed.

Lemma wp_stat_iadd (E key : string) (entry : stats) (c n : Z) (rhs : hub Z) :
  audio_stats w !! E = Some entry → entry !! key = Some (SInt c) →
  rhs w = (Returned n, w) →
  Q (Returned tt) (set_audio_stats <[E := <[key := SInt (c + n)]> entry]> w) →
  wp (stat_iadd E key rhs) w Q.
Proof.
  intros Hst Hv Hrhs HQ.
  unfold wp, stat_iadd, stat, stats_of, mbind, hub_bind, mret, hub_ret, raise.
  rewrite Hst; cbv beta iota. rewrite Hst; cbv beta iota.
  rewrite Hv; cbv beta iota. by rewrite Hrhs.
Qed.

Lemma wp_stat_iadd_missing (E key : string) (entry : stats) (rhs : hub Z) :
  audio_stats w !! E = Some entry → entry !! key = None →
  Q (Raised (KeyError key)) w → wp (stat_iadd E key rhs) w Q.
Proof.
  intros Hst Hv HQ.
  unfold wp, stat_iadd, stat, stats_of, mbind, hub_bind, mret, hub_ret, raise.
  rewrite Hst; cbv beta iota. rewrite Hst; cbv beta iota. by rewrite Hv.
Qed.

End UnitRules.

Lemma wp_utcnow w (Q : outcome Time → world → Prop) :
  Q (Returned (clock (ticks w))) (set_ticks S w) → wp (utcnow clock) w Q.
Proof. done. Qed.

Lemma wp_stat (E key : string) (entry : stats) (v : statval) w
    (Q : outcome statval → world → Prop) :
  audio_stats w !! E = Some entry → entry !! key = Some v →
  Q (Returned v) w → wp (stat E key) w Q.
Proof.
  intros Hst Hv HQ. unfold wp, stat, stats_of, mbind, hub_bind, mret, hub_ret.
  rewrite Hst; cbv beta iota. by rewrite Hv.
Qed.

Lemma wp_len (v : pyval) (n : Z) w (Q : outcome Z → world → Prop) :
  Py.len v = Some n → Q (Returned n) w → wp (len v) w Q.
Proof. intros Hn HQ. unfold wp, len. by rewrite Hn. Qed.

Lemma wp_int (s : string) (n : Z) w (Q : outcome Z → world → Prop) :
  Py.int s = Some n → Q (Returned n) w → wp (int s) w Q.
Proof. intros Hn HQ. unfold wp, int. by rewrite Hn. Qed.

Lemma wp_int_bad (s : string) w (Q : outcome Z → world → Prop) :
  Py.int s = None → Q (Raised ValueError) w → wp (int s) w Q.
Proof. intros Hn HQ. unfold wp, int. by rewrite Hn. Qed.

Lemma wp_getitem (d : message) (key : string) (v : pyval) w
    (Q : outcome pyval → world → Prop) :
  d !! key = Some v → Q (Returned v) w → wp (getitem d key) w Q.
Proof. intros Hv HQ. unfold wp, getitem. by rewrite Hv. Qed.

Lemma wp_getitem_missing (d : message) (key : string) w
    (Q : outcome pyval → world → Prop) :
  d !! key = None → Q (Raised (KeyError key)) w → wp (getitem d key) w Q.
Proof. intros Hv HQ. unfold wp, getitem. by rewrite Hv. Qed.

Ltac wp_step :=
  lazymatch goal with
  | |- wp (_ ≫= _) _ _ => apply wp_bind
  | |- wp (try_except _ _) _ _ => apply wp_try
  | |- wp (mret _) _ _ => apply wp_ret
  | |- wp pass _ _ => apply wp_ret
  | |- wp (raise _) _ _ => apply wp_raise
  | |- wp (gets _) _ _ => apply wp_gets
  | |- wp (utcnow _) _ _ => apply wp_utcnow
  | |- wp (modify _) _ _ => apply wp_modify
  | |- wp (print _) _ _ => apply wp_modify
  | |- wp (join_room _ _) _ _ => apply wp_modify
  | |- wp (leave_room _ _) _ _ => apply wp_modify
  | |- wp (emit_broadcast _ _) _ _ => apply wp_modify
  | |- wp (emit_others _ _ _) _ _ => apply wp_modify
  | |- wp (emit_self _ _) _ _ => apply wp_modify
  | |- wp (drop_connection _) _ _ => apply wp_modify
  | |- wp (getitem _ _) _ _ =>
      first [ eapply wp_getitem; [eassumption|]
            | eapply wp_getitem_missing; [eassumption|] ]
  | |- wp (int _) _ _ =>
      first [ eapply wp_int; [eassumption|] | eapply wp_int_bad; [eassumption|] ]
  | |- wp (len _) _ _ => eapply wp_len; [eassumption|]
  | |- after _ _ (Returned _) _ => unfold after at 1
  | |- after _ _ (Raised _) _ => unfold after at 1
  | |- caught _ _ (Returned _) _ => unfold caught at 1
  | |- caught _ _ (Raised _) _ => unfold caught at 1
  end.

Ltac wp_steps := repeat (wp_step; cbv beta iota zeta).

(** The fields of a world that went through some updates. *)
Ltac fields :=
  cbn [rooms active_streams audio_stats audio_headers events outbox console ticks
       set_rooms set_audio_stats set_audio_headers set_events set_outbox
       set_console set_ticks] in *.

(** ** Python and Socket.IO facts *)

Lemma len_data_uri (mime a : pyval) :
  is_Some (Py.len a) → is_Some (Py.len (data_uri mime a)).
Proof. destruct a; simpl; try done. by destruct (negb _). Qed.

Lemma has_event_id (d : message) (v : pyval) :
  d !! "event_id" = Some v → no_event_id d = false.
Proof.
  intros Hid. unfold no_event_id.
  rewrite (bool_decide_eq_false_2 (d = ∅)) by (intros ->; by rewrite lookup_empty in Hid).
  by rewrite (bool_decide_eq_false_2 (d !! "event_id" = None)) by (by rewrite Hid).
Qed.

Lemma elem_of_deliveries (to : gset sid) (pkt p : packet) (r : sid) :
  (r, p) ∈ deliveries to pkt ↔ r ∈ to ∧ p = pkt.
Proof.
  unfold deliveries. rewrite list_elem_of_fmap. split.
  - intros (r' & [= -> ->] & Hr%elem_of_elements). done.
  - intros [Hr ->]. exists r. by rewrite elem_of_elements.
Qed.

Lemma received_by_app (r : sid) (o1 o2 : list (sid * packet)) :
  received_by r (o1 ++ o2) = received_by r o1 ++ received_by r o2.
Proof. unfold received_by. by rewrite filter_app, fmap_app. Qed.

Lemma received_by_deliveries (to : gset sid) (pkt : packet) (r : sid) :
  received_by r (deliveries to pkt) = if decide (r ∈ to) then [pkt] else [].
Proof.
  unfold received_by, deliveries.
  assert (∀ l : list sid, NoDup l →
            (filter (λ d : sid * packet, d.1 = r) ((λ r', (r', pkt)) <$> l)).*2
            = if decide (r ∈ l) then [pkt] else []) as Hl.
  { induction 1 as [|x l Hx Hnd IH]; [done|].
    rewrite fmap_cons, filter_cons. simpl.
    destruct (decide (x = r)) as [->|Hne].
    - rewrite fmap_cons, IH. simpl.
      rewrite decide_False by done. by rewrite decide_True by left.
    - rewrite IH. destruct (decide (r ∈ l)).
      + by rewrite decide_True by (by right).
      + rewrite decide_False; [done|]. by intros [->|?]%elem_of_cons. }
  rewrite Hl by apply NoDup_elements.
  destruct (decide (r ∈ to)).
  - by rewrite decide_True by (by apply elem_of_elements).
  - by rewrite decide_False by (by rewrite elem_of_elements).
Qed.

(** ** The compressed-audio relay *)

(** The handler past its two checks, once the entry of the event has its
    two counters: it counts the chunk, caches it if it is the first,
    relays it to the others, and succeeds. *)
Lemma stream_audio_spec (me : sid) (d : message) (v a : pyval) (w : world) :
  d !! "event_id" = Some v → d !! "audio" = Some a → Py.truthy a = true →
  is_Some (Py.len a) → counts_chunks w (Py.str v) = true →
  let E := Py.str v in
  let mime := default (PStr "audio/webm") (d !! "mimeType") in
  let payload := data_uri mime a in
  ∃ w' n ts ts',
    handle_stream_audio clock me d w = (Returned Success, w') ∧
    Py.len payload = Some n ∧
    counter w' E "chunks_sent" = counter w E "chunks_sent" + 1 ∧
    counter w' E "total_bytes" = counter w E "total_bytes" + n ∧
    outbox w' = outbox w ++ deliveries (members w E ∖ {[me]})
                  (new_audio (AudioChunk payload mime ts E false)) ∧
    audio_headers w' =
      (if decide (counter w E "chunks_sent" = 0)
       then <[E := AudioChunk payload mime ts' E true]> (audio_headers w)
       else audio_headers w) ∧
    rooms w' = rooms w ∧ events w' = events w ∧
    active_streams w' = active_streams w ∧
    (∀ E', E' ≠ E → audio_stats w' !! E' = audio_stats w !! E').
Proof.
  intros Hid Ha Ht Hn Hc. cbv zeta.
  set (E := Py.str v) in *.
  set (mime := default (PStr "audio/webm") (d !! "mimeType")).
  apply (len_data_uri mime) in Hn as [n Hn].
  set (payload := data_uri mime a) in *.
  pose (fresh := ({[ "started_at" := SDate (clock (ticks w));
                     "chunks_sent" := SInt 0; "total_bytes" := SInt 0 ]} : stats)).
  pose (entry := default fresh (audio_stats w !! E)).
  assert (∃ c b, entry !! "chunks_sent" = Some (SInt c) ∧
                 entry !! "total_bytes" = Some (SInt b) ∧
                 counter w E "chunks_sent" = c ∧ counter w E "total_bytes" = b)
    as (c & b & Hc1 & Hb1 & Hcc & Hcb).
  { unfold entry, counter, counts_chunks in *.
    destruct (audio_stats w !! E) as [st|]; simpl in *.
    - destruct (st !! "chunks_sent") as [[c|]|]; try done.
      destruct (st !! "total_bytes") as [[b|]|]; try done. eauto 10.
    - exists 0, 0. done. }
  cut (wp (handle_stream_audio clock me d) w (λ o w',
         o = Returned Success ∧
         audio_stats w' = <[E := <["total_bytes" := SInt (b + n)]>
                                   (<["chunks_sent" := SInt (c + 1)]> entry)]> (audio_stats w) ∧
         (∃ ts, outbox w' = outbox w ++ deliveries (members w E ∖ {[me]})
                  (new_audio (AudioChunk payload mime ts E false))) ∧
         (∃ ts', audio_headers w' =
            (if decide (c = 0)
             then <[E := AudioChunk payload mime ts' E true]> (audio_headers w)
             else audio_headers w)) ∧
         rooms w' = rooms w ∧ events w' = events w ∧
         active_streams w' = active_streams w)).
  { intros (o & w' & Hrun & -> & Hst & [ts Hout] & [ts' Hhd] & Hrm & Hev & Hact)%wp_run.
    exists w', n, ts, ts'. rewrite Hrun, Hcc.
    repeat split; try done.
    - unfold counter at 1. rewrite Hst, lookup_insert_eq. simpl.
      rewrite lookup_insert_ne by done. rewrite lookup_insert_eq. lia.
    - unfold counter at 1. rewrite Hst, lookup_insert_eq. simpl.
      rewrite lookup_insert_eq. lia.
    - intros E' HE'. rewrite Hst. by rewrite lookup_insert_ne. }
  unfold handle_stream_audio. rewrite (has_event_id d v) by done.
  unfold getitem. rewrite Hid, Ha. simpl. rewrite Ht. simpl.
  fold E mime payload.
  wp_steps.
  lazymatch goal with |- wp _ _ (after ?K ?Q) =>
    assert (∀ w1, audio_stats w1 !! E = Some entry →
              wp (K tt) w1 (λ o w',
                o = Returned Success ∧
                audio_stats w' = <[E := <["total_bytes" := SInt (b + n)]>
                   (<["chunks_sent" := SInt (c + 1)]> entry)]> (audio_stats w1) ∧
                (∃ ts, outbox w' = outbox w1 ++ deliveries (members w1 E ∖ {[me]})
                  (new_audio (AudioChunk payload mime ts E false))) ∧
                (∃ ts', audio_headers w' =
                  (if decide (c = 0)
                   then <[E := AudioChunk payload mime ts' E true]> (audio_headers w1)
                   else audio_headers w1)) ∧
                rooms w' = rooms w1 ∧ events w' = events w1 ∧
                active_streams w' = active_streams w1)) as Htail
  end.
  { intros w1 Hst. wp_steps.
    eapply wp_stat_iadd; [done..|]. wp_steps.
    eapply wp_stat_iadd;
      [apply lookup_insert_eq | by rewrite lookup_insert_ne
      | unfold len; by rewrite Hn |].
    wp_steps.
    eapply wp_stat;
      [apply lookup_insert_eq
      | rewrite lookup_insert_ne by done; apply lookup_insert_eq |].
    wp_steps.
    assert (∀ w2 (P : outcome ack → world → Prop),
              audio_stats w2 !! E = Some (<["total_bytes" := SInt (b + n)]>
                                            (<["chunks_sent" := SInt (c + 1)]> entry)) →
              P (Returned Success)
                (set_outbox (λ o, o ++ deliveries (members w2 E ∖ {[me]})
                   (new_audio (AudioChunk payload mime
                                 (get_timestamp d (clock (ticks w2))) E false)))
                   (set_ticks S w2)) →
              (∀ l, P (Returned Success)
                (set_outbox (λ o, o ++ deliveries (members w2 E ∖ {[me]})
                   (new_audio (AudioChunk payload mime
                                 (get_timestamp d (clock (ticks w2))) E false)))
                   (set_ticks S (set_console (λ c, c ++ [l]) w2)))) →
              wp (stat E "chunks_sent") w2 (after (λ chunk_count,
                  every_50th chunk_count ≫= λ due : bool,
                  (if due then print (LogChunksSent E chunk_count E) else pass) ≫= λ _,
                  utcnow clock ≫= λ now,
                  emit_others me (new_audio (AudioChunk payload mime
                                    (get_timestamp d now) E false)) E ≫= λ _,
                  mret Success) P)) as Hemit.
    { intros w2 P Hst2 HP HPl.
      eapply wp_stat;
        [done | rewrite lookup_insert_ne by done; apply lookup_insert_eq |].
      wp_steps. unfold every_50th. wp_steps.
      destruct ((c + 1) mod 50 =? 1); wp_steps; [apply HPl | apply HP]. }
    destruct (decide (c = 0)) as [->|Hc0].
    - rewrite bool_decide_eq_true_2 by done. wp_steps.
      apply Hemit; [fields; apply lookup_insert_eq | |intros l];
        fields; rewrite insert_insert_eq; unfold members; fields; repeat split; eauto.
    - rewrite bool_decide_eq_false_2 by (intros [= ?]; lia). wp_steps.
      apply Hemit; [fields; apply lookup_insert_eq | |intros l];
        fields; rewrite insert_insert_eq; unfold members; fields;
        repeat split; eauto; exact (FromClock 0). }
  subst entry E.
  destruct (audio_stats w !! Py.str v) as [st|] eqn:Hst.
  - do 2 (wp_step; cbv beta iota). eapply wp_wand; [by apply Htail|].
    intros o w' [-> H]. by split.
  - do 5 (wp_step; cbv beta iota).
    eapply wp_wand; [apply Htail; fields; apply lookup_insert_eq|].
    intros o w' (-> & Hst' & H). revert Hst' H.
    unfold members. fields. rewrite insert_insert_eq. by split.
Qed.

(** ** Frames: what no request undoes *)

Section Frames.

Context (R : relation world) (HR : frame R).

Lemma stable_ret {A : Type} (a : A) : stable R (mret a).
Proof. intros w. apply HR. Qed.

Lemma stable_raise {A : Type} (e : exn) : stable R (raise (A:=A) e).
Proof. intros w. apply HR. Qed.

Lemma stable_gets {A : Type} (f : world → A) : stable R (gets f).
Proof. intros w. apply HR. Qed.

Lemma stable_bind {A B : Type} (m : hub A) (k : A → hub B) :
  stable R m → (∀ a, stable R (k a)) → stable R (m ≫= k).
Proof.
  intros Hm Hk w. specialize (Hm w). unfold mbind, hub_bind.
  destruct (m w) as [[a|e] w1]; simpl in *; [|done].
  eapply frame_trans; [done..|]. apply Hk.
Qed.

Lemma stable_try {A : Type} (body : hub A) (handler : exn → hub A) :
  stable R body → (∀ e, stable R (handler e)) → stable R (try_except body handler).
Proof.
  intros Hm Hk w. specialize (Hm w). unfold try_except.
  destruct (body w) as [[a|e] w1]; simpl in *; [done|].
  eapply frame_trans; [done..|]. apply Hk.
Qed.

Lemma stable_modify (f : world → world) : (∀ w, R w (f w)) → stable R (modify f).
Proof. intros Hf w. apply Hf. Qed.

Lemma stable_utcnow : stable R (utcnow clock).
Proof. intros w. apply HR. Qed.

Lemma stable_stats_of (E : string) : stable R (stats_of E).
Proof. intros w. unfold stats_of. destruct (_ !! _); apply HR. Qed.

Ltac walk :=
  repeat first
    [ apply stable_bind; [|intros ?]
    | apply stable_try; [|intros ?]
    | apply stable_ret
    | apply stable_raise
    | apply stable_gets
    | apply stable_utcnow
    | apply stable_stats_of
    | apply stable_modify; intros ?; apply HR
    | progress unfold pass, print, getitem, int, len, stat, stat_iadd, every_50th,
        seconds_since, join_room, leave_room, emit_broadcast, emit_others,
        emit_self, drop_connection
    | match goal with
      | |- stable _ (match ?x with _ => _ end) => destruct x
      end ].

Lemma stable_handle (me : sid) (r : request) : stable R (handle clock me r).
Proof.
  destruct r; unfold handle, handle_connect, on_join, on_leave, handle_start_stream,
    handle_stream_frame, handle_stream_audio, handle_stream_audio_pcm,
    handle_stop_stream, handle_reaction, handle_disconnect, debug_rooms; walk.
Qed.

Lemma frame_serve (me : sid) (r : request) (w : world) : R w (serve clock me r w).
Proof. apply stable_handle. Qed.

Lemma frame_run (trace : list (sid * request)) (w : world) : R w (run clock trace w).
Proof.
  revert w. induction trace as [|[me r] trace IH]; intros w; simpl.
  - apply HR.
  - eapply frame_trans; [done| apply frame_serve | apply IH].
Qed.

End Frames.

(** The outbox is only ever appended to. *)
Lemma outbox_frame : frame (λ w w', ∃ more, outbox w' = outbox w ++ more).
Proof.
  split; try (intros f w; exists []; by rewrite app_nil_r).
  - intros w. exists []. by rewrite app_nil_r.
  - intros w1 w2 w3 [m1 H1] [m2 H2]. exists (m1 ++ m2). by rewrite H2, H1, app_assoc.
  - intros more w. by exists more.
Qed.

(** No request writes [active_streams]. *)
Lemma active_streams_frame : frame (λ w w', active_streams w' = active_streams w).
Proof. split; try done. intros w1 w2 w3 H1 H2. by rewrite H2. Qed.

(** ** Joining *)

Lemma on_join_spec (me : sid) (d : message) (v : pyval) (w : world) :
  d !! "event_id" = Some v →
  ∃ w', on_join me d w = (Returned tt, w') ∧
    rooms w' = <[Py.str v := members w (Py.str v) ∪ {[me]}]> (rooms w) ∧
    outbox w' = outbox w ++ replay me w (Py.str v) ∧
    audio_stats w' = audio_stats w ∧ audio_headers w' = audio_headers w ∧
    events w' = events w.
Proof.
  intros Hid.
  cut (wp (on_join me d) w (λ o w', o = Returned tt ∧
         rooms w' = <[Py.str v := members w (Py.str v) ∪ {[me]}]> (rooms w) ∧
         outbox w' = outbox w ++ replay me w (Py.str v) ∧
         audio_stats w' = audio_stats w ∧ audio_headers w' = audio_headers w ∧
         events w' = events w)).
  { intros (o & w' & Hrun & -> & H)%wp_run. eauto. }
  unfold on_join, replay. wp_steps. fields.
  destruct (audio_headers w !! Py.str v); wp_steps; fields;
    by rewrite ?app_nil_r.
Qed.

(** C2.  A connection that joins room E is added to the room and is sent,
    alone, the cached first chunk of E if there is one, and nothing if
    there is none; whatever the server handles afterwards comes after
    that replay. *)
Theorem join_replays_header (me : sid) (d : message) (v : pyval) (w : world) :
  d !! "event_id" = Some v →
  let E := Py.str v in
  ∃ w', on_join me d w = (Returned tt, w') ∧
    me ∈ members w' E ∧
    outbox w' = outbox w ++ replay me w E ∧
    (∀ header, audio_headers w !! E = Some header →
       replay me w E = [(me, new_audio header)]) ∧
    (audio_headers w !! E = None → replay me w E = []) ∧
    ∀ trace, ∃ later,
      outbox (run clock trace w') = outbox w ++ replay me w E ++ later.
Proof.
  intros Hid E.
  destruct (on_join_spec me d v w Hid) as (w' & Hrun & Hrm & Hout & _).
  exists w'. repeat split; try done.
  - unfold members. rewrite Hrm, lookup_insert_eq. simpl. set_solver.
  - intros header Hh. unfold replay. by rewrite Hh.
  - intros Hh. unfold replay. by rewrite Hh.
  - intros trace.
    destruct (frame_run _ outbox_frame trace w') as [later Hlater].
    exists later. by rewrite Hlater, Hout, app_assoc.
Qed.

(** ** Starting and stopping *)

Lemma start_stream_spec (me : sid) (d : message) (v : pyval) (key : Z) (w : world) :
  d !! "event_id" = Some v → Py.int (Py.str v) = Some key →
  let E := Py.str v in
  ∃ w', handle_start_stream me d w = (Returned tt, w') ∧
    audio_headers w' = delete E (audio_headers w) ∧
    audio_stats w' = audio_stats w ∧ rooms w' = rooms w ∧
    events w' = (if events w !! key is Some _ then <[key := true]> (events w) else events w) ∧
    outbox w' = outbox w ++
      (if events w !! key is Some _ then deliveries (members w E) (stream_started E) else []) ∧
    console w' = console w ++
      (if events w !! key is Some _ then [LogStarted E E] else []).
Proof.
  intros Hid Hkey E.
  cut (wp (handle_start_stream me d) w (λ o w', o = Returned tt ∧
    audio_headers w' = delete E (audio_headers w) ∧
    audio_stats w' = audio_stats w ∧ rooms w' = rooms w ∧
    events w' = (if events w !! key is Some _ then <[key := true]> (events w) else events w) ∧
    outbox w' = outbox w ++
      (if events w !! key is Some _ then deliveries (members w E) (stream_started E) else []) ∧
    console w' = console w ++
      (if events w !! key is Some _ then [LogStarted E E] else []))).
  { intros (o & w' & Hrun & -> & H)%wp_run. eauto. }
  unfold handle_start_stream. subst E. wp_steps.
  destruct (audio_headers w !! Py.str v) eqn:Hh; wp_steps; fields;
    destruct (events w !! key); wp_steps; unfold members; fields;
    rewrite ?app_nil_r, ?(delete_id _ _ Hh); done.
Qed.


(** ** Invariants of the counters *)

Lemma wp_stats_of (E : string) w (Q : outcome stats → world → Prop) :
  match audio_stats w !! E with
  | Some entry => Q (Returned entry) w
  | None => Q (Raised (KeyError E)) w
  end → wp (stats_of E) w Q.
Proof. unfold wp, stats_of. by destruct (audio_stats w !! E). Qed.

(** Every path through a handler, one goal for each. *)
Ltac wp_walk :=
  repeat first
    [ progress wp_steps
    | progress unfold stat, stat_iadd, getitem, int, len, every_50th, seconds_since
    | apply wp_stats_of; fields; rewrite ?lookup_insert_eq
    | match goal with
      | |- wp (match ?x with _ => _ end) _ _ => destruct x eqn:?
      | |- match ?x with _ => _ end => destruct x eqn:?
      end ].

Lemma entry_without_serve (key E : string) (me : sid) (r : request) (w : world) :
  entry_without key E w → ¬ stops E r → entry_without key E (serve clock me r w).
Proof.
  intros (e0 & He0 & Hk) Hstop.
  cut (wp (handle clock me r) w (λ _ w', entry_without key E w')); [done|].
  destruct r; unfold handle, handle_connect, on_join, on_leave, handle_start_stream,
    handle_stream_frame, handle_stream_audio, handle_stream_audio_pcm,
    handle_stop_stream, handle_reaction, handle_disconnect, debug_rooms.
  all: wp_walk.
  all: unfold entry_without; fields.
  all: try (by eauto).
  all: unfold stops, event_of in Hstop;
    repeat match goal with
           | H : ?d !! "event_id" = Some _ |- _ => rewrite H in Hstop; clear H
           end; simpl in Hstop.
  all: match goal with
       | |- context [ <[?E' := _]> _ !! ?E0 ] => destruct (decide (E' = E0)) as [<-|?]
       | |- context [ delete ?E' _ !! ?E0 ] => destruct (decide (E' = E0)) as [<-|?]
       end; simplify_map_eq; try (by eauto).
  all: eexists; split; [done|]; by rewrite !lookup_insert_ne.
Qed.

Lemma entry_without_run (key E : string) (trace : list (sid * request)) (w : world) :
  entry_without key E w → Forall (λ sr, ¬ stops E sr.2) trace →
  entry_without key E (run clock trace w).
Proof.
  intros Hw Htrace. revert w Hw.
  induction Htrace as [|[me r] trace Hr _ IH]; intros w Hw; simpl; [done|].
  apply IH. by apply entry_without_serve.
Qed.

(** Only dates are ever stored under ['started_at']. *)
Lemma dated_serve (me : sid) (r : request) (w : world) :
  (∀ E, dated w E = true) → ∀ E, dated (serve clock me r w) E = true.
Proof.
  intros Hw E.
  cut (wp (handle clock me r) w (λ _ w', dated w' E = true)); [done|].
  destruct r; unfold handle, handle_connect, on_join, on_leave, handle_start_stream,
    handle_stream_frame, handle_stream_audio, handle_stream_audio_pcm,
    handle_stop_stream, handle_reaction, handle_disconnect, debug_rooms.
  all: wp_walk.
  all: unfold dated; fields.
  all: try apply Hw.
  all: match goal with
       | |- context [ <[?E' := _]> _ !! ?E0 ] =>
           destruct (decide (E' = E0)) as [<-|?];
           [pose proof (Hw E') as HE | pose proof (Hw E0) as HE]
       | |- context [ delete ?E' _ !! ?E0 ] =>
           destruct (decide (E' = E0)) as [<-|?];
           [pose proof (Hw E') as HE | pose proof (Hw E0) as HE]
       end; unfold dated in HE; simplify_map_eq; try done.
Qed.

Lemma dated_run (trace : list (sid * request)) (w : world) :
  (∀ E, dated w E = true) → ∀ E, dated (run clock trace w) E = true.
Proof.
  revert w. induction trace as [|[me r] trace IH]; intros w Hw; simpl; [done|].
  apply IH. by apply dated_serve.
Qed.

Lemma dated_initial (db : gmap Z bool) (E : string) : dated (initial db) E = true.
Proof. done. Qed.

Lemma header_counted_serve (me : sid) (r : request) (w : world) :
  header_counted w → header_counted (serve clock me r w).
Proof.
  intros Hw.
  cut (wp (handle clock me r) w (λ _ w', header_counted w')); [done|].
  destruct r; unfold handle, handle_connect, on_join, on_leave, handle_start_stream,
    handle_stream_frame, handle_stream_audio, handle_stream_audio_pcm,
    handle_stop_stream, handle_reaction, handle_disconnect, debug_rooms.
  all: wp_walk.
  all: intros E; specialize (Hw E); fields; try done.
  all: repeat match goal with
         | H : bool_decide _ = true |- _ => apply bool_decide_eq_true in H
         | H : bool_decide _ = false |- _ => apply bool_decide_eq_false in H
         end.
  all: repeat match goal with
         | |- context [ <[?E' := _]> _ !! ?E0 ] =>
             destruct (decide (E' = E0)) as [<-|?]; simplify_map_eq
         | |- context [ delete ?E' _ !! ?E0 ] =>
             destruct (decide (E' = E0)) as [<-|?]; simplify_map_eq
         end.
  all: try done.
  all: intros Hh.
  all: try (by destruct Hh as [? Hh]; congruence).
  all: try (apply Hw in Hh as (e & c & He & Hc & Hle); simplify_eq).
  all: eexists _, _; split; [reflexivity|]; split; [by simplify_map_eq | lia].
Qed.

Lemma header_counted_run (trace : list (sid * request)) (w : world) :
  header_counted w → header_counted (run clock trace w).
Proof.
  revert w. induction trace as [|[me r] trace IH]; intros w Hw; simpl; [done|].
  apply IH. by apply header_counted_serve.
Qed.

Lemma header_counted_initial (db : gmap Z bool) : header_counted (initial db).
Proof. intros E [h Hh]. cbn [initial audio_headers] in Hh. by rewrite lookup_empty in Hh. Qed.

(** Once an event has counted a compressed chunk, no later chunk is
    cached: after a start that found counters, the session runs without
    header until a stop. *)
Lemma counted_event_caches_nothing (me : sid) (d : message) (v a : pyval) (w : world) :
  d !! "event_id" = Some v → d !! "audio" = Some a → Py.truthy a = true →
  is_Some (Py.len a) → counts_chunks w (Py.str v) = true →
  1 ≤ counter w (Py.str v) "chunks_sent" →
  ∃ w', handle_stream_audio clock me d w = (Returned Success, w') ∧
    audio_headers w' = audio_headers w ∧
    1 ≤ counter w' (Py.str v) "chunks_sent".
Proof.
  intros Hid Ha Ht Hlen Hc Hone.
  destruct (stream_audio_spec me d v a w Hid Ha Ht Hlen Hc)
    as (w' & n & ts & ts' & Hrun & _ & Hsent & _ & _ & Hhd & _).
  exists w'. rewrite decide_False in Hhd by lia.
  repeat split; [done..|lia].
Qed.




(** The diagnostic query is one read of the state. *)
Lemma debug_rooms_reads (E : string) (w : world) :
  debug_rooms E w =
  (Returned (RoomInfo E [] (default ∅ (audio_stats w !! E))
                      (bool_decide (E ∈ active_streams w))), w).
Proof. done. Qed.

(** X14.  It never reports a stream: no request fills [active_streams]. *)
Lemma never_streaming (db : gmap Z bool) (trace : list (sid * request)) (E : string) :
  ∃ info, (debug_rooms E (run clock trace (initial db))).1 = Returned info ∧
    info_is_streaming info = false ∧ info_clients info = [].
Proof.
  eexists. rewrite debug_rooms_reads. simpl. split; [done|]. split; [|done].
  rewrite (frame_run _ active_streams_frame trace (initial db)).
  by rewrite bool_decide_eq_false_2 by set_solver.
Qed.

(** ** The raw-audio relay *)

Lemma stream_audio_pcm_spec (me : sid) (d : message) (v : pyval) (w : world) :
  d !! "event_id" = Some v → counts_samples w (Py.str v) = true →
  let E := Py.str v in
  ∃ w', handle_stream_audio_pcm me d w = (Returned tt, w') ∧
    counter w' E "chunks" = counter w E "chunks" + 1 ∧
    (audio_stats w !! E = None → audio_stats w' !! E = Some {[ "chunks" := SInt 1 ]}) ∧
    outbox w' = outbox w ++ deliveries (members w E ∖ {[me]}) (new_audio_pcm d) ∧
    audio_headers w' = audio_headers w ∧ rooms w' = rooms w ∧ events w' = events w.
Proof.
  intros Hid Hc. cbv zeta.
  cut (wp (handle_stream_audio_pcm me d) w (λ o w', o = Returned tt ∧
    counter w' (Py.str v) "chunks" = counter w (Py.str v) "chunks" + 1 ∧
    (audio_stats w !! Py.str v = None →
     audio_stats w' !! Py.str v = Some {[ "chunks" := SInt 1 ]}) ∧
    outbox w' = outbox w ++ deliveries (members w (Py.str v) ∖ {[me]}) (new_audio_pcm d) ∧
    audio_headers w' = audio_headers w ∧ rooms w' = rooms w ∧ events w' = events w)).
  { intros (o & w' & Hrun & -> & H)%wp_run. eauto. }
  unfold handle_stream_audio_pcm. rewrite (has_event_id d v) by done.
  unfold counts_samples, counter in *.
  wp_steps. fields.
  destruct (audio_stats w !! Py.str v) as [entry|] eqn:Hst; simpl.
  - destruct (entry !! "chunks") as [[c|]|] eqn:Hchunks; try done.
    wp_steps.
    eapply wp_stat_iadd; [done..|]. wp_steps.
    eapply wp_stat; [fields; apply lookup_insert_eq | apply lookup_insert_eq |].
    wp_steps. unfold every_50th. wp_steps.
    destruct (_ =? _); wp_steps;
      [eapply wp_stat; [fields; apply lookup_insert_eq | apply lookup_insert_eq |];
       wp_steps|];
      unfold members; fields; rewrite lookup_insert_eq; simpl;
      rewrite lookup_insert_eq; done.
  - wp_steps.
    eapply wp_stat_iadd; [fields; apply lookup_insert_eq | apply lookup_singleton_eq | done |].
    wp_steps.
    eapply wp_stat; [fields; apply lookup_insert_eq | apply lookup_insert_eq |].
    wp_steps. unfold every_50th. wp_steps.
    destruct (_ =? _); wp_steps;
      [eapply wp_stat; [fields; apply lookup_insert_eq | apply lookup_insert_eq |];
       wp_steps|];
      unfold members; fields; rewrite lookup_insert_eq; simpl;
      rewrite lookup_insert_eq, insert_singleton_eq; done.
Qed.

(** ** The two audio paths on one entry *)

(** A compressed chunk for an event whose entry has no ['chunks_sent']
    fails on that key, having changed nothing but the console. *)
Lemma stream_audio_blocked (me : sid) (d : message) (v : pyval) (w : world) :
  d !! "event_id" = Some v → entry_without "chunks_sent" (Py.str v) w →
  ∃ msg w', handle_stream_audio clock me d w = (Returned (Error msg), w') ∧
    (Py.truthy (default PNone (d !! "audio")) = true →
     msg = StrOf (KeyError "chunks_sent")) ∧
    outbox w' = outbox w ∧ audio_headers w' = audio_headers w ∧
    audio_stats w' = audio_stats w.
Proof.
  intros Hid (entry & Hst & Hkey).
  cut (wp (handle_stream_audio clock me d) w (λ o w', ∃ msg, o = Returned (Error msg) ∧
    (Py.truthy (default PNone (d !! "audio")) = true →
     msg = StrOf (KeyError "chunks_sent")) ∧
    outbox w' = outbox w ∧ audio_headers w' = audio_headers w ∧
    audio_stats w' = audio_stats w)).
  { intros (o & w' & Hrun & msg & -> & H)%wp_run. eauto. }
  unfold handle_stream_audio. rewrite (has_event_id d v) by done.
  wp_steps.
  destruct (Py.truthy _) eqn:Ht; cbn [negb]; wp_steps; fields;
    [|exists (Text "No audio data"); by repeat split].
  rewrite Hst. wp_steps.
  eapply wp_stat_iadd_missing; [done..|]. wp_steps. fields.
  exists (StrOf (KeyError "chunks_sent")). by repeat split.
Qed.

(** A raw chunk for an event whose entry has no ['chunks'] is dropped:
    the handler prints the error and relays nothing. *)
Lemma stream_audio_pcm_blocked (me : sid) (d : message) (v : pyval) (w : world) :
  d !! "event_id" = Some v → entry_without "chunks" (Py.str v) w →
  ∃ w', handle_stream_audio_pcm me d w = (Returned tt, w') ∧
    console w' = console w ++ [LogPcmError (KeyError "chunks")] ∧
    outbox w' = outbox w ∧ audio_headers w' = audio_headers w ∧
    audio_stats w' = audio_stats w.
Proof.
  intros Hid (entry & Hst & Hkey).
  cut (wp (handle_stream_audio_pcm me d) w (λ o w', o = Returned tt ∧
    console w' = console w ++ [LogPcmError (KeyError "chunks")] ∧
    outbox w' = outbox w ∧ audio_headers w' = audio_headers w ∧
    audio_stats w' = audio_stats w)).
  { intros (o & w' & Hrun & -> & H)%wp_run. eauto. }
  unfold handle_stream_audio_pcm. rewrite (has_event_id d v) by done.
  wp_steps. fields. rewrite Hst. wp_steps.
  eapply wp_stat_iadd_missing; [done..|]. wp_steps. fields. eauto.
Qed.

(** A compressed chunk that passes the two checks leaves an entry
    without ['chunks'] where there was no entry. *)
Lemma stream_audio_creates (me : sid) (d : message) (v : pyval) (w : world) :
  d !! "event_id" = Some v → Py.truthy (default PNone (d !! "audio")) = true →
  audio_stats w !! Py.str v = None →
  entry_without "chunks" (Py.str v) (serve clock me (stream_audio d) w).
Proof.
  intros Hid Ht Hst.
  cut (wp (handle clock me (stream_audio d)) w
         (λ _ w', entry_without "chunks" (Py.str v) w')); [done|].
  unfold handle, handle_stream_audio. rewrite (has_event_id d v) by done.
  wp_steps. rewrite Ht. cbn [negb]. wp_steps. fields. rewrite Hst.
  wp_walk.
  all: unfold entry_without; fields; simplify_map_eq.
  all: eexists; split; [done|]; by simplify_map_eq.
Qed.

(** ** Malformed messages *)

(** The raw-audio handler returns nothing whatever it is sent, and does
    nothing at all for a message without event id. *)
Lemma stream_audio_pcm_returns (me : sid) (d : message) (w : world) :
  ∃ w', handle_stream_audio_pcm me d w = (Returned tt, w') ∧
    (lacks "event_id" d = true → hub_state w' = hub_state w ∧ outbox w' = outbox w).
Proof.
  cut (wp (handle_stream_audio_pcm me d) w (λ o w', o = Returned tt ∧
    (lacks "event_id" d = true → hub_state w' = hub_state w ∧ outbox w' = outbox w))).
  { intros (o & w' & Hrun & -> & H)%wp_run. eauto. }
  unfold handle_stream_audio_pcm, no_event_id, lacks.
  destruct (d !! "event_id") as [v|] eqn:Hid.
  - rewrite (bool_decide_eq_false_2 (Some v = None)) by done.
    destruct (bool_decide (d = ∅)); cbn [orb].
    all: wp_walk; by split.
  - rewrite (bool_decide_eq_true_2 (None = None)), orb_true_r by done.
    wp_steps. by split.
Qed.

(** C7, as amended.  A message that lacks its event id, and a video frame,
    a compressed chunk or a reaction that lacks the payload its handler
    reads, changes no hub state and is broadcast to nobody; but only the
    compressed-audio handler answers its sender with a structured error.
    The raw-audio handler returns nothing, and every other handler lets the
    [KeyError] of the missing field escape.  A raw chunk that has its event
    id and no samples is not rejected: its handler reads nothing but the
    event id, returns nothing, and counts and relays the message as it does
    any raw chunk for an event whose entry, if any, has the raw counter. *)
Theorem malformed_rejected (me : sid) (r : request) (w : world) :
  malformed r = true →
  ∃ res w', handle clock me r w = (res, w') ∧
    match r with
    | stream_audio _ =>
        hub_state w' = hub_state w ∧ outbox w' = outbox w ∧
        ∃ msg, res = Returned (Acked (Error (Text msg)))
    | stream_audio_pcm data =>
        res = Returned Nothing ∧
        (lacks "event_id" data = true →
           hub_state w' = hub_state w ∧ outbox w' = outbox w) ∧
        (∀ v, data !! "event_id" = Some v → counts_samples w (Py.str v) = true →
           counter w' (Py.str v) "chunks" = counter w (Py.str v) "chunks" + 1 ∧
           outbox w' = outbox w ++
             deliveries (members w (Py.str v) ∖ {[me]}) (new_audio_pcm data))
    | _ =>
        hub_state w' = hub_state w ∧ outbox w' = outbox w ∧
        ∃ key, res = Raised (KeyError key)
    end.
Proof.
  intros Hr.
  destruct r as [|d|d|d|d|d|d|d|d| |E]; simpl in Hr; try discriminate Hr.
  6: { destruct (stream_audio_pcm_returns me d w) as (w' & Hrun & Hnone).
       exists (Returned Nothing), w'. split.
       { unfold handle. unfold mbind, hub_bind. by rewrite Hrun. }
       split; [done|]. split; [done|]. intros v Hid Hc.
       destruct (stream_audio_pcm_spec me d v w Hid Hc)
         as (w'' & Hrun' & Hsent & _ & Hout & _).
       rewrite Hrun in Hrun'. by injection Hrun' as <-. }
  all: apply wp_run; simpl; unfold lacks in Hr;
    repeat match goal with
           | H : _ || _ = true |- _ => apply orb_true_iff in H
           | H : bool_decide _ = true |- _ => apply bool_decide_eq_true in H
           end.
  - unfold on_join. wp_steps. eauto.
  - unfold on_leave. wp_steps. eauto.
  - unfold handle_start_stream. wp_steps. eauto.
  - unfold handle_stream_frame.
    destruct (d !! "event_id") as [v|] eqn:Hid; wp_steps; [|by eauto].
    destruct Hr as [Hr|Hr%bool_decide_eq_true]; [done|]. wp_steps. eauto.
  - unfold handle_stream_audio, no_event_id.
    destruct (d !! "event_id") as [v|] eqn:Hid.
    + destruct Hr as [Hr|Hr%bool_decide_eq_true]; [done|]. rewrite Hr.
      rewrite (bool_decide_eq_false_2 (Some v = None)), orb_false_r by done.
      destruct (bool_decide (d = ∅));
        wp_steps; cbn [default from_option Py.truthy negb id]; wp_steps;
        repeat split; eauto.
    + rewrite (bool_decide_eq_true_2 (None = None)), orb_true_r by done.
      wp_steps. repeat split; eauto.
  - unfold handle_stop_stream. wp_steps. eauto.
  - unfold handle_reaction.
    destruct (d !! "event_id") as [v|] eqn:Hid; wp_steps; [|by eauto].
    destruct Hr as [Hr|Hr%bool_decide_eq_true]; [done|]. wp_steps. eauto.
Qed.

(** ** The claims about the lifecycle *)




(** ** The claims about the relays *)



Lemma received_by_others (me r : sid) (to : gset sid) (pkt : packet) :
  received_by r (deliveries (to ∖ {[me]}) pkt) =
  if decide (r ∈ to ∧ r ≠ me) then [pkt] else [].
Proof.
  rewrite received_by_deliveries.
  destruct (decide (r ∈ to ∖ {[me]})) as [Hr|Hr].
  - rewrite decide_True; [done|]. set_solver.
  - rewrite decide_False; [done|]. set_solver.
Qed.


(** C10, as amended.  A raw chunk for an event E without counters entry
    creates the entry with the one counter ['chunks']; from then on, and
    until a stop for E, every compressed chunk for E gets an error
    acknowledgement (the [KeyError] of ['chunks_sent'] once it passes the
    payload check), is relayed to nobody and caches no header.  The other
    way round, once a compressed chunk has created the entry, every raw
    chunk for E, until a stop for E, is dropped: the handler returns
    nothing and relays nothing. *)
Theorem audio_paths_block_each_other (me sender : sid) (d d' : message) (v v' : pyval)
    (trace : list (sid * request)) (w : world) :
  d !! "event_id" = Some v → audio_stats w !! Py.str v = None →
  Forall (λ sr, ¬ stops (Py.str v) sr.2) trace →
  d' !! "event_id" = Some v' → Py.str v' = Py.str v →
  let E := Py.str v in
  (let w1 := serve clock me (stream_audio_pcm d) w in
   let w2 := run clock trace w1 in
   audio_stats w1 !! E = Some {[ "chunks" := SInt 1 ]} ∧
   ∃ msg w3, handle_stream_audio clock sender d' w2 = (Returned (Error msg), w3) ∧
     (Py.truthy (default PNone (d' !! "audio")) = true →
      msg = StrOf (KeyError "chunks_sent")) ∧
     outbox w3 = outbox w2 ∧ audio_headers w3 = audio_headers w2) ∧
  (Py.truthy (default PNone (d !! "audio")) = true →
   let w1 := serve clock me (stream_audio d) w in
   let w2 := run clock trace w1 in
   ∃ w3, handle_stream_audio_pcm sender d' w2 = (Returned tt, w3) ∧
     outbox w3 = outbox w2).
Proof.
  intros Hid Hst Htrace Hid' Hv' E. split.
  - intros w1 w2.
    assert (audio_stats w1 !! E = Some {[ "chunks" := SInt 1 ]}) as Hw1.
    { destruct (stream_audio_pcm_spec me d v w Hid) as (w' & Hrun & _ & Hnew & _).
      { unfold counts_samples. by rewrite Hst. }
      unfold w1, serve, handle, mbind, hub_bind. rewrite Hrun. by apply Hnew. }
    split; [done|].
    assert (entry_without "chunks_sent" (Py.str v') w2) as Hw2.
    { rewrite Hv'. apply entry_without_run; [|done].
      eexists. split; [exact Hw1|done]. }
    destruct (stream_audio_blocked sender d' v' w2 Hid' Hw2)
      as (msg & w3 & Hrun & Hmsg & Hout & Hhd & _).
    by exists msg, w3.
  - intros Ht w1 w2.
    assert (entry_without "chunks" (Py.str v') w2) as Hw2.
    { rewrite Hv'. apply entry_without_run; [|done].
      by apply stream_audio_creates. }
    destruct (stream_audio_pcm_blocked sender d' v' w2 Hid' Hw2)
      as (w3 & Hrun & _ & Hout & _).
    by exists w3.
Qed.


(** * Further properties of the hub *)

(** ** Membership *)

Lemma on_leave_spec (me : sid) (d : message) (v : pyval) (w : world) :
  d !! "event_id" = Some v →
  ∃ w', on_leave me d w = (Returned tt, w') ∧
    rooms w' = <[Py.str v := members w (Py.str v) ∖ {[me]}]> (rooms w) ∧
    outbox w' = outbox w ∧ audio_stats w' = audio_stats w ∧
    audio_headers w' = audio_headers w ∧ events w' = events w.
Proof.
  intros Hid.
  cut (wp (on_leave me d) w (λ o w', o = Returned tt ∧
    rooms w' = <[Py.str v := members w (Py.str v) ∖ {[me]}]> (rooms w) ∧
    outbox w' = outbox w ∧ audio_stats w' = audio_stats w ∧
    audio_headers w' = audio_headers w ∧ events w' = events w)).
  { intros (o & w' & Hrun & -> & H)%wp_run. eauto. }
  unfold on_leave. wp_steps. done.
Qed.

Lemma serve_eq {A : Type} (m : hub A) (k : A → hub reply) (a : A) (w w' : world) :
  m w = (Returned a, w') → ((m ≫= k) w).2 = (k a w').2.
Proof. intros Hrun. unfold mbind, hub_bind. by rewrite Hrun. Qed.

(** Whoever is not in a room stays out of it, whatever is served, until
    it joins. *)
Lemma outsider_serve (me : sid) (E : string) (s : sid) (r : request) (w : world) :
  me ∉ members w E → ¬ (s = me ∧ joins E r) → me ∉ members (serve clock s r w) E.
Proof.
  intros Hout Hjoin.
  cut (wp (handle clock s r) w (λ _ w', me ∉ members w' E)); [done|].
  destruct r; unfold handle, handle_connect, on_join, on_leave, handle_start_stream,
    handle_stream_frame, handle_stream_audio, handle_stream_audio_pcm,
    handle_stop_stream, handle_reaction, handle_disconnect, debug_rooms.
  all: wp_walk.
  all: unfold members in *; fields; try done.
  all: unfold joins, event_of in Hjoin;
    repeat match goal with
           | H : ?d !! "event_id" = Some _ |- _ => rewrite H in Hjoin; clear H
           end; simpl in Hjoin.
  all: try match goal with
       | |- context [ <[?E' := _]> _ !! ?E0 ] =>
           destruct (decide (E' = E0)) as [<-|?]; simplify_map_eq
       end.
  all: try done.
  all: try (rewrite lookup_fmap; destruct (rooms w !! E); simpl in *).
  all: set_solver.
Qed.

Lemma outsider_run (me : sid) (E : string) (trace : list (sid * request)) (w : world) :
  me ∉ members w E → Forall (λ sr, ¬ (sr.1 = me ∧ joins E sr.2)) trace →
  me ∉ members (run clock trace w) E.
Proof.
  intros Hw Htrace. revert w Hw.
  induction Htrace as [|[s r] trace Hr _ IH]; intros w Hw; simpl; [done|].
  apply IH. by apply outsider_serve.
Qed.

(** A request that names a room delivers nothing to a connection outside
    that room, its own join apart. *)
Lemma outsider_hears_nothing (me : sid) (E : string) (s : sid) (r : request) (w : world) :
  me ∉ members w E → names r = Some E → ¬ (s = me ∧ joins E r) →
  received_by me (outbox (serve clock s r w)) = received_by me (outbox w).
Proof.
  intros Hout Hname Hjoin.
  cut (wp (handle clock s r) w
         (λ _ w', received_by me (outbox w') = received_by me (outbox w))); [done|].
  destruct r; try discriminate;
    unfold handle, handle_connect, on_join, on_leave, handle_start_stream,
    handle_stream_frame, handle_stream_audio, handle_stream_audio_pcm,
    handle_stop_stream, handle_reaction, handle_disconnect, debug_rooms.
  all: wp_walk.
  all: fields; try done.
  all: unfold names, joins, event_of in Hname, Hjoin;
    repeat match goal with
           | H : ?d !! "event_id" = Some _, H' : context [ ?d !! "event_id" ] |- _ =>
               rewrite H in H'
           end; simpl in Hname, Hjoin; simplify_eq.
  all: rewrite received_by_app.
  all: try (rewrite ?received_by_others, ?received_by_deliveries;
            unfold members in *; fields;
            rewrite decide_False by tauto; by rewrite app_nil_r).
  unfold received_by. rewrite filter_cons, decide_False by (simpl; tauto).
  by rewrite app_nil_r.
Qed.

(** X1.  A connection that leaves room E is out of it, the other members
    and the other rooms are as they were, and as long as it does not join
    E again no request that names E delivers anything to it: not a
    reaction, a frame, an audio chunk, a start or a stop. *)
Theorem left_room_is_silent (me s : sid) (d : message) (v : pyval)
    (trace : list (sid * request)) (r : request) (w : world) :
  d !! "event_id" = Some v →
  Forall (λ sr, ¬ (sr.1 = me ∧ joins (Py.str v) sr.2)) trace →
  names r = Some (Py.str v) → ¬ (s = me ∧ joins (Py.str v) r) →
  let E := Py.str v in
  let w1 := serve clock me (leave_event d) w in
  let w2 := run clock trace w1 in
  members w1 E = members w E ∖ {[me]} ∧
  (∀ E', E' ≠ E → members w1 E' = members w E') ∧
  (me ∉ members w2 E) ∧
  received_by me (outbox (serve clock s r w2)) = received_by me (outbox w2).
Proof.
  intros Hid Htrace Hname Hjoin E w1 w2.
  destruct (on_leave_spec me d v w Hid) as (w' & Hrun & Hrm & _).
  assert (w1 = w') as Hw1 by (unfold w1, serve, handle; by rewrite (serve_eq _ _ _ _ _ Hrun)).
  assert (members w1 E = members w E ∖ {[me]}) as Hleft.
  { rewrite Hw1. unfold members at 1. by rewrite Hrm, lookup_insert_eq. }
  assert (me ∉ members w2 E) as Hout.
  { apply outsider_run; [|done]. rewrite Hleft. set_solver. }
  split; [done|]. split; [|split; [done|]].
  - intros E' HE'. rewrite Hw1. unfold members at 1.
    by rewrite Hrm, lookup_insert_ne.
  - by apply (outsider_hears_nothing me E).
Qed.

(** X2.  Joining twice is joining once, leaving twice is leaving once, and
    a join followed by a leave gives every room the members it had, when
    the connection was not in the room before. *)
Theorem join_leave_round_trip (me : sid) (d : message) (v : pyval) (w : world) :
  d !! "event_id" = Some v →
  let join := serve clock me (join_event d) in
  let leave := serve clock me (leave_event d) in
  (∀ E', members (join (join w)) E' = members (join w) E') ∧
  (∀ E', members (leave (leave w)) E' = members (leave w) E') ∧
  (me ∉ members w (Py.str v) → ∀ E', members (leave (join w)) E' = members w E').
Proof.
  intros Hid join leave.
  assert (∀ u, rooms (join u) = <[Py.str v := members u (Py.str v) ∪ {[me]}]> (rooms u))
    as Hjoin.
  { intros u. destruct (on_join_spec me d v u Hid) as (u' & Hrun & Hrm & _).
    unfold join, serve, handle. by rewrite (serve_eq _ _ _ _ _ Hrun). }
  assert (∀ u, rooms (leave u) = <[Py.str v := members u (Py.str v) ∖ {[me]}]> (rooms u))
    as Hleave.
  { intros u. destruct (on_leave_spec me d v u Hid) as (u' & Hrun & Hrm & _).
    unfold leave, serve, handle. by rewrite (serve_eq _ _ _ _ _ Hrun). }
  assert (∀ u E', members (join u) E' =
            if decide (Py.str v = E') then members u (Py.str v) ∪ {[me]}
            else members u E') as Hmj.
  { intros u E'. unfold members at 1. rewrite Hjoin.
    destruct (decide (Py.str v = E')) as [<-|?].
    - by rewrite lookup_insert_eq.
    - by rewrite lookup_insert_ne. }
  assert (∀ u E', members (leave u) E' =
            if decide (Py.str v = E') then members u (Py.str v) ∖ {[me]}
            else members u E') as Hml.
  { intros u E'. unfold members at 1. rewrite Hleave.
    destruct (decide (Py.str v = E')) as [<-|?].
    - by rewrite lookup_insert_eq.
    - by rewrite lookup_insert_ne. }
  split; [|split].
  - intros E'. rewrite !Hmj.
    destruct (decide (Py.str v = E')) as [<-|?]; [|done].
    rewrite decide_True by done. set_solver.
  - intros E'. rewrite !Hml.
    destruct (decide (Py.str v = E')) as [<-|?]; [|done].
    rewrite decide_True by done. set_solver.
  - intros Hout E'. rewrite Hml, !Hmj.
    destruct (decide (Py.str v = E')) as [<-|?]; [|done].
    rewrite decide_True by done. set_solver.
Qed.

(** ** Counting *)

Lemma relayable_fields (E : string) (d : message) :
  relayable E d →
  ∃ v a, d !! "event_id" = Some v ∧ Py.str v = E ∧ d !! "audio" = Some a ∧
    Py.truthy a = true ∧ is_Some (Py.len a) ∧
    normalized d = data_uri (default (PStr "audio/webm") (d !! "mimeType")) a.
Proof.
  intros (Hev & Ht & Hlen). unfold event_of, normalized in *.
  destruct (d !! "event_id") as [v|]; [|done].
  destruct (d !! "audio") as [a|]; [|done].
  simpl in *. exists v, a. repeat split; congruence.
Qed.

(** The two counters of the compressed path stay counters through every
    compressed chunk, accepted or not. *)
Lemma counts_chunks_stream_audio (E : string) (me : sid) (d : message) (w : world) :
  counts_chunks w E = true →
  counts_chunks (serve clock me (stream_audio d) w) E = true.
Proof.
  intros Hw.
  cut (wp (handle clock me (stream_audio d)) w (λ _ w', counts_chunks w' E = true));
    [done|].
  unfold handle, handle_stream_audio.
  wp_walk.
  all: unfold counts_chunks in *; fields; try done.
  all: repeat match goal with
         | |- context [ <[?E' := _]> _ !! ?E0 ] =>
             destruct (decide (E' = E0)) as [<-|?]; simplify_map_eq
         end.
  all: try done.
  all: apply andb_true_iff in Hw as [Hw1 Hw2]; try done.
  all: unfold is_counter in *.
  all: repeat match goal with
         | H : _ !! _ = Some _ |- _ =>
             first [ rewrite H in Hw1 | rewrite H in Hw2 | clear H ]
         end; done.
Qed.

(** X3.  Compressed chunks for one event, each with an event id and a
    payload that has a length, are all counted, whoever sends them:
    [chunks_sent] grows by their number and [total_bytes] by the lengths
    of their normalized payloads. *)
Theorem chunks_are_counted (E : string) (chunks : list (sid * message)) (w : world) :
  counts_chunks w E = true → Forall (λ sd, relayable E sd.2) chunks →
  let w' := run clock (prod_map id stream_audio <$> chunks) w in
  counter w' E "chunks_sent" = counter w E "chunks_sent" + Z.of_nat (length chunks) ∧
  counter w' E "total_bytes" = counter w E "total_bytes" + total_len (chunks.*2).
Proof.
  intros Hw Hall. revert w Hw.
  induction Hall as [|[s d] chunks Hd _ IH]; intros w Hw; cbn zeta in *.
  { simpl. split; lia. }
  destruct (relayable_fields E d Hd) as (v & a & Hid & <- & Ha & Ht & Hlen & Hnorm).
  destruct (stream_audio_spec s d v a w Hid Ha Ht Hlen Hw)
    as (w1 & n & ts & ts' & Hrun & Hn & Hsent & Hbytes & _).
  assert (serve clock s (stream_audio d) w = w1) as Hw1.
  { unfold serve, handle. by rewrite (serve_eq _ _ _ _ _ Hrun). }
  specialize (IH w1). rewrite <- Hw1 in IH at 1.
  specialize (IH (counts_chunks_stream_audio _ _ _ _ Hw)) as [IH1 IH2].
  rewrite fmap_cons. cbn [run foldl prod_map fst snd id] in *.
  rewrite Hw1. unfold run in IH1, IH2. rewrite IH1, IH2, Hsent, Hbytes.
  rewrite fmap_cons. cbn [total_len foldr length snd]. fold (total_len (chunks.*2)).
  rewrite Hnorm, Hn. simpl. split; lia.
Qed.

(** ** What an acknowledgement means *)

Lemma truthy_data_uri (mime a : pyval) :
  Py.truthy a = true → Py.truthy (data_uri mime a) = true.
Proof.
  destruct a as [| | |s|]; simpl; try done.
  intros H. by destruct (String.prefix "data:" s).
Qed.

(** X4.  The compressed-audio handler never lets an exception out and
    never touches the rooms or the store.  A success acknowledgement
    means the chunk went, not flagged as header, to the members of its
    room but the sender; an error acknowledgement means nothing was sent
    to anybody and the header cache is as it was. *)
Theorem stream_audio_acknowledges (me : sid) (d : message) (w : world) :
  ∃ a w', handle_stream_audio clock me d w = (Returned a, w') ∧
    rooms w' = rooms w ∧ events w' = events w ∧
    match a with
    | Success =>
        ∃ v chunk, d !! "event_id" = Some v ∧
          audio chunk = normalized d ∧ is_header chunk = false ∧
          outbox w' = outbox w ++
            deliveries (members w (Py.str v) ∖ {[me]}) (new_audio chunk)
    | Error _ => outbox w' = outbox w ∧ audio_headers w' = audio_headers w
    end.
Proof.
  cut (wp (handle_stream_audio clock me d) w (λ o w', ∃ a, o = Returned a ∧
    rooms w' = rooms w ∧ events w' = events w ∧
    match a with
    | Success =>
        ∃ v chunk, d !! "event_id" = Some v ∧
          audio chunk = normalized d ∧ is_header chunk = false ∧
          outbox w' = outbox w ++
            deliveries (members w (Py.str v) ∖ {[me]}) (new_audio chunk)
    | Error _ => outbox w' = outbox w ∧ audio_headers w' = audio_headers w
    end)).
  { intros (o & w' & Hrun & a & -> & H)%wp_run. eauto. }
  unfold handle_stream_audio.
  wp_walk.
  all: unfold members, normalized; fields.
  all: try (eexists; split; [reflexivity|]; by repeat split).
  all: try (eexists; split; [reflexivity|]; do 2 (split; [done|]);
            eexists _, _; split; [first [eassumption|reflexivity]|];
            split; [|split; [|reflexivity]]; reflexivity).
  all: repeat match goal with
         | H : bool_decide _ = false |- _ => apply bool_decide_eq_false in H
         | H : bool_decide _ = true |- _ => apply bool_decide_eq_true in H
         end; simplify_map_eq.
Qed.

(** ** Sessions without a header *)

Lemma headerless_serve (E : string) (me : sid) (r : request) (w : world) :
  headerless E w → ¬ stops E r → headerless E (serve clock me r w).
Proof.
  intros (Hh & e0 & c0 & He0 & Hc0 & Hle) Hstop.
  cut (wp (handle clock me r) w (λ _ w', headerless E w')); [done|].
  destruct r; unfold handle, handle_connect, on_join, on_leave, handle_start_stream,
    handle_stream_frame, handle_stream_audio, handle_stream_audio_pcm,
    handle_stop_stream, handle_reaction, handle_disconnect, debug_rooms.
  all: wp_walk.
  all: unfold headerless; fields.
  all: try (by eauto 10).
  all: unfold stops, event_of in Hstop;
    repeat match goal with
           | H : ?d !! "event_id" = Some _ |- _ => rewrite H in Hstop; clear H
           end; simpl in Hstop.
  all: repeat match goal with
         | H : bool_decide _ = false |- _ => apply bool_decide_eq_false in H
         | H : bool_decide _ = true |- _ => apply bool_decide_eq_true in H
         end.
  all: repeat match goal with
         | |- context [ <[?E' := _]> _ !! ?E0 ] =>
             destruct (decide (E' = E0)) as [<-|?]; simplify_map_eq
         | |- context [ delete ?E' _ !! ?E0 ] =>
             destruct (decide (E' = E0)) as [<-|?]; simplify_map_eq
         end.
  all: try (by eauto 10).
  all: try (split; [done|]; eexists _, _; split; [done|]; simplify_map_eq;
            split; [done|]; lia).
  all: exfalso; lia.
Qed.

Lemma headerless_run (E : string) (trace : list (sid * request)) (w : world) :
  headerless E w → Forall (λ sr, ¬ stops E sr.2) trace →
  headerless E (run clock trace w).
Proof.
  intros Hw Htrace. revert w Hw.
  induction Htrace as [|[me r] trace Hr _ IH]; intros w Hw; simpl; [done|].
  apply IH. by apply headerless_serve.
Qed.

Lemma start_leaves_headerless (me : sid) (d : message) (v : pyval) (w : world) :
  d !! "event_id" = Some v → 1 ≤ counter w (Py.str v) "chunks_sent" →
  headerless (Py.str v) (serve clock me (start_stream d) w).
Proof.
  intros Hid Hone.
  assert (∃ e c, audio_stats w !! Py.str v = Some e ∧
            e !! "chunks_sent" = Some (SInt c) ∧ 1 ≤ c) as (e & c & He & Hc & Hle).
  { unfold counter in Hone.
    destruct (audio_stats w !! Py.str v) as [e|]; simpl in Hone; [|lia].
    destruct (e !! "chunks_sent") as [[c|]|] eqn:Hc; try lia. eauto. }
  cut (wp (handle clock me (start_stream d)) w (λ _ w', headerless (Py.str v) w'));
    [done|].
  unfold handle, handle_start_stream.
  wp_walk.
  all: unfold headerless; fields; simplify_eq.
  all: rewrite ?lookup_delete_eq.
  all: eauto 10.
Qed.

(** X5.  A start that finds an event with counted chunks clears the header
    and leaves the counters, whether the event is stored or not: the event
    is then without header, and stays so whatever is sent, until a stop for
    it comes in.  A connection that joins in between is replayed
    nothing. *)
Theorem restart_runs_without_header (me joiner : sid) (d j : message) (v vj : pyval)
    (trace : list (sid * request)) (w : world) :
  d !! "event_id" = Some v →
  1 ≤ counter w (Py.str v) "chunks_sent" →
  Forall (λ sr, ¬ stops (Py.str v) sr.2) trace →
  j !! "event_id" = Some vj → Py.str vj = Py.str v →
  let w2 := run clock trace (serve clock me (start_stream d) w) in
  audio_headers w2 !! Py.str v = None ∧
  1 ≤ counter w2 (Py.str v) "chunks_sent" ∧
  received_by joiner (outbox (serve clock joiner (join_event j) w2)) =
    received_by joiner (outbox w2).
Proof.
  intros Hid Hone Htrace Hj Hvj w2.
  assert (headerless (Py.str v) w2) as (Hnone & e & c & He & Hc & Hle).
  { apply headerless_run; [|done]. by apply start_leaves_headerless. }
  split; [done|]. split.
  { unfold counter. rewrite He. simpl. by rewrite Hc. }
  destruct (on_join_spec joiner j vj w2 Hj) as (w3 & Hjoin & _ & Hout & _).
  unfold serve, handle. rewrite (serve_eq _ _ _ _ _ Hjoin). simpl.
  rewrite Hout. unfold replay. rewrite Hvj, Hnone. by rewrite app_nil_r.
Qed.

(** X6.  A first chunk whose payload is truthy but has no length (a number,
    say) is counted, then fails at [len]: the sender is acknowledged the
    error, nothing is relayed or cached, [chunks_sent] is left at 1, and
    from then on no chunk of the event is cached until a stop. *)
Theorem unsized_first_chunk (me : sid) (d : message) (v a : pyval)
    (trace : list (sid * request)) (w : world) :
  d !! "event_id" = Some v → d !! "audio" = Some a → Py.truthy a = true →
  Py.len a = None → audio_stats w !! Py.str v = None →
  audio_headers w !! Py.str v = None →
  Forall (λ sr, ¬ stops (Py.str v) sr.2) trace →
  ∃ w', handle_stream_audio clock me d w = (Returned (Error (StrOf TypeError)), w') ∧
    outbox w' = outbox w ∧ audio_headers w' = audio_headers w ∧
    counter w' (Py.str v) "chunks_sent" = 1 ∧
    counter w' (Py.str v) "total_bytes" = 0 ∧
    audio_headers (run clock trace w') !! Py.str v = None.
Proof.
  intros Hid Ha Ht Hlen Hst Hhd Htrace.
  assert (Py.len (data_uri (default (PStr "audio/webm") (d !! "mimeType")) a) = None)
    as Hlen'.
  { destruct a; simpl in *; try done. }
  cut (wp (handle_stream_audio clock me d) w (λ o w',
    o = Returned (Error (StrOf TypeError)) ∧
    outbox w' = outbox w ∧ audio_headers w' = audio_headers w ∧
    counter w' (Py.str v) "chunks_sent" = 1 ∧
    counter w' (Py.str v) "total_bytes" = 0 ∧ headerless (Py.str v) w')).
  { intros (o & w' & Hrun & -> & H1 & H2 & H3 & H4 & H5)%wp_run.
    exists w'. repeat split; try done. by apply headerless_run. }
  unfold handle_stream_audio. rewrite (has_event_id d v) by done.
  wp_steps. rewrite Ha. simpl. rewrite Ht. simpl.
  wp_steps. fields. rewrite Hst. wp_steps.
  unfold stat_iadd, stat. wp_steps.
  apply wp_stats_of; fields; rewrite ?lookup_insert_eq.
  wp_steps. apply wp_stats_of; fields; rewrite ?lookup_insert_eq.
  wp_steps. simplify_map_eq. wp_steps. fields.
  apply wp_stats_of; fields; rewrite ?lookup_insert_eq.
  wp_steps. apply wp_stats_of; fields; rewrite ?lookup_insert_eq.
  wp_steps. simplify_map_eq. wp_steps. unfold len. rewrite Hlen'.
  wp_steps. fields. unfold counter, headerless. fields. simplify_map_eq.
  repeat split; try done. eexists _, 1. simplify_map_eq. done.
Qed.

(** ** Normalization *)

(** X7.  Normalizing a payload twice is normalizing it once, whatever the
    declared types: what [data_uri] returns is a payload it leaves alone.
    It keeps a truthy payload truthy, and gives a payload a length exactly
    when it had one. *)
Theorem data_uri_idempotent (mime mime' a : pyval) :
  data_uri mime' (data_uri mime a) = data_uri mime a ∧
  (Py.truthy a = true → Py.truthy (data_uri mime a) = true) ∧
  (is_Some (Py.len a) ↔ is_Some (Py.len (data_uri mime a))).
Proof.
  split; [|split; [apply truthy_data_uri|]].
  - destruct a as [| | |s|]; simpl; try done.
    destruct (String.prefix "data:" s) eqn:Hp; simpl; [by rewrite Hp|].
    match goal with |- context [String.prefix "" ?x] => by destruct x end.
  - split; [apply len_data_uri|].
    destruct a as [| | |s|]; simpl; done.
Qed.

(** ** One event at a time *)

Lemma members_drop (me : sid) (w : world) (E : string) :
  members (set_rooms (fmap (λ room, room ∖ {[me]})) w) E = members w E ∖ {[me]}.
Proof.
  unfold members. fields. rewrite lookup_fmap.
  destruct (rooms w !! E); simpl; set_solver.
Qed.

Lemma bystander_serve (E : string) (me : sid) (r : request) (w : world) :
  names r ≠ Some E →
  audio_stats (serve clock me r w) !! E = audio_stats w !! E ∧
  audio_headers (serve clock me r w) !! E = audio_headers w !! E ∧
  members (serve clock me r w) E = members w E ∖ (if r is disconnect then {[me]} else ∅).
Proof.
  intros Hr.
  cut (wp (handle clock me r) w (λ _ w',
    audio_stats w' !! E = audio_stats w !! E ∧
    audio_headers w' !! E = audio_headers w !! E ∧
    members w' E = members w E ∖ (if r is disconnect then {[me]} else ∅))); [done|].
  destruct r; unfold handle, handle_connect, on_join, on_leave, handle_start_stream,
    handle_stream_frame, handle_stream_audio, handle_stream_audio_pcm,
    handle_stop_stream, handle_reaction, handle_disconnect, debug_rooms,
    drop_connection.
  all: wp_walk.
  all: fields; rewrite ?members_drop.
  all: unfold members; fields.
  all: unfold names, event_of in Hr;
    repeat match goal with
           | H : ?d !! "event_id" = Some _ |- _ => rewrite H in Hr
           end; simpl in Hr.
  all: repeat match goal with
         | |- context [ <[?E' := _]> _ !! ?E0 ] =>
             destruct (decide (E' = E0)) as [<-|?]; [done|]; simplify_map_eq
         | |- context [ delete ?E' _ !! ?E0 ] =>
             destruct (decide (E' = E0)) as [<-|?]; [done|]; simplify_map_eq
         end.
  all: try (repeat split; try done; set_solver).
Qed.

(** X8.  Requests that name other events, or none, leave an event's
    counters and cached header as they are, and its room too, up to the
    connections that went away. *)
Theorem other_events_do_not_interfere (E : string) (trace : list (sid * request))
    (w : world) :
  Forall (λ sr, names sr.2 ≠ Some E) trace →
  let w' := run clock trace w in
  audio_stats w' !! E = audio_stats w !! E ∧
  audio_headers w' !! E = audio_headers w !! E ∧
  members w' E ⊆ members w E ∧
  (Forall (λ sr, sr.2 ≠ disconnect) trace → members w' E = members w E).
Proof.
  intros Htrace. cbv zeta. revert w.
  induction Htrace as [|[s r] trace Hr _ IH]; intros w; simpl.
  { repeat split; done. }
  destruct (bystander_serve E s r w Hr) as (H1 & H2 & H3).
  destruct (IH (serve clock s r w)) as (I1 & I2 & I3 & I4).
  unfold run in *. rewrite I1, I2, H1, H2. repeat split.
  - set_solver.
  - intros [Hd Hall]%Forall_cons. rewrite (I4 Hall), H3. simpl in Hd.
    destruct r; try done; set_solver.
Qed.

(** ** Stop, and what it re-arms *)

Lemma dated_entry (entry : stats) (t : Time) (n : Z) :
  match entry !! "started_at" with Some (SInt _) => false | _ => true end = true →
  default (SDate t) (entry !! "started_at") = SInt n → False.
Proof. destruct (entry !! "started_at") as [[|]|]; simpl; congruence. Qed.

Lemma started_entry (entry : stats) (t0 t : Time) :
  default (SDate t0) (entry !! "started_at") = SDate t →
  match entry !! "started_at" with Some (SDate t') => t' | _ => t0 end = t.
Proof. destruct (entry !! "started_at") as [[|]|]; simpl; congruence. Qed.

Lemma stop_clears (me : sid) (d : message) (v : pyval) (w : world) :
  d !! "event_id" = Some v → dated w (Py.str v) = true →
  let w' := serve clock me (stop_stream d) w in
  audio_stats w' = delete (Py.str v) (audio_stats w) ∧
  audio_headers w' = delete (Py.str v) (audio_headers w) ∧
  rooms w' = rooms w.
Proof.
  intros Hid Hdated.
  cut (wp (handle clock me (stop_stream d)) w (λ _ w',
    audio_stats w' = delete (Py.str v) (audio_stats w) ∧
    audio_headers w' = delete (Py.str v) (audio_headers w) ∧
    rooms w' = rooms w)); [done|].
  unfold handle, handle_stop_stream, dated in *.
  wp_walk.
  all: fields; simplify_eq.
  all: repeat match goal with
         | H : _ !! _ = None |- _ => rewrite (delete_id _ _ H)
         end.
  all: try done.
  all: repeat match goal with
         | H : _ !! _ = Some _ |- _ => rewrite H in Hdated; simpl in Hdated
         end; try done.
  all: exfalso; eapply dated_entry; eassumption.
Qed.

(** X9.  In any state the server can reach, a stop for an event removes
    its counters and its cached header, whether the event id is a number
    or not and whether the event is in the store or not; the next
    compressed chunk for the event then starts the count at 1 and is
    cached, normalized, as the new header. *)
Theorem stop_rearms_the_cache (db : gmap Z bool) (trace : list (sid * request))
    (s me : sid) (d c : message) (v : pyval) :
  d !! "event_id" = Some v → relayable (Py.str v) c →
  let E := Py.str v in
  let w1 := serve clock s (stop_stream d) (run clock trace (initial db)) in
  let w2 := serve clock me (stream_audio c) w1 in
  audio_stats w1 !! E = None ∧ audio_headers w1 !! E = None ∧
  counter w2 E "chunks_sent" = 1 ∧
  ∃ header, audio_headers w2 !! E = Some header ∧
    audio header = normalized c ∧ is_header header = true.
Proof.
  intros Hid Hc E w1 w2.
  destruct (stop_clears s d v (run clock trace (initial db)) Hid) as (Hst & Hhd & _).
  { apply dated_run. apply dated_initial. }
  fold w1 in Hst, Hhd.
  assert (audio_stats w1 !! E = None) as Hnone by (rewrite Hst; apply lookup_delete_eq).
  split; [done|]. split; [rewrite Hhd; apply lookup_delete_eq|].
  destruct (relayable_fields E c Hc) as (vc & a & Hcid & Hvc & Ha & Ht & Hlen & Hnorm).
  destruct (stream_audio_spec me c vc a w1 Hcid Ha Ht Hlen)
    as (w' & n & ts & ts' & Hrun & _ & Hsent & _ & _ & Hh & _).
  { unfold counts_chunks. by rewrite Hvc, Hnone. }
  assert (w2 = w') as ->.
  { unfold w2, serve, handle. by rewrite (serve_eq _ _ _ _ _ Hrun). }
  rewrite Hvc in *.
  assert (counter w1 E "chunks_sent" = 0) as Hzero
    by (unfold counter; by rewrite Hnone).
  rewrite Hzero in Hsent, Hh. rewrite decide_True in Hh by done.
  split; [lia|]. eexists. rewrite Hh, lookup_insert_eq. split; [done|].
  simpl. by rewrite Hnorm.
Qed.

(** ** Event ids that are not numbers *)

(** X10.  Rooms are keyed by the text of the event id, the store by its
    integer.  With an id, taken without white space, that does not read as
    an integer, a start clears
    the cached header, a stop clears header and counters and logs its
    summary, and then both end in a [ValueError] that leaves the handler:
    the store is not touched and nothing is announced. *)
Theorem event_id_not_a_number (me : sid) (d : message) (v : pyval) (w : world) :
  d !! "event_id" = Some v → tight (Py.str v) = true → Py.int (Py.str v) = None →
  dated w (Py.str v) = true →
  let E := Py.str v in
  (∃ w', handle_start_stream me d w = (Raised ValueError, w') ∧
     audio_headers w' = delete E (audio_headers w) ∧
     audio_stats w' = audio_stats w ∧ events w' = events w ∧
     outbox w' = outbox w ∧ console w' = console w) ∧
  (∃ w', handle_stop_stream clock me d w = (Raised ValueError, w') ∧
     audio_headers w' = delete E (audio_headers w) ∧
     audio_stats w' = delete E (audio_stats w) ∧ events w' = events w ∧
     outbox w' = outbox w ∧ console w' = console w ++ summary clock w E).
Proof.
  intros Hid _ Hint Hdated E. subst E. split.
  - cut (wp (handle_start_stream me d) w (λ o w', o = Raised ValueError ∧
      audio_headers w' = delete (Py.str v) (audio_headers w) ∧
      audio_stats w' = audio_stats w ∧ events w' = events w ∧
      outbox w' = outbox w ∧ console w' = console w)).
    { intros (o & w' & Hrun & -> & H)%wp_run. eauto. }
    unfold handle_start_stream. wp_walk.
    all: fields.
    all: repeat match goal with
           | H : _ !! _ = None |- _ => rewrite (delete_id _ _ H)
           end.
    all: done.
  - cut (wp (handle_stop_stream clock me d) w (λ o w', o = Raised ValueError ∧
      audio_headers w' = delete (Py.str v) (audio_headers w) ∧
      audio_stats w' = delete (Py.str v) (audio_stats w) ∧ events w' = events w ∧
      outbox w' = outbox w ∧ console w' = console w ++ summary clock w (Py.str v))).
    { intros (o & w' & Hrun & -> & H)%wp_run. eauto. }
    unfold handle_stop_stream, summary, dated in *. wp_walk.
    all: fields; simplify_eq.
    all: repeat match goal with
           | H : _ !! _ = None |- _ => rewrite (delete_id _ _ H)
           end.
    all: repeat match goal with
           | H : audio_stats _ !! _ = _ |- _ => rewrite H in *
           end; simpl in *.
    all: try (exfalso; eapply dated_entry; eassumption).
    all: rewrite ?app_nil_r; try done.
    all: repeat split; try done; repeat f_equal; symmetry.
    all: eapply started_entry; eassumption.
Qed.

(** ** Raw chunks *)

Lemma counts_samples_stream_audio_pcm (E : string) (me : sid) (d : message) (w : world) :
  counts_samples w E = true →
  counts_samples (serve clock me (stream_audio_pcm d) w) E = true.
Proof.
  intros Hw.
  cut (wp (handle clock me (stream_audio_pcm d)) w (λ _ w', counts_samples w' E = true));
    [done|].
  unfold handle, handle_stream_audio_pcm.
  wp_walk.
  all: unfold counts_samples in *; fields; try done.
  all: repeat match goal with
         | |- context [ <[?E' := _]> _ !! ?E0 ] =>
             destruct (decide (E' = E0)) as [<-|?]; simplify_map_eq
         end.
  all: done.
Qed.

(** X11.  Raw chunks for one event are all counted and all relayed, as they
    came, to the room but the sender; none of them is cached, and none is
    lost to an exception. *)
Theorem samples_are_counted (E : string) (chunks : list (sid * message)) (w : world) :
  counts_samples w E = true → Forall (λ sd, event_of sd.2 = Some E) chunks →
  let w' := run clock (prod_map id stream_audio_pcm <$> chunks) w in
  counter w' E "chunks" = counter w E "chunks" + Z.of_nat (length chunks) ∧
  audio_headers w' = audio_headers w ∧ rooms w' = rooms w ∧
  outbox w' = outbox w ++
    mjoin ((λ sd, deliveries (members w E ∖ {[sd.1]}) (new_audio_pcm sd.2)) <$> chunks).
Proof.
  intros Hw Hall. revert w Hw.
  induction Hall as [|[s d] chunks Hd _ IH]; intros w Hw; cbn zeta in *.
  { simpl. rewrite app_nil_r. repeat split; lia. }
  unfold event_of in Hd. simpl in Hd.
  destruct (d !! "event_id") as [v|] eqn:Hid; [|done]. simpl in Hd.
  injection Hd as <-.
  destruct (stream_audio_pcm_spec s d v w Hid Hw)
    as (w1 & Hrun & Hsent & _ & Hout & Hhd & Hrooms & _).
  assert (serve clock s (stream_audio_pcm d) w = w1) as Hw1.
  { unfold serve, handle. by rewrite (serve_eq _ _ _ _ _ Hrun). }
  specialize (IH w1). rewrite <- Hw1 in IH at 1.
  specialize (IH (counts_samples_stream_audio_pcm _ _ _ _ Hw)) as (IH1 & IH2 & IH3 & IH4).
  rewrite fmap_cons. cbn [run foldl prod_map fst snd id] in *.
  rewrite Hw1. unfold run in IH1, IH2, IH3, IH4.
  rewrite IH1, IH2, IH3, IH4, Hsent, Hhd, Hrooms, Hout.
  rewrite fmap_cons. cbn [length mjoin list_join fst snd].
  unfold members. rewrite Hrooms, <- app_assoc.
  repeat split. lia.
Qed.

(** ** What the cache holds *)

Lemma data_uri_prefixed (mime a : pyval) (s : string) :
  data_uri mime a = PStr s → String.prefix "data:" s = true.
Proof.
  destruct a as [| | |s'|]; simpl; try done.
  destruct (String.prefix "data:" s') eqn:Hp; simpl; intros [= <-]; [done|].
  simpl. match goal with |- context [String.prefix "" ?x] => by destruct x end.
Qed.

Lemma headers_ok_serve (me : sid) (r : request) (w : world) :
  headers_ok w → headers_ok (serve clock me r w).
Proof.
  intros Hw.
  cut (wp (handle clock me r) w (λ _ w', headers_ok w')); [done|].
  destruct r; unfold handle, handle_connect, on_join, on_leave, handle_start_stream,
    handle_stream_frame, handle_stream_audio, handle_stream_audio_pcm,
    handle_stop_stream, handle_reaction, handle_disconnect, debug_rooms.
  all: wp_walk.
  all: unfold headers_ok in *; fields; try done.
  all: intros E header.
  all: repeat match goal with
         | |- context [ <[?E' := _]> _ !! ?E0 ] =>
             destruct (decide (E' = E0)) as [<-|?]; simplify_map_eq
         | |- context [ delete ?E' _ !! ?E0 ] =>
             destruct (decide (E' = E0)) as [<-|?]; simplify_map_eq
         end.
  all: try done; try (by apply Hw).
  all: intros [= <-]; unfold header_of; cbn [chunk_event_id is_header audio].
  all: split; [done|]; split; [done|]; split;
    [apply truthy_data_uri; by destruct (Py.truthy _)|apply data_uri_prefixed].
Qed.

Lemma headers_ok_run (trace : list (sid * request)) (w : world) :
  headers_ok w → headers_ok (run clock trace w).
Proof.
  revert w. induction trace as [|[me r] trace IH]; intros w Hw; simpl; [done|].
  apply IH. by apply headers_ok_serve.
Qed.

Lemma headers_ok_initial (db : gmap Z bool) : headers_ok (initial db).
Proof. intros E h Hh. cbn [initial audio_headers] in Hh. by rewrite lookup_empty in Hh. Qed.

(** X12.  In any state the server can reach, a cached header is filed under
    the event it names, is flagged as header, is truthy, is a data URI if it
    is text, and is backed by at least one counted chunk. *)
Theorem cached_header_is_wellformed (db : gmap Z bool) (trace : list (sid * request))
    (E : string) (header : audio_chunk) :
  audio_headers (run clock trace (initial db)) !! E = Some header →
  header_of E header ∧ 1 ≤ counter (run clock trace (initial db)) E "chunks_sent".
Proof.
  intros Hh. split.
  - by apply (headers_ok_run trace (initial db) (headers_ok_initial db)).
  - destruct (header_counted_run trace (initial db) (header_counted_initial db) E)
      as (entry & c & He & Hc & Hle); [by eexists|].
    unfold counter. rewrite He. simpl. by rewrite Hc.
Qed.

(** ** Connections that went away *)

Lemma quiet_serve (me s : sid) (r : request) (w : world) :
  names r = None → outbox (serve clock s r w) = outbox w.
Proof.
  intros Hr.
  cut (wp (handle clock s r) w (λ _ w', outbox w' = outbox w)); [done|].
  destruct r; unfold handle, handle_connect, on_join, on_leave, handle_start_stream,
    handle_stream_frame, handle_stream_audio, handle_stream_audio_pcm,
    handle_stop_stream, handle_reaction, handle_disconnect, debug_rooms,
    drop_connection.
  all: unfold names, event_of in Hr.
  all: wp_walk.
  all: fields; try done.
  all: repeat match goal with
         | H : ?d !! "event_id" = Some _ |- _ => rewrite H in Hr
         end; done.
Qed.

Lemma nowhere_serve (me s : sid) (r : request) (w : world) :
  nowhere me w → ¬ (s = me ∧ is_join r) →
  nowhere me (serve clock s r w) ∧
  received_by me (outbox (serve clock s r w)) = received_by me (outbox w).
Proof.
  intros Hw Hr.
  assert (∀ E, ¬ (s = me ∧ joins E r)) as Hj.
  { intros E [-> Hjoin]. apply Hr. split; [done|].
    destruct r; try done. unfold joins, event_of in Hjoin. simpl.
    destruct (data !! "event_id"); [by eexists|done]. }
  split.
  - intros E. apply outsider_serve; [apply Hw|apply Hj].
  - destruct (names r) as [E|] eqn:Hn.
    + apply (outsider_hears_nothing me E); [apply Hw|done|apply Hj].
    + by rewrite (quiet_serve me s r w Hn).
Qed.

(** X13.  A connection that went away is in no room, and as long as it does
    not join again it stays in none and is sent nothing, whatever the
    others do. *)
Theorem disconnected_is_silent (me : sid) (trace : list (sid * request)) (w : world) :
  Forall (λ sr, ¬ (sr.1 = me ∧ is_join sr.2)) trace →
  let w1 := serve clock me disconnect w in
  let w2 := run clock trace w1 in
  (∀ E, members w1 E = members w E ∖ {[me]}) ∧
  nowhere me w2 ∧
  received_by me (outbox w2) = received_by me (outbox w).
Proof.
  intros Htrace w1 w2.
  assert (∀ E, members w1 E = members w E ∖ {[me]}) as Hm.
  { intros E.
    exact (members_drop me (set_console (λ c, c ++ [LogDisconnected]) w) E). }
  split; [done|].
  assert (nowhere me w1) as Hw1 by (intros E; rewrite Hm; set_solver).
  assert (received_by me (outbox w1) = received_by me (outbox w)) as <- by done.
  subst w2. clearbody w1. clear Hm. revert w1 Hw1.
  induction Htrace as [|[s r] trace Hr _ IH]; intros w1 Hw1; simpl; [done|].
  destruct (nowhere_serve me s r w1 Hw1 Hr) as [Hn Hrec].
  destruct (IH _ Hn) as [IH1 IH2]. split; [done|]. by rewrite <- Hrec.
Qed.

(** ** Event ids, rooms and the store *)


(** *** [int(str(n))] *)

Lemma digit_pretty_N_char (x : N) :
  (x < 10)%N → Py.digit (pretty_N_char x) = Some (Z.of_N x).
Proof.
  intros Hx.
  assert (x = 0 ∨ x = 1 ∨ x = 2 ∨ x = 3 ∨ x = 4 ∨ x = 5 ∨ x = 6 ∨ x = 7 ∨ x = 8 ∨ x = 9)%N
    as Hcases by lia.
  repeat (destruct Hcases as [->|Hcases]; [reflexivity|]). by subst.
Qed.

Lemma digits_pretty_N_go (x : N) :
  (0 < x)%N → ∃ k : Z, 0 ≤ k ∧ ∀ after acc s,
    Py.digits after acc (pretty_N_go x s) = Py.digits true (acc * 10 ^ k + Z.of_N x) s.
Proof.
  induction (N.lt_wf_0 x) as [x _ IH]; intros Hx.
  destruct (N.eq_0_gt_0_cases (x `div` 10)%N) as [Hq|Hq].
  - exists 1. split; [lia|]. intros after acc s.
    rewrite pretty_N_go_step, Hq, pretty_N_go_0 by done.
    assert (x < 10)%N as Hlt by (by apply N.div_small_iff in Hq).
    rewrite N.mod_small by done.
    cbn [Py.digits]. rewrite digit_pretty_N_char by done. f_equal. lia.
  - destruct (IH (x `div` 10)%N) as (k & Hk & Hgo); [by apply N.div_lt|done|].
    exists (k + 1). split; [lia|]. intros after acc s.
    rewrite pretty_N_go_step, Hgo by done.
    cbn [Py.digits]. rewrite digit_pretty_N_char by (by apply N.mod_lt).
    f_equal. rewrite Z.pow_add_r by lia.
    rewrite (N.div_mod x 10) at 3 by done. lia.
Qed.

Lemma digits_pretty_pos (p : positive) :
  Py.digits false 0 (pretty p) = Some (Z.pos p).
Proof.
  unfold pretty, pretty_positive, pretty, pretty_N.
  rewrite decide_False by done.
  destruct (digits_pretty_N_go (N.pos p)) as (k & _ & Hgo); [lia|].
  by rewrite Hgo.
Qed.

Lemma rev_app_rev_app (s t u : string) :
  String.rev_app (String.rev_app s t) u = String.rev_app t (s +:+ u).
Proof.
  revert t u. induction s as [|a s IH]; intros t u; simpl; [done|].
  by rewrite IH.
Qed.

Lemma string_app_nil_r (s : string) : s +:+ "" = s.
Proof.
  induction s as [|a s IH]; [done|].
  change (String a (s +:+ "") = String a s). by f_equal.
Qed.

Lemma rev_rev (s : string) : String.rev (String.rev s) = s.
Proof. unfold String.rev. rewrite rev_app_rev_app. simpl. apply string_app_nil_r. Qed.

Lemma spaceless_rev_app (s t : string) :
  spaceless s = true → spaceless t = true → spaceless (String.rev_app s t) = true.
Proof.
  revert t. induction s as [|a s IH]; intros t Hs Ht; simpl in *; [done|].
  apply andb_true_iff in Hs as [Ha Hs]. apply IH; [done|].
  simpl. by rewrite Ha, Ht.
Qed.

Lemma lstrip_spaceless (s : string) : spaceless s = true → Py.lstrip s = s.
Proof.
  destruct s as [|a s]; simpl; [done|].
  intros [Ha _]%andb_true_iff. by destruct (Py.is_space a).
Qed.

Lemma strip_spaceless (s : string) : spaceless s = true → Py.strip s = s.
Proof.
  intros Hs. unfold Py.strip. rewrite (lstrip_spaceless s Hs).
  rewrite lstrip_spaceless; [apply rev_rev|].
  by apply spaceless_rev_app.
Qed.

Lemma pretty_N_char_cases (x : N) :
  (x < 10)%N →
  pretty_N_char x ∈ ["0"; "1"; "2"; "3"; "4"; "5"; "6"; "7"; "8"; "9"]%char.
Proof.
  intros Hx.
  assert (x = 0 ∨ x = 1 ∨ x = 2 ∨ x = 3 ∨ x = 4 ∨ x = 5 ∨ x = 6 ∨ x = 7 ∨ x = 8 ∨ x = 9)%N
    as Hcases by lia.
  repeat (destruct Hcases as [->|Hcases]; [set_solver|]). subst. set_solver.
Qed.

Lemma pretty_N_go_digits (x : N) (s : string) :
  (0 < x)%N → spaceless s = true →
  spaceless (pretty_N_go x s) = true ∧
  ∃ d s', (d < 10)%N ∧ pretty_N_go x s = String (pretty_N_char d) s'.
Proof.
  revert s. induction (N.lt_wf_0 x) as [x _ IH]; intros s Hx Hs.
  rewrite pretty_N_go_step by done.
  assert (x `mod` 10 < 10)%N as Hd by (by apply N.mod_lt).
  assert (spaceless (String (pretty_N_char (x `mod` 10)) s) = true) as Hs'.
  { simpl. rewrite Hs, andb_true_r.
    pose proof (pretty_N_char_cases _ Hd) as Hc.
    repeat (apply elem_of_cons in Hc as [->|Hc]; [reflexivity|]).
    by apply elem_of_nil in Hc. }
  destruct (N.eq_0_gt_0_cases (x `div` 10)%N) as [Hq|Hq].
  - rewrite Hq, pretty_N_go_0. split; [done|]. eauto.
  - apply IH; [by apply N.div_lt|done..].
Qed.

Lemma int_str (n : Z) : Py.int (Py.str (PInt n)) = Some n.
Proof.
  unfold Py.int, Py.str. destruct n as [|p|p].
  - reflexivity.
  - destruct (pretty_N_go_digits (N.pos p) "") as (Hs & d & s' & Hd & Hp); [lia|done|].
    assert (pretty (Z.pos p) = pretty_N_go (N.pos p) "") as Hpretty by done.
    rewrite strip_spaceless by (by rewrite Hpretty).
    pose proof (digits_pretty_pos p) as Hdigits.
    change (pretty p) with (pretty_N_go (N.pos p) "") in Hdigits.
    rewrite Hpretty, Hp in *.
    pose proof (pretty_N_char_cases _ Hd) as Hc.
    repeat (apply elem_of_cons in Hc as [Hc0|Hc]; [rewrite Hc0 in *; exact Hdigits|]).
    by apply elem_of_nil in Hc.
  - destruct (pretty_N_go_digits (N.pos p) "") as (Hs & _); [lia|done|].
    assert (pretty (Z.neg p) = String "-" (pretty_N_go (N.pos p) "")) as Hpretty by done.
    rewrite strip_spaceless by (rewrite Hpretty; simpl; by rewrite Hs).
    rewrite Hpretty.
    pose proof (digits_pretty_pos p) as Hdigits.
    change (pretty p) with (pretty_N_go (N.pos p) "") in Hdigits.
    by rewrite Hdigits.
Qed.

(** X17.  An event id sent as a number names the stored event of that
    number: [int(str(n))] is [n].  A start for a stored event [n] sets its
    flag and no other, and is announced in the room of that number's text;
    a viewer who joined with the id as text, ["n"], is in that room. *)
Theorem numeric_id_reaches_its_event (me viewer : sid) (d j : message) (n : Z) (b : bool)
    (w : world) :
  d !! "event_id" = Some (PInt n) → j !! "event_id" = Some (PStr (pretty n)) →
  events w !! n = Some b →
  let w1 := serve clock viewer (join_event j) w in
  let w2 := serve clock me (start_stream d) w1 in
  Py.int (Py.str (PInt n)) = Some n ∧
  events w2 = <[n := true]> (events w) ∧
  received_by viewer (outbox w2) =
    received_by viewer (outbox w1) ++ [stream_started (pretty n)].
Proof.
  intros Hd Hj Hev w1 w2. split; [apply int_str|].
  destruct (on_join_spec viewer j _ w Hj) as (u1 & Hjoin & Hrooms & _ & _ & _ & Hev1).
  assert (w1 = u1) as ->.
  { unfold w1, serve, handle. by rewrite (serve_eq _ _ _ _ _ Hjoin). }
  destruct (start_stream_spec me d (PInt n) n u1 Hd (int_str n))
    as (u2 & Hrun & _ & _ & _ & Hev2 & Hout & _).
  assert (w2 = u2) as ->.
  { unfold w2, serve, handle. by rewrite (serve_eq _ _ _ _ _ Hrun). }
  rewrite Hev1, Hev in Hev2, Hout. split; [done|].
  rewrite Hout, received_by_app. f_equal.
  change (Py.str (PInt n)) with (pretty n).
  rewrite received_by_deliveries. rewrite decide_True; [done|].
  unfold members. rewrite Hrooms. simpl. rewrite lookup_insert_eq. simpl. set_solver.
Qed.

End Properties.

(** * The properties at work *)

(** ** Python builtins *)

Example str_int : Py.str (PInt 7) = "7" ∧ Py.str (PInt (-12)) = "-12".
Proof. split; reflexivity. Qed.

Example str_bytes :
  Py.str (PBytes "a'b") = String "b" (String Py.dquote ("a'b" +:+ String Py.dquote "")) ∧
  Py.str (PBytes (String (ascii_of_N 255) "\z")) = "b'\xff\\z'".
Proof. split; reflexivity. Qed.

Example int_reads :
  Py.int " +1_000 " = Some 1000 ∧ Py.int "7" = Some 7 ∧ Py.int "-3" = Some (-3).
Proof. repeat split; reflexivity. Qed.

Example int_refuses :
  Py.int "abc" = None ∧ Py.int "" = None ∧ Py.int "1__0" = None ∧ Py.int "7_" = None.
Proof. repeat split; reflexivity. Qed.

(** The no-break space and the next-line character are passed over, the
    separators 28 to 31 are not. *)
Example int_white_space :
  Py.int (String (ascii_of_N 160) "7") = Some 7 ∧
  Py.int (String (ascii_of_N 133) "7 ") = Some 7 ∧
  Py.int (String (ascii_of_N 28) "7") = None ∧
  Py.int (String "7" (String (ascii_of_N 31) "")) = None.
Proof. repeat split; reflexivity. Qed.

(** ** The scenario of the specification *)

(** Connection 1 joins room 7, connection 2 sends the chunk AAAA,
    connection 3 joins, connection 2 sends BBBB: 3 gets the cached AAAA
    first, 1 and 3 get BBBB once, 2 gets nothing. *)
Example late_joiner :
  let w := run sample_clock
    [ (1%nat, join_event (for_event 7 []));
      (2%nat, stream_audio (for_event 7 [("audio", PStr "AAAA"); ("mimeType", PStr "audio/webm")]));
      (3%nat, join_event (for_event 7 []));
      (2%nat, stream_audio (for_event 7 [("audio", PStr "BBBB")])) ] sample_world in
  counter w "7" "chunks_sent" = 2 ∧
  audio <$> audio_headers w !! "7" = Some (PStr "data:audio/webm;base64,AAAA") ∧
  audio_of <$> received_by 3%nat (outbox w) =
    [Some (PStr "data:audio/webm;base64,AAAA", true);
     Some (PStr "data:audio/webm;base64,BBBB", false)] ∧
  audio_of <$> received_by 1%nat (outbox w) =
    [Some (PStr "data:audio/webm;base64,AAAA", false);
     Some (PStr "data:audio/webm;base64,BBBB", false)] ∧
  received_by 2%nat (outbox w) = [].
Proof. cbv zeta. repeat split; vm_compute; reflexivity. Qed.

(** ** C1: the header cache after a restart *)

(** C1, where the code departs from it.  Connection 2 streams to event 7,
    calls start again without a stop in between, and streams on.  The
    chunk CCCC is relayed after the most recent start, and no stop
    intervened, but the header cache of event 7 is empty: start cleared
    the header and left [chunks_sent] at 1, so the test
    [chunks_sent == 1] fails for every later chunk
    ([counted_event_caches_nothing]).  A viewer that joins now is sent
    nothing.  The other direction of the claim holds: a cached header is
    always backed by a counted chunk ([header_counted_run]). *)
Theorem restart_leaves_no_header :
  let w := run sample_clock
    [ (1%nat, join_event (for_event 7 []));
      (2%nat, start_stream (for_event 7 []));
      (2%nat, stream_audio (for_event 7 [("audio", PStr "AAAA")]));
      (2%nat, start_stream (for_event 7 [])) ] sample_world in
  let chunk := for_event 7 [("audio", PStr "CCCC")] in
  let w' := serve sample_clock 2%nat (stream_audio chunk) w in
  (handle_stream_audio sample_clock 2%nat chunk w).1 = Returned Success ∧
  audio_of <$> received_by 1%nat (outbox w') =
    [None; Some (PStr "data:audio/webm;base64,AAAA", false); None;
     Some (PStr "data:audio/webm;base64,CCCC", false)] ∧
  counter w' "7" "chunks_sent" = 2 ∧
  audio_headers w' !! "7" = None ∧
  replay 3%nat w' "7" = [].
Proof. cbv zeta. repeat split; vm_compute; reflexivity. Qed.

(** ** C2 *)

(** Connection 3 joins room 7 after the chunk AAAA: it is sent the cached
    copy. *)
Lemma join_replays_header_witness :
  let d := for_event 7 [] in
  let w := run sample_clock
    [(2%nat, stream_audio (for_event 7 [("audio", PStr "AAAA")]))] sample_world in
  d !! "event_id" = Some (PInt 7) ∧
  ∃ w', on_join 3%nat d w = (Returned tt, w') ∧
    audio_of <$> received_by 3%nat (outbox w') =
      [Some (PStr "data:audio/webm;base64,AAAA", true)].
Proof.
  split; [reflexivity|].
  destruct (join_replays_header sample_clock 3%nat (for_event 7 [])
              (PInt 7)
              (run sample_clock
                 [(2%nat, stream_audio (for_event 7 [("audio", PStr "AAAA")]))]
                 sample_world) eq_refl)
    as (w' & Hrun & _ & Hout & _).
  exists w'. split; [exact Hrun|]. rewrite Hout. vm_compute. reflexivity.
Defined.

(** ** C3 *)



(** ** C4 *)



(** ** C5: a compressed chunk after a raw chunk *)

(** C5, where the code departs from it.  Connection 2 sends a raw chunk
    for event 7, then a compressed chunk with an event id and a payload.
    The compressed chunk is not counted, not relayed to connection 1 and
    not acknowledged as a success: the entry the raw handler created has
    no ['chunks_sent'], and the [KeyError] comes back as the error
    message.  With no entry, or with an entry of its own making, the
    handler does all the claim says ([stream_audio_spec]). *)
Theorem compressed_chunk_after_raw_chunk :
  let w := run sample_clock
    [ (1%nat, join_event (for_event 7 []));
      (2%nat, stream_audio_pcm (for_event 7 [])) ] sample_world in
  let chunk := for_event 7 [("audio", PStr "AAAA")] in
  let w' := serve sample_clock 2%nat (stream_audio chunk) w in
  audio_stats w !! "7" = Some {[ "chunks" := SInt 1 ]} ∧
  (handle_stream_audio sample_clock 2%nat chunk w).1 =
    Returned (Error (StrOf (KeyError "chunks_sent"))) ∧
  audio_stats w' = audio_stats w ∧
  counter w' "7" "chunks_sent" = 0 ∧ counter w' "7" "total_bytes" = 0 ∧
  members w "7" = {[1%nat]} ∧ outbox w' = outbox w.
Proof. cbv zeta. repeat split; vm_compute; reflexivity. Qed.

(** ** C6: an audio chunk after a chunk of the other kind *)

(** C6, where the code departs from it.  Connections 1 and 3 are in room
    7.  Connection 2 sends a raw chunk and then a compressed chunk with a
    payload: the compressed chunk is an audio relay to room 7, and it is
    delivered to neither member.  The other way round, after a compressed
    chunk, the raw chunk of connection 2 is delivered to neither member.
    It is the defect of C5: the two audio handlers keep their counters
    under different keys of the one entry of the event, and the handler
    that did not create the entry stops at the missing key before it
    relays.  Reactions and frames, and the audio chunks of the handler
    the entry belongs to, reach the room as the claim says
    ([relays_reach_the_room]). *)
Theorem audio_relay_reaches_nobody :
  let room := [ (1%nat, join_event (for_event 7 []));
                (3%nat, join_event (for_event 7 [])) ] in
  let compressed := for_event 7 [("audio", PStr "AAAA")] in
  let raw := for_event 7 [("raw_samples", PStr "0102")] in
  let w := run sample_clock (room ++ [(2%nat, stream_audio_pcm raw)]) sample_world in
  let w' := serve sample_clock 2%nat (stream_audio compressed) w in
  let u := run sample_clock (room ++ [(2%nat, stream_audio compressed)]) sample_world in
  let u' := serve sample_clock 2%nat (stream_audio_pcm raw) u in
  members w "7" = {[1%nat; 3%nat]} ∧ members u "7" = {[1%nat; 3%nat]} ∧
  ((handle_stream_audio sample_clock 2%nat compressed w).1 =
     Returned (Error (StrOf (KeyError "chunks_sent"))) ∧
   received_by 1%nat (outbox w') = received_by 1%nat (outbox w) ∧
   received_by 3%nat (outbox w') = received_by 3%nat (outbox w) ∧
   outbox w' = outbox w) ∧
  ((handle_stream_audio_pcm 2%nat raw u).1 = Returned tt ∧
   received_by 1%nat (outbox u') = received_by 1%nat (outbox u) ∧
   received_by 3%nat (outbox u') = received_by 3%nat (outbox u) ∧
   outbox u' = outbox u).
Proof.
  cbv zeta. repeat match goal with |- _ ∧ _ => split end; vm_compute; reflexivity.
Qed.


(** ** C7 *)

(** A raw chunk without event id is answered with nothing at all, and a
    start without event id ends in a [KeyError]: neither sender gets a
    structured error.  A raw chunk with its event id and without samples
    is not rejected at all: it is counted and relayed to the room. *)
Lemma malformed_without_error_reply :
  (malformed (stream_audio_pcm ∅) = true ∧
   handle sample_clock 1%nat (stream_audio_pcm ∅) sample_world =
     (Returned Nothing, sample_world) ∧
   ¬ ∃ msg, (handle sample_clock 1%nat (stream_audio_pcm ∅) sample_world).1 =
            Returned (Acked (Error msg))) ∧
  (malformed (start_stream ∅) = true ∧
   handle sample_clock 1%nat (start_stream ∅) sample_world =
     (Raised (KeyError "event_id"), sample_world) ∧
   ¬ ∃ msg, (handle sample_clock 1%nat (start_stream ∅) sample_world).1 =
            Returned (Acked (Error msg))) ∧
  (let w := run sample_clock [(1%nat, join_event (for_event 7 []))] sample_world in
   let w' := serve sample_clock 2%nat (stream_audio_pcm (for_event 7 [])) w in
   malformed (stream_audio_pcm (for_event 7 [])) = true ∧
   (handle sample_clock 2%nat (stream_audio_pcm (for_event 7 [])) w).1 =
     Returned Nothing ∧
   counter w "7" "chunks" = 0 ∧ counter w' "7" "chunks" = 1 ∧
   received_by 1%nat (outbox w') =
     received_by 1%nat (outbox w) ++ [new_audio_pcm (for_event 7 [])] ∧
   hub_state w' ≠ hub_state w).
Proof.
  split; [|split].
  1, 2: repeat split; try reflexivity; intros [msg Hmsg]; vm_compute in Hmsg;
    discriminate.
  cbv zeta. repeat match goal with |- _ ∧ _ => split end;
    try (vm_compute; reflexivity).
  intros H. apply (f_equal (λ s, s.1.1.2 !! "7")) in H.
  vm_compute in H. discriminate.
Qed.

(** A compressed chunk without payload, and a raw chunk without samples
    for a room with connection 1 in it. *)
Lemma malformed_rejected_witness :
  let r := stream_audio (for_event 7 [("mimeType", PStr "audio/ogg")]) in
  let r' := stream_audio_pcm (for_event 7 []) in
  let w := run sample_clock [(1%nat, join_event (for_event 7 []))] sample_world in
  malformed r = true ∧ malformed r' = true ∧
  (∃ msg w', handle sample_clock 1%nat r sample_world =
               (Returned (Acked (Error (Text msg))), w') ∧
     hub_state w' = hub_state sample_world ∧ outbox w' = outbox sample_world) ∧
  (∃ w', handle sample_clock 2%nat r' w = (Returned Nothing, w') ∧
     received_by 1%nat (outbox w') =
       received_by 1%nat (outbox w) ++ [new_audio_pcm (for_event 7 [])]).
Proof.
  split; [reflexivity|]. split; [reflexivity|]. split.
  - destruct (malformed_rejected sample_clock 1%nat
                (stream_audio (for_event 7 [("mimeType", PStr "audio/ogg")]))
                sample_world eq_refl)
      as (res & w' & Hrun & Hstate & Hout & msg & ->).
    by exists msg, w'.
  - destruct (malformed_rejected sample_clock 2%nat
                (stream_audio_pcm (for_event 7 []))
                (run sample_clock [(1%nat, join_event (for_event 7 []))] sample_world)
                eq_refl)
      as (res & w' & Hrun & -> & _ & Hsent).
    exists w'. split; [exact Hrun|].
    destruct (Hsent (PInt 7) eq_refl eq_refl) as [_ Hout].
    rewrite Hout, received_by_app. f_equal.
Defined.

(** ** C8 *)



(** ** C9: the diagnostic query on a live event *)

(** C9, where the code departs from it.  Connection 1 is in room 7 and
    event 7 has been started: its record is flagged live.  The query
    still answers that event 7 is not streaming and that nobody is
    connected, since no handler ever writes [active_streams]
    ([never_streaming]) and the client list is the empty literal.  The
    query does read the room name and the counters, and changes nothing
    ([debug_rooms_reads]). *)
Theorem debug_rooms_misses_live_event :
  let w := run sample_clock
    [ (1%nat, join_event (for_event 7 []));
      (1%nat, start_stream (for_event 7 [])) ] sample_world in
  events w !! 7 = Some true ∧ members w "7" = {[1%nat]} ∧
  debug_rooms "7" w = (Returned (RoomInfo "7" [] ∅ false), w).
Proof. cbv zeta. repeat split; vm_compute; reflexivity. Qed.

(** ** C10 *)

(** A raw chunk creates the entry of event 7, a stop for event 7 deletes
    it, and the compressed chunk that follows does not fail: it is
    acknowledged, counted under an entry of its own, cached as the header
    and relayed to connection 1. *)
Lemma compressed_chunk_after_stop :
  let w := run sample_clock
    [ (1%nat, join_event (for_event 7 []));
      (2%nat, stream_audio_pcm (for_event 7 []));
      (2%nat, stop_stream (for_event 7 [])) ] sample_world in
  let chunk := for_event 7 [("audio", PStr "AAAA")] in
  let w' := serve sample_clock 2%nat (stream_audio chunk) w in
  let u := run sample_clock
    [ (1%nat, join_event (for_event 7 []));
      (2%nat, stream_audio chunk);
      (2%nat, stop_stream (for_event 7 [])) ] sample_world in
  let u' := serve sample_clock 2%nat (stream_audio_pcm (for_event 7 [])) u in
  ((handle_stream_audio sample_clock 2%nat chunk w).1 = Returned Success ∧
   counter w' "7" "chunks_sent" = 1 ∧
   audio <$> audio_headers w' !! "7" = Some (PStr "data:audio/webm;base64,AAAA") ∧
   audio_of <$> received_by 1%nat (outbox w') =
     (audio_of <$> received_by 1%nat (outbox w)) ++
     [Some (PStr "data:audio/webm;base64,AAAA", false)]) ∧
  (counter u' "7" "chunks" = 1 ∧
   received_by 1%nat (outbox u') =
     received_by 1%nat (outbox u) ++ [new_audio_pcm (for_event 7 [])]).
Proof.
  cbv zeta. repeat match goal with |- _ ∧ _ => split end; vm_compute; reflexivity.
Qed.

(** Event 7 gets its entry from a raw chunk, resp. from a compressed
    chunk; a join, a start and a raw chunk later, the other kind of chunk
    is still refused. *)
Lemma audio_paths_block_each_other_witness :
  let d := for_event 7 [("audio", PStr "AAAA")] in
  let d' := <["event_id" := PStr "7"]> d in
  let trace := [ (1%nat, join_event (for_event 7 []));
                 (2%nat, start_stream (for_event 7 []));
                 (2%nat, stream_audio_pcm (for_event 7 [])) ] in
  d !! "event_id" = Some (PInt 7) ∧
  audio_stats sample_world !! Py.str (PInt 7) = None ∧
  Forall (λ sr, ¬ stops (Py.str (PInt 7)) sr.2) trace ∧
  d' !! "event_id" = Some (PStr "7") ∧
  Py.str (PStr "7") = Py.str (PInt 7) ∧
  (let w2 := run sample_clock trace
               (serve sample_clock 2%nat (stream_audio_pcm d) sample_world) in
   ∃ w3, handle_stream_audio sample_clock 2%nat d' w2 =
           (Returned (Error (StrOf (KeyError "chunks_sent"))), w3) ∧
     outbox w3 = outbox w2) ∧
  (let w2 := run sample_clock trace
               (serve sample_clock 2%nat (stream_audio d) sample_world) in
   ∃ w3, handle_stream_audio_pcm 2%nat d' w2 = (Returned tt, w3) ∧
     outbox w3 = outbox w2).
Proof.
  intros d d' trace.
  assert (d !! "event_id" = Some (PInt 7)) as Hid by (vm_compute; reflexivity).
  assert (audio_stats sample_world !! Py.str (PInt 7) = None) as Hst
    by (vm_compute; reflexivity).
  assert (Forall (λ sr : sid * request, ¬ stops (Py.str (PInt 7)) sr.2) trace)
    as Htrace by (repeat constructor; simpl; tauto).
  assert (d' !! "event_id" = Some (PStr "7")) as Hid' by (vm_compute; reflexivity).
  assert (Py.str (PStr "7") = Py.str (PInt 7)) as Hv by (vm_compute; reflexivity).
  assert (Py.truthy (default PNone (d' !! "audio")) = true) as Ht'
    by (vm_compute; reflexivity).
  assert (Py.truthy (default PNone (d !! "audio")) = true) as Ht
    by (vm_compute; reflexivity).
  destruct (audio_paths_block_each_other sample_clock 2%nat 2%nat d d'
              (PInt 7) (PStr "7") trace sample_world Hid Hst Htrace Hid' Hv)
    as [(_ & msg & w3 & Hrun & Hmsg & Hout & _) Hraw].
  destruct (Hraw Ht) as (w4 & Hrun4 & Hout4).
  repeat split; try assumption.
  - exists w3. split; [|exact Hout]. rewrite (Hmsg Ht') in Hrun. exact Hrun.
  - exists w4. split; assumption.
Defined.

(** ** Further scenarios *)

(** Connections 1 and 2 are in room 7; 1 leaves; 2 streams a chunk and 3
    joins; a reaction in room 7 then does not reach connection 1. *)
Lemma left_room_is_silent_witness :
  let d := for_event 7 [] in
  let trace := [ (2%nat, stream_audio (for_event 7 [("audio", PStr "AAAA")]));
                 (3%nat, join_event (for_event 7 [])) ] in
  let r := send_reaction (for_event 7 [("emoji", PStr "clap")]) in
  let w := run sample_clock [ (1%nat, join_event (for_event 7 []));
                              (2%nat, join_event (for_event 7 [])) ] sample_world in
  let w1 := serve sample_clock 1%nat (leave_event d) w in
  let w2 := run sample_clock trace w1 in
  members w1 "7" = members w "7" ∖ {[1%nat]} ∧
  received_by 1%nat (outbox (serve sample_clock 2%nat r w2)) = received_by 1%nat (outbox w2).
Proof.
  intros d trace r w w1 w2.
  assert (d !! "event_id" = Some (PInt 7)) as Hid by (vm_compute; reflexivity).
  assert (Forall (λ sr : sid * request,
            ¬ (sr.1 = 1%nat ∧ joins (Py.str (PInt 7)) sr.2)) trace) as Htrace
    by (repeat constructor; simpl; intros [H1 H2]; first [exact H2|discriminate H1]).
  assert (names r = Some (Py.str (PInt 7))) as Hr by (vm_compute; reflexivity).
  assert (¬ (2%nat = 1%nat ∧ joins (Py.str (PInt 7)) r)) as Hs
    by (intros [H1 _]; discriminate H1).
  destruct (left_room_is_silent sample_clock 1%nat 2%nat d (PInt 7) trace r w
              Hid Htrace Hr Hs) as (Hm & _ & _ & Hrec).
  split; [exact Hm|exact Hrec].
Defined.

(** Connection 1, not in room 7, joins it and leaves it: the rooms are as
    they were. *)
Lemma join_leave_round_trip_witness :
  let d := for_event 7 [] in
  let w := run sample_clock [ (2%nat, join_event (for_event 7 [])) ] sample_world in
  members (serve sample_clock 1%nat (leave_event d)
             (serve sample_clock 1%nat (join_event d) w)) "7" = members w "7".
Proof.
  intros d w.
  assert (d !! "event_id" = Some (PInt 7)) as Hid by (vm_compute; reflexivity).
  destruct (join_leave_round_trip sample_clock 1%nat d (PInt 7) w Hid) as (_ & _ & Hback).
  apply Hback. vm_compute. intros H. discriminate H.
Defined.

(** Connections 2 and 3 send three compressed chunks for event 7, one of
    them already a data URI: three chunks and 79 characters are counted. *)
Lemma chunks_are_counted_witness :
  let chunks :=
    [ (2%nat, for_event 7 [("audio", PStr "AAAA")]);
      (3%nat, for_event 7 [("audio", PStr "data:audio/ogg;base64,BBBB")]);
      (2%nat, for_event 7 [("audio", PStr "CCCC"); ("mimeType", PStr "audio/mp4")]) ] in
  let w' := run sample_clock (prod_map id stream_audio <$> chunks) sample_world in
  counter w' "7" "chunks_sent" = 3 ∧ counter w' "7" "total_bytes" = 79.
Proof.
  intros chunks w'.
  assert (counts_chunks sample_world "7" = true) as Hc by (vm_compute; reflexivity).
  assert (Forall (λ sd : sid * message, relayable "7" sd.2) chunks) as Hall.
  { repeat constructor; by (vm_compute; eauto). }
  destruct (chunks_are_counted sample_clock "7" chunks sample_world Hc Hall)
    as [Hsent Hbytes].
  split; [etrans; [exact Hsent|]|etrans; [exact Hbytes|]]; vm_compute; reflexivity.
Defined.

(** Event 7 has counted a chunk when connection 2 starts it again; two more
    chunks go by; connection 3 then joins and is replayed nothing. *)
Lemma restart_runs_without_header_witness :
  let d := for_event 7 [] in
  let trace := [ (2%nat, stream_audio (for_event 7 [("audio", PStr "BBBB")]));
                 (2%nat, stream_audio (for_event 7 [("audio", PStr "CCCC")])) ] in
  let w := run sample_clock
             [ (2%nat, stream_audio (for_event 7 [("audio", PStr "AAAA")])) ]
             sample_world in
  let w2 := run sample_clock trace (serve sample_clock 2%nat (start_stream d) w) in
  audio_headers w2 !! "7" = None ∧
  received_by 3%nat (outbox (serve sample_clock 3%nat (join_event d) w2)) =
    received_by 3%nat (outbox w2).
Proof.
  intros d trace w w2.
  assert (d !! "event_id" = Some (PInt 7)) as Hid by (vm_compute; reflexivity).
  assert (1 ≤ counter w (Py.str (PInt 7)) "chunks_sent") as Hone
    by (vm_compute; discriminate).
  assert (Forall (λ sr : sid * request, ¬ stops (Py.str (PInt 7)) sr.2) trace) as Htrace
    by (repeat constructor; simpl; tauto).
  destruct (restart_runs_without_header sample_clock 2%nat 3%nat d d (PInt 7) (PInt 7)
              trace w Hid Hone Htrace Hid eq_refl) as (Hnone & _ & Hrec).
  split; [exact Hnone|exact Hrec].
Defined.

(** The first chunk for event 7 carries the number 5 as its payload; the
    chunk DDDD that follows is relayed and not cached. *)
Lemma unsized_first_chunk_witness :
  let d := for_event 7 [("audio", PInt 5)] in
  let trace := [ (2%nat, stream_audio (for_event 7 [("audio", PStr "DDDD")])) ] in
  ∃ w', handle_stream_audio sample_clock 2%nat d sample_world =
          (Returned (Error (StrOf TypeError)), w') ∧
    counter w' "7" "chunks_sent" = 1 ∧
    audio_headers (run sample_clock trace w') !! "7" = None.
Proof.
  intros d trace.
  assert (d !! "event_id" = Some (PInt 7)) as Hid by (vm_compute; reflexivity).
  assert (d !! "audio" = Some (PInt 5)) as Ha by (vm_compute; reflexivity).
  assert (audio_stats sample_world !! Py.str (PInt 7) = None) as Hst
    by (vm_compute; reflexivity).
  assert (audio_headers sample_world !! Py.str (PInt 7) = None) as Hhd
    by (vm_compute; reflexivity).
  assert (Forall (λ sr : sid * request, ¬ stops (Py.str (PInt 7)) sr.2) trace) as Htrace
    by (repeat constructor; simpl; tauto).
  destruct (unsized_first_chunk sample_clock 2%nat d (PInt 7) (PInt 5) trace sample_world
              Hid Ha eq_refl eq_refl Hst Hhd Htrace)
    as (w' & Hrun & _ & _ & Hsent & _ & Hnone).
  exists w'. split; [exact Hrun|]. split; [exact Hsent|exact Hnone].
Defined.

(** Event 7 has a header and counters; a join, a chunk, a start and a
    disconnection that name event 8 or none leave them as they are. *)
Lemma other_events_do_not_interfere_witness :
  let trace := [ (3%nat, join_event (for_event 8 []));
                 (3%nat, stream_audio (for_event 8 [("audio", PStr "BBBB")]));
                 (3%nat, start_stream (for_event 8 []));
                 (3%nat, disconnect) ] in
  let w := run sample_clock
             [ (2%nat, stream_audio (for_event 7 [("audio", PStr "AAAA")])) ]
             sample_world in
  let w' := run sample_clock trace w in
  audio_stats w' !! "7" = audio_stats w !! "7" ∧
  audio_headers w' !! "7" = audio_headers w !! "7".
Proof.
  intros trace w w'.
  assert (Forall (λ sr : sid * request, names sr.2 ≠ Some "7") trace) as Htrace
    by (repeat constructor; vm_compute; discriminate).
  destruct (other_events_do_not_interfere sample_clock "7" trace w Htrace)
    as (Hst & Hhd & _).
  split; [exact Hst|exact Hhd].
Defined.

(** Event 7 is streamed to and stopped; the chunk BBBB that follows is
    counted as the first and cached as the header. *)
Lemma stop_rearms_the_cache_witness :
  let trace := [ (2%nat, start_stream (for_event 7 []));
                 (2%nat, stream_audio (for_event 7 [("audio", PStr "AAAA")])) ] in
  let c := for_event 7 [("audio", PStr "BBBB")] in
  let w1 := serve sample_clock 2%nat (stop_stream (for_event 7 []))
              (run sample_clock trace (initial {[ 7 := false ]})) in
  let w2 := serve sample_clock 2%nat (stream_audio c) w1 in
  audio_stats w1 !! "7" = None ∧ audio_headers w1 !! "7" = None ∧
  counter w2 "7" "chunks_sent" = 1 ∧
  ∃ header, audio_headers w2 !! "7" = Some header ∧
    audio header = PStr "data:audio/webm;base64,BBBB" ∧ is_header header = true.
Proof.
  intros trace c w1 w2.
  assert (for_event 7 [] !! "event_id" = Some (PInt 7)) as Hid by (vm_compute; reflexivity).
  assert (relayable (Py.str (PInt 7)) c) as Hc by (vm_compute; eauto).
  exact (stop_rearms_the_cache sample_clock {[ 7 := false ]} trace 2%nat 2%nat
           (for_event 7 []) c (PInt 7) Hid Hc).
Defined.

(** A start and a stop for the event id main-hall, which has counters. *)
Lemma event_id_not_a_number_witness :
  let d : message := {[ "event_id" := PStr "main-hall" ]} in
  let w := run sample_clock
             [ (2%nat, stream_audio (<["audio" := PStr "AAAA"]> d)) ] sample_world in
  (∃ w', handle_start_stream 2%nat d w = (Raised ValueError, w') ∧
     audio_headers w' !! "main-hall" = None ∧ events w' = events w ∧
     outbox w' = outbox w) ∧
  (∃ w', handle_stop_stream sample_clock 2%nat d w = (Raised ValueError, w') ∧
     audio_stats w' !! "main-hall" = None ∧ events w' = events w ∧
     outbox w' = outbox w).
Proof.
  intros d w.
  assert (d !! "event_id" = Some (PStr "main-hall")) as Hid by (vm_compute; reflexivity).
  assert (Py.int (Py.str (PStr "main-hall")) = None) as Hint by (vm_compute; reflexivity).
  assert (dated w (Py.str (PStr "main-hall")) = true) as Hdated
    by (vm_compute; reflexivity).
  destruct (event_id_not_a_number sample_clock 2%nat d (PStr "main-hall") w Hid eq_refl
              Hint Hdated)
    as [(w1 & Hrun1 & Hhd1 & _ & Hev1 & Hout1 & _)
        (w2 & Hrun2 & _ & Hst2 & Hev2 & Hout2 & _)].
  split.
  - exists w1. split; [exact Hrun1|]. split; [|split; [exact Hev1|exact Hout1]].
    rewrite Hhd1. apply lookup_delete_eq.
  - exists w2. split; [exact Hrun2|]. split; [|split; [exact Hev2|exact Hout2]].
    rewrite Hst2. apply lookup_delete_eq.
Defined.

(** Connection 2 sends two raw chunks for event 7 while connections 1 and 2
    are in the room: both are counted, and connection 1 gets both. *)
Lemma samples_are_counted_witness :
  let chunks := [ (2%nat, for_event 7 [("audio", PStr "0011")]);
                  (2%nat, for_event 7 [("audio", PStr "2233")]) ] in
  let w := run sample_clock [ (1%nat, join_event (for_event 7 []));
                              (2%nat, join_event (for_event 7 [])) ] sample_world in
  let w' := run sample_clock (prod_map id stream_audio_pcm <$> chunks) w in
  counter w' "7" "chunks" = 2 ∧ audio_headers w' = audio_headers w ∧
  received_by 1%nat (outbox w') = new_audio_pcm <$> chunks.*2 ∧
  received_by 2%nat (outbox w') = [].
Proof.
  intros chunks w w'.
  assert (counts_samples w "7" = true) as Hc by (vm_compute; reflexivity).
  assert (Forall (λ sd : sid * message, event_of sd.2 = Some "7") chunks) as Hall
    by (repeat constructor).
  destruct (samples_are_counted sample_clock "7" chunks w Hc Hall)
    as (Hsent & Hhd & _ & Hout).
  split; [exact Hsent|]. split; [exact Hhd|].
  split; (etrans; [exact (f_equal (received_by _) Hout)|]); vm_compute; reflexivity.
Defined.

(** The header cached for event 7 after the chunk AAAA. *)
Lemma cached_header_is_wellformed_witness :
  let w := run sample_clock
             [ (2%nat, stream_audio (for_event 7 [("audio", PStr "AAAA")])) ]
             (initial {[ 7 := false ]}) in
  ∃ header, audio_headers w !! "7" = Some header ∧
    header_of "7" header ∧ 1 ≤ counter w "7" "chunks_sent".
Proof.
  intros w.
  assert (audio_headers w !! "7" =
            Some (AudioChunk (PStr "data:audio/webm;base64,AAAA") (PStr "audio/webm")
                             (FromClock 1001) "7" true)) as Hh
    by (vm_compute; reflexivity).
  eexists. split; [exact Hh|].
  exact (cached_header_is_wellformed sample_clock {[ 7 := false ]} _ "7" _ Hh).
Defined.

(** Connection 1 is in rooms 7 and 8 and goes away; a chunk and a reaction
    for event 7 and a start for event 8 do not reach it. *)
Lemma disconnected_is_silent_witness :
  let trace := [ (2%nat, stream_audio (for_event 7 [("audio", PStr "AAAA")]));
                 (2%nat, send_reaction (for_event 7 [("emoji", PStr "clap")]));
                 (3%nat, join_event (for_event 8 []));
                 (3%nat, start_stream (for_event 8 [])) ] in
  let w := run sample_clock [ (1%nat, join_event (for_event 7 []));
                              (1%nat, join_event (for_event 8 []));
                              (2%nat, join_event (for_event 7 [])) ] sample_world in
  let w2 := run sample_clock trace (serve sample_clock 1%nat disconnect w) in
  nowhere 1%nat w2 ∧ received_by 1%nat (outbox w2) = received_by 1%nat (outbox w).
Proof.
  intros trace w w2.
  assert (Forall (λ sr : sid * request, ¬ (sr.1 = 1%nat ∧ is_join sr.2)) trace) as Htrace
    by (repeat constructor; simpl; intros [H1 H2]; first [exact H2|discriminate H1]).
  destruct (disconnected_is_silent sample_clock 1%nat trace w Htrace) as (_ & Hn & Hrec).
  split; [exact Hn|exact Hrec].
Defined.


(** Connection 1 joins with the id as the text 42; connection 2 starts
    event 42 with the id as a number. *)
Lemma numeric_id_reaches_its_event_witness :
  let d := for_event 42 [] in
  let j : message := {[ "event_id" := PStr "42" ]} in
  let w := initial {[ 42 := false; 7 := false ]} in
  let w2 := serve sample_clock 2%nat (start_stream d)
              (serve sample_clock 1%nat (join_event j) w) in
  events w2 = <[42 := true]> (events w) ∧
  received_by 1%nat (outbox w2) = [stream_started "42"].
Proof.
  intros d j w w2.
  assert (d !! "event_id" = Some (PInt 42)) as Hd by (vm_compute; reflexivity).
  assert (j !! "event_id" = Some (PStr (pretty 42))) as Hj by (vm_compute; reflexivity).
  assert (events w !! 42 = Some false) as Hev by (vm_compute; reflexivity).
  destruct (numeric_id_reaches_its_event sample_clock 2%nat 1%nat d j 42 false w Hd Hj Hev)
    as (_ & Hevents & Hrec).
  split; [exact Hevents|]. etrans; [exact Hrec|]. vm_compute. reflexivity.
Defined.


(** * The highlight reel *)

(** ** The sort *)

Lemma insert_desc_perm (x : Z * string) (l : list (Z * string)) :
  Reel.insert_desc x l ≡ₚ x :: l.
Proof.
  induction l as [|y l IH]; simpl; [done|].
  destruct (y.1 <=? x.1); [done|]. rewrite IH. apply Permutation_swap.
Qed.

Lemma sort_desc_perm (l : list (Z * string)) : Reel.sort_desc l ≡ₚ l.
Proof.
  induction l as [|x l IH]; simpl; [done|].
  rewrite insert_desc_perm. by rewrite IH.
Qed.

Lemma insert_desc_falling (x : Z * string) (l : list (Z * string)) :
  Reel.falling l → Reel.falling (Reel.insert_desc x l).
Proof.
  induction l as [|y l IH]; simpl; [done|]. intros [Hy Hl].
  destruct (Z.leb_spec y.1 x.1) as [Hle|Hlt]; simpl.
  - split; [|done]. constructor; [done|].
    eapply Forall_impl; [exact Hy|]. simpl. intros; lia.
  - split; [|by apply IH]. rewrite insert_desc_perm. constructor; [lia|done].
Qed.

Lemma sort_desc_falling (l : list (Z * string)) : Reel.falling (Reel.sort_desc l).
Proof.
  induction l as [|x l IH]; simpl; [done|]. by apply insert_desc_falling.
Qed.

Lemma insert_desc_stable (k : Z) (x : Z * string) (l : list (Z * string)) :
  filter (λ a, a.1 = k) (Reel.insert_desc x l) = filter (λ a, a.1 = k) (x :: l).
Proof.
  induction l as [|y l IH]; simpl; [done|].
  destruct (Z.leb_spec y.1 x.1) as [Hle|Hlt]; [done|].
  rewrite !filter_cons. rewrite IH, filter_cons.
  destruct (decide (y.1 = k)), (decide (x.1 = k)); try done; lia.
Qed.

Lemma sort_desc_stable (k : Z) (l : list (Z * string)) :
  filter (λ a, a.1 = k) (Reel.sort_desc l) = filter (λ a, a.1 = k) l.
Proof.
  induction l as [|x l IH]; simpl; [done|].
  rewrite insert_desc_stable.
  by rewrite !filter_cons, IH.
Qed.

Section ReelProperties.

Context {image gray float : Type}.
Variable flt : float → float → bool.
Variable of_int : Z → float.
Variable imread : string → option image.
Variable cvtColor : image → option gray.
Variable laplacian_var : gray → option float.
Variable mean : gray → option float.
Variable detect_faces : gray → option nat.
Variable exists_ : string → bool.
Variable PHOTOS_FOLDER : string.

Local Abbreviation score_photo :=
  (Reel.score_photo image gray float flt of_int imread cvtColor laplacian_var mean
     detect_faces).
Local Abbreviation scored_list :=
  (Reel.scored_list image gray float flt of_int imread cvtColor laplacian_var mean
     detect_faces exists_ PHOTOS_FOLDER).
Local Abbreviation top_photos :=
  (Reel.top_photos image gray float flt of_int imread cvtColor laplacian_var mean
     detect_faces exists_ PHOTOS_FOLDER).

(** X18.  Whatever OpenCV reports or raises, a score is one of 0, 2, 3, 4, 5,
    7 and 9; a score of 3 or of 5 and more means that a face was detected,
    and a score of 9 that at least two were. *)
Theorem score_photo_values (path : string) :
  score_photo path ∈ [0; 2; 3; 4; 5; 7; 9] ∧
  ((score_photo path = 3 ∨ 5 ≤ score_photo path) →
     ∃ img g faces, imread path = Some img ∧ cvtColor img = Some g ∧
       detect_faces g = Some faces ∧ (0 < faces)%nat) ∧
  (score_photo path = 9 →
     ∃ img g faces, imread path = Some img ∧ cvtColor img = Some g ∧
       detect_faces g = Some faces ∧ (1 < faces)%nat).
Proof.
  unfold Reel.score_photo, Reel.score_gray.
  destruct (imread path) as [img|] eqn:Himg;
    [|split; [rewrite !elem_of_cons, elem_of_nil; lia|split; intros; exfalso; lia]].
  destruct (cvtColor img) as [g|] eqn:Hg;
    [|split; [rewrite !elem_of_cons, elem_of_nil; lia|split; intros; exfalso; lia]].
  destruct (laplacian_var g) as [variance|];
    [|split; [rewrite !elem_of_cons, elem_of_nil; lia|split; intros; exfalso; lia]].
  destruct (mean g) as [brightness|].
  2: { destruct (flt _ _); (split; [rewrite !elem_of_cons, elem_of_nil; lia|split; intros; exfalso; lia]). }
  destruct (detect_faces g) as [faces|] eqn:Hfaces.
  2: { destruct (flt _ variance), (flt _ brightness && flt brightness _);
         (split; [rewrite !elem_of_cons, elem_of_nil; lia|split; intros; exfalso; lia]). }
  destruct (flt _ variance), (flt _ brightness && flt brightness _),
    (Nat.ltb_spec 0 faces) as [H0|H0], (Nat.ltb_spec 1 faces) as [H1|H1].
  all: try (exfalso; lia).
  all: split; [rewrite !elem_of_cons, elem_of_nil; lia|].
  all: split; intros; first [exfalso; lia | by eauto 10].
Qed.

(** X19.  For an event with three rows or more, the photos picked for the
    reel are the first fifteen, or all if there are fewer, of the scored
    photos in the one order that has the scores falling and leaves photos
    of equal score as the table has them: no photo left out scores more
    than a photo picked, and each photo picked is the path of a row of the
    event whose file is on disk, with the score [score_photo] gives it. *)
Theorem top_photos_are_the_best (id : Z) (table : list Reel.Photo) :
  (3 ≤ length (Reel.photos_of id table))%nat →
  ∃ picked rest,
    top_photos id table = inr picked ∧
    length picked = (15 `min` length (scored_list (Reel.photos_of id table)))%nat ∧
    picked ++ rest ≡ₚ scored_list (Reel.photos_of id table) ∧
    Reel.falling (picked ++ rest) ∧
    (∀ k, filter (λ a, a.1 = k) (picked ++ rest) =
          filter (λ a, a.1 = k) (scored_list (Reel.photos_of id table))) ∧
    (∀ a b, a ∈ picked → b ∈ rest → b.1 ≤ a.1) ∧
    (∀ a, a ∈ picked → a.1 = score_photo a.2 ∧ exists_ a.2 = true ∧
       ∃ p, p ∈ table ∧ Reel.event_id p = id ∧
            a.2 = Reel.photo_path PHOTOS_FOLDER (Reel.filename p)).
Proof.
  intros Hrows.
  set (photos := Reel.photos_of id table) in *.
  set (sorted := Reel.sort_desc (scored_list photos)).
  exists (take 15 sorted), (drop 15 sorted).
  assert (Reel.falling sorted) as Hsorted by apply sort_desc_falling.
  assert (sorted ≡ₚ scored_list photos) as Hperm by apply sort_desc_perm.
  split.
  { unfold Reel.top_photos. fold photos.
    destruct (Nat.ltb_spec (length photos) 3); [lia|done]. }
  split.
  { rewrite length_take. by rewrite Hperm. }
  rewrite take_drop. split; [done|]. split; [done|]. split.
  { intros k. apply sort_desc_stable. }
  split.
  { intros a b Ha Hb. rewrite <- (take_drop 15 sorted) in Hsorted.
    induction (take 15 sorted) as [|c l IH]; [by apply elem_of_nil in Ha|].
    simpl in Hsorted. destruct Hsorted as [Hall Htl].
    apply elem_of_cons in Ha as [->|Ha]; [|by apply IH].
    rewrite Forall_app in Hall. destruct Hall as [_ Hall].
    rewrite Forall_forall in Hall. by apply Hall. }
  intros a Ha.
  assert (a ∈ scored_list photos) as Hin.
  { rewrite <- Hperm. apply elem_of_take in Ha as (i & Hi & _).
    by eapply list_elem_of_lookup_2. }
  unfold Reel.scored_list in Hin.
  apply list_elem_of_fmap in Hin as (path & -> & Hpath).
  apply list_elem_of_filter in Hpath as [Hex Hpath].
  apply list_elem_of_fmap in Hpath as (p & -> & Hp).
  apply list_elem_of_filter in Hp as [Hid Hp].
  simpl. split; [done|]. split; [done|]. eauto.
Qed.

(** X20.  The engine counts rows, not files.  An event with fewer than three
    rows gets the error message even if all its files are there; an event
    with three rows or more of which no file is on disk passes the test,
    scores nothing, and hands MoviePy an empty list of clips. *)
Theorem reel_counts_rows_not_files (id : Z) (table : list Reel.Photo) :
  ((length (Reel.photos_of id table) < 3)%nat →
     top_photos id table = inl "Need at least 3 photos to make a reel.") ∧
  ((3 ≤ length (Reel.photos_of id table))%nat →
   (∀ p, p ∈ table → Reel.event_id p = id →
         exists_ (Reel.photo_path PHOTOS_FOLDER (Reel.filename p)) = false) →
     top_photos id table = inr []).
Proof.
  unfold Reel.top_photos. split.
  - intros Hlt. by destruct (Nat.ltb_spec (length (Reel.photos_of id table)) 3); [|lia].
  - intros Hge Hnone.
    destruct (Nat.ltb_spec (length (Reel.photos_of id table)) 3); [lia|].
    assert (scored_list (Reel.photos_of id table) = []) as ->; [|done].
    unfold Reel.scored_list.
    assert (Forall (λ path, ¬ exists_ path = true)
              (Reel.photo_path PHOTOS_FOLDER ∘ Reel.filename <$> Reel.photos_of id table))
      as Hall.
    { apply Forall_fmap, Forall_forall. intros p [Hid Hp]%list_elem_of_filter.
      simpl. by rewrite Hnone. }
    induction Hall as [|path paths Hpath _ IH]; [done|].
    by rewrite filter_cons, decide_False.
Qed.

End ReelProperties.

(** * The tags *)

Lemma tags_of_category (desc : string) :
  Tags.tags_of desc ⊆ list_to_set (Tags.CATEGORY_MAP.*1).
Proof.
  unfold Tags.tags_of. intros tag Htag.
  apply elem_of_list_to_set, list_elem_of_fmap in Htag as (entry & -> & Hentry).
  apply list_elem_of_filter in Hentry as [_ Hentry].
  apply elem_of_list_to_set, list_elem_of_fmap. eauto.
Qed.

Lemma search_texts_tagged_once :
  Forall (λ desc, size (Tags.tags_of desc) = 1%nat) Tags.SEARCH_TEXTS.
Proof.
  apply (bool_decide_unpack _). vm_compute. exact I.
Qed.

Lemma size_union_le (X Y : gset string) : (size (X ∪ Y) ≤ size X + size Y)%nat.
Proof.
  rewrite size_union_alt.
  assert (size (Y ∖ X) ≤ size Y)%nat by (apply subseteq_size; set_solver). lia.
Qed.

Lemma event_only :
  "event" ∈ ({["event"]} : gset string) ∧
  ({["event"]} : gset string) ⊆ list_to_set (Tags.CATEGORY_MAP.*1) ∪ {["event"]} ∧
  (size ({["event"]} : gset string) ≤ 4)%nat.
Proof. rewrite size_singleton. split; [set_solver|]. split; [set_solver|lia]. Qed.

Section TagProperties.

Context {float : Type}.
Variable flt : float → float → bool.
Variable point_two : float.

Lemma add_match_grows (tags tags' : gset string) (m : float * nat)
    (cats : gset string) (n : nat) :
  Tags.add_match float flt point_two tags m = Some tags' →
  tags ⊆ cats → list_to_set (Tags.CATEGORY_MAP.*1) ⊆ cats → (size tags ≤ n)%nat →
  tags' ⊆ cats ∧ (size tags' ≤ S n)%nat.
Proof.
  unfold Tags.add_match. intros Hadd Htags Hcats Hn.
  destruct (flt point_two m.1).
  - destruct (Tags.SEARCH_TEXTS !! m.2) as [desc|] eqn:Hdesc; [|done].
    injection Hadd as <-. split.
    + pose proof (tags_of_category desc). set_solver.
    + pose proof search_texts_tagged_once as Honce.
      rewrite Forall_forall in Honce.
      pose proof (Honce desc (list_elem_of_lookup_2 _ _ _ Hdesc)) as Hone.
      pose proof (size_union_le tags (Tags.tags_of desc)). lia.
  - injection Hadd as <-. split; [done|lia].
Qed.

(** X21.  Whatever the libraries do, the tags of an image hold [event], hold
    nothing but [event] and keys of [CATEGORY_MAP], and are four at most;
    if the libraries are missing, nothing is loaded and [event] is the
    only tag. *)
Theorem tags_hold_event (ML_AVAILABLE : bool) (attempt : Tags.loading)
    (inference : option ((float * nat) * (float * nat) * (float * nat)))
    (s : Tags.clip) :
  let r := Tags.analyze_image ML_AVAILABLE float flt point_two attempt inference s in
  "event" ∈ r.1 ∧
  r.1 ⊆ list_to_set (Tags.CATEGORY_MAP.*1) ∪ {["event"]} ∧
  (size r.1 ≤ 4)%nat ∧
  (ML_AVAILABLE = false → r = ({["event"]}, s)).
Proof.
  cbv zeta. unfold Tags.analyze_image, Tags.load_model.
  destruct ML_AVAILABLE; cbn [negb].
  2: { cbn [fst]. split; [apply event_only|]. split; [apply event_only|].
       split; [apply event_only|done]. }
  assert (∀ s' : Tags.clip,
    let r := if negb (Tags.processor s') then ({["event"]}, s')
             else match inference with
                  | Some (m0, m1, m2) =>
                      match Tags.detect float flt point_two m0 m1 m2 with
                      | Some detected_tags => (detected_tags ∪ {["event"]}, s')
                      | None => ({["event"]}, s')
                      end
                  | None => ({["event"]}, s')
                  end in
    "event" ∈ r.1 ∧ r.1 ⊆ list_to_set (Tags.CATEGORY_MAP.*1) ∪ {["event"]} ∧
    (size r.1 ≤ 4)%nat ∧ (true = false → r = ({["event"]}, s))) as Hrun.
  { intros s'. cbv zeta.
    destruct (Tags.processor s'); cbn [negb]; [|by split_and!; try apply event_only].
    destruct inference as [[[m0 m1] m2]|]; [|by split_and!; try apply event_only].
    unfold Tags.detect.
    destruct (Tags.add_match _ _ _ ∅ m0) as [t0|] eqn:H0;
      [|by split_and!; try apply event_only].
    destruct (Tags.add_match _ _ _ t0 m1) as [t1|] eqn:H1;
      [|by split_and!; try apply event_only].
    destruct (Tags.add_match _ _ _ t1 m2) as [t2|] eqn:H2;
      [|by split_and!; try apply event_only].
    set (cats := list_to_set (Tags.CATEGORY_MAP.*1) : gset string).
    destruct (add_match_grows ∅ t0 m0 cats 0 H0) as [Hs0 Hn0];
      [set_solver|done|by rewrite size_empty|].
    destruct (add_match_grows t0 t1 m1 cats 1 H1) as [Hs1 Hn1]; [done..|].
    destruct (add_match_grows t1 t2 m2 cats 2 H2) as [Hs2 Hn2]; [done..|].
    cbn [fst]. split; [set_solver|]. split; [set_solver|]. split; [|done].
    pose proof (size_union_le t2 {["event"]}) as Hle.
    rewrite size_singleton in Hle. lia. }
  destruct (Tags.model s); cbn [negb].
  - apply Hrun.
  - destruct attempt; cbn [negb].
    + apply (Hrun (Tags.Clip true true)).
    + by split_and!; try apply event_only.
    + by split_and!; try apply event_only.
Qed.

(** X22.  [load_model] assigns the model before it loads the processor.
    Once the model is set and the processor is not, every call finds the
    model, reports it loaded and never loads the processor: whatever CLIP
    would answer, every image gets the single tag [event] and the globals
    stay as they are.  This is the state a first call reaches when the
    processor fails to load; a model that fails to load is tried again at
    the next call. *)
Theorem half_loaded_model_is_stuck
    (calls : list (Tags.loading * option ((float * nat) * (float * nat) * (float * nat))))
    (inference : option ((float * nat) * (float * nat) * (float * nat))) :
  let stuck := Tags.Clip true false in
  Tags.analyze_image true float flt point_two Tags.ProcessorFails inference
    (Tags.Clip false false) = ({["event"]}, stuck) ∧
  Tags.analyze_all true float flt point_two calls stuck =
    (replicate (length calls) {["event"]}, stuck) ∧
  Forall (λ call, Tags.load_model true call.1 stuck = (true, stuck)) calls ∧
  Tags.analyze_image true float flt point_two Tags.ModelFails inference
    (Tags.Clip false false) = ({["event"]}, Tags.Clip false false) ∧
  Tags.load_model true Tags.Loads (Tags.Clip false false) = (true, Tags.Clip true true).
Proof.
  cbv zeta. split; [done|]. split; [|split; [|done]].
  - unfold Tags.analyze_all.
    assert (∀ out, foldl (λ '(out, s) '(attempt, inference),
                       let '(tags, s) :=
                         Tags.analyze_image true float flt point_two attempt inference s in
                       (out ++ [tags], s)) (out, Tags.Clip true false) calls =
                   (out ++ replicate (length calls) {["event"]}, Tags.Clip true false)) as H.
    { induction calls as [|[attempt inf] calls IH]; intros out; simpl.
      - by rewrite app_nil_r.
      - rewrite IH. by rewrite <- app_assoc. }
    apply (H []).
  - apply Forall_forall. by intros [attempt inf] _.
Qed.

End TagProperties.

(** * File names *)

Lemma append_cons (a : ascii) (s t : string) : String a s +:+ t = String a (s +:+ t).
Proof. reflexivity. Qed.

Lemma append_nil_l (t : string) : "" +:+ t = t.
Proof. reflexivity. Qed.

Lemma contains_cons (c a : ascii) (s : string) :
  Py.contains c (String a s) = Ascii.eqb c a || Py.contains c s.
Proof. reflexivity. Qed.

Lemma rsplit_dot_whole (s : string) :
  Py.contains "." s = false → Str.rsplit_dot s = [s].
Proof.
  induction s as [|a s IH]; [done|].
  rewrite contains_cons. intros [Ha Hs]%orb_false_iff.
  cbn [Str.rsplit_dot]. rewrite (IH Hs).
  rewrite Ascii.eqb_sym in Ha. by rewrite Ha.
Qed.

Lemma rsplit_dot_cut (stem ext : string) :
  Py.contains "." ext = false → Str.rsplit_dot (stem +:+ "." +:+ ext) = [stem; ext].
Proof.
  intros Hext. induction stem as [|a stem IH].
  - rewrite append_nil_l, append_cons, append_nil_l.
    cbn [Str.rsplit_dot]. by rewrite (rsplit_dot_whole ext Hext).
  - rewrite append_cons. cbn [Str.rsplit_dot]. by rewrite IH.
Qed.

Lemma contains_dot_cut (s : string) :
  Py.contains "." s = true →
  ∃ stem ext, s = stem +:+ "." +:+ ext ∧ Py.contains "." ext = false.
Proof.
  induction s as [|a s IH]; [done|].
  rewrite contains_cons.
  destruct (Py.contains "." s) eqn:Hs.
  - intros _. destruct (IH eq_refl) as (stem & ext & -> & Hext).
    exists (String a stem), ext. by rewrite append_cons.
  - rewrite orb_false_r. intros Ha%Ascii.eqb_eq. subst a.
    by exists "", s.
Qed.

(** X23.  A file name is accepted exactly when it has a dot and the text
    after its last dot, in lower case, is one of the five extensions: only
    the last extension counts, its case does not, and the text before the
    dot may be anything, also empty. *)
Theorem allowed_file_reads_last_extension (filename : string) :
  Upload.allowed_file filename = true ↔
  ∃ stem ext, filename = stem +:+ "." +:+ ext ∧ Py.contains "." ext = false ∧
    Str.lower ext ∈ Upload.ALLOWED_EXTENSIONS.
Proof.
  unfold Upload.allowed_file. split.
  - intros [Hdot Hext]%andb_true_iff.
    destruct (contains_dot_cut filename Hdot) as (stem & ext & -> & Hnodot).
    rewrite (rsplit_dot_cut stem ext Hnodot) in Hext. simpl in Hext.
    apply bool_decide_eq_true in Hext. eauto.
  - intros (stem & ext & -> & Hnodot & Hext).
    rewrite (rsplit_dot_cut stem ext Hnodot). simpl.
    rewrite bool_decide_eq_true_2 by done. rewrite andb_true_r.
    clear. induction stem as [|a stem IH].
    + by rewrite append_nil_l, append_cons, contains_cons.
    + rewrite append_cons, contains_cons, IH. apply orb_true_r.
Qed.

(** * Access codes *)

Lemma append_assoc (s t u : string) : (s +:+ t) +:+ u = s +:+ (t +:+ u).
Proof.
  induction s as [|a s IH]; [done|]. rewrite !append_cons. by f_equal.
Qed.

Lemma rev_app_append (s t : string) : String.rev_app s t = String.rev s +:+ t.
Proof.
  unfold String.rev. revert t. induction s as [|a s IH]; intros t; simpl; [done|].
  rewrite (IH (String a t)), (IH (String a "")). by rewrite append_assoc.
Qed.

Lemma rev_cons (a : ascii) (s : string) :
  String.rev (String a s) = String.rev s +:+ String a "".
Proof. unfold String.rev at 1. simpl. apply rev_app_append. Qed.

Lemma rev_append (s t : string) :
  String.rev (s +:+ t) = String.rev t +:+ String.rev s.
Proof.
  induction s as [|a s IH].
  - rewrite append_nil_l. by rewrite string_app_nil_r.
  - by rewrite append_cons, !rev_cons, IH, append_assoc.
Qed.

Lemma lstrip_blank (p x : string) : blank p = true → Str.lstrip (p +:+ x) = Str.lstrip x.
Proof.
  induction p as [|a p IH]; [done|]. cbn [blank].
  intros [Ha Hp]%andb_true_iff. rewrite append_cons. cbn [Str.lstrip].
  rewrite Ha. by apply IH.
Qed.

Lemma lstrip_all_blank (p : string) : blank p = true → Str.lstrip p = "".
Proof.
  intros Hp. rewrite <- (string_app_nil_r p). by rewrite lstrip_blank.
Qed.

Lemma lstrip_tight (s t : string) :
  tight s = true → s ≠ "" → Str.lstrip (s +:+ t) = s +:+ t.
Proof.
  destruct s as [|a s]; [done|]. cbn [tight].
  intros [Ha _]%andb_true_iff _. rewrite append_cons. cbn [Str.lstrip].
  by destruct (Str.isspace a).
Qed.

Lemma tight_append (s t : string) :
  tight (s +:+ t) = tight s && tight t.
Proof.
  induction s as [|a s IH]; [done|]. rewrite append_cons. cbn [tight].
  by rewrite IH, andb_assoc.
Qed.

Lemma blank_append (s t : string) :
  blank (s +:+ t) = blank s && blank t.
Proof.
  induction s as [|a s IH]; [done|]. rewrite append_cons. cbn [blank].
  by rewrite IH, andb_assoc.
Qed.

Lemma tight_rev (s : string) : tight (String.rev s) = tight s.
Proof.
  induction s as [|a s IH]; [done|].
  rewrite rev_cons, tight_append, IH. cbn [tight].
  rewrite andb_true_r. apply andb_comm.
Qed.

Lemma blank_rev (s : string) : blank (String.rev s) = blank s.
Proof.
  induction s as [|a s IH]; [done|].
  rewrite rev_cons, blank_append, IH. cbn [blank].
  rewrite andb_true_r. apply andb_comm.
Qed.

Lemma rev_nil_inv (s : string) : String.rev s = "" → s = "".
Proof. intros Hs. by rewrite <- (rev_rev s), Hs. Qed.

(** [strip] takes the blanks off a text that has none inside. *)
Lemma strip_padded (pad1 pad2 s : string) :
  blank pad1 = true → blank pad2 = true → tight s = true →
  Str.strip (pad1 +:+ s +:+ pad2) = s.
Proof.
  intros H1 H2 Hs. unfold Str.strip. rewrite lstrip_blank by done.
  destruct (decide (s = "")) as [->|Hne].
  - rewrite append_nil_l, (lstrip_all_blank pad2) by done. done.
  - rewrite lstrip_tight by done. rewrite rev_append.
    rewrite lstrip_blank by (by rewrite blank_rev).
    rewrite <- (string_app_nil_r (String.rev s)).
    rewrite lstrip_tight; [by rewrite string_app_nil_r, rev_rev|by rewrite tight_rev|].
    intros Hrev. by apply Hne, rev_nil_inv.
Qed.

Lemma code_char_facts (c : ascii) :
  Codes.code_char (N_of_ascii c) = true →
  Str.upper_char c = [N_of_ascii c] ∧
  Str.upper_char (Str.lower_char c) = [N_of_ascii c] ∧
  Str.isspace c = false ∧ Str.isspace (Str.lower_char c) = false.
Proof.
  destruct c as [[] [] [] [] [] [] [] []]; vm_compute; intros H;
    first [discriminate H | done].
Qed.

Lemma code_text_facts (code : string) :
  forallb Codes.code_char (Str.code_points code) = true →
  Str.upper code = Str.code_points code ∧
  Str.upper (Str.lower code) = Str.code_points code ∧
  tight code = true ∧ tight (Str.lower code) = true.
Proof.
  induction code as [|c code IH]; [done|]. simpl.
  intros [Hc Hcode]%andb_true_iff.
  destruct (code_char_facts c Hc) as (Hu & Hl & Hs & Hsl).
  destruct (IH Hcode) as (IHu & IHl & IHt & IHtl).
  rewrite Hu, Hl, IHu, IHl, Hs, Hsl, IHt, IHtl. done.
Qed.

Lemma hex_byte_facts (b : ascii) :
  let n := N_of_ascii b in
  ∃ h l, Str.upper_char (Py.hex_digit (n / 16)) = [h] ∧
         Str.upper_char (Py.hex_digit (n mod 16)) = [l] ∧
         Codes.code_char h = true ∧ Codes.code_char l = true.
Proof.
  destruct b as [[] [] [] [] [] [] [] []]; cbv zeta; eexists _, _;
    (split; [vm_compute; reflexivity|]); (split; [vm_compute; reflexivity|]);
    split; reflexivity.
Qed.

Lemma access_code_chars (bytes : string) :
  forallb Codes.code_char (Codes.generate_access_code bytes) = true ∧
  length (Codes.generate_access_code bytes) = (2 * String.length bytes)%nat.
Proof.
  unfold Codes.generate_access_code, Codes.token_hex.
  induction bytes as [|b bytes [IH1 IH2]]; [done|].
  destruct (hex_byte_facts b) as (h & l & Hh & Hl & Hch & Hcl).
  cbn [Codes.hexlify Str.upper String.length]. cbv zeta.
  rewrite Hh, Hl. cbn [app forallb length]. rewrite Hch, Hcl, IH1, IH2.
  split; [done|lia].
Qed.

(** X24.  An access code is eight characters, digits and capitals A to F
    (two for each of the four random bytes), and [unlock_event] looks up
    the stored code whether the viewer types it as it is or in lower case,
    with any blanks before and after. *)
Theorem access_code_found_as_typed (bytes code pad1 pad2 : string) :
  String.length bytes = 4%nat →
  Str.code_points code = Codes.generate_access_code bytes →
  blank pad1 = true → blank pad2 = true →
  length (Str.code_points code) = 8%nat ∧
  forallb Codes.code_char (Str.code_points code) = true ∧
  Codes.typed_code (pad1 +:+ code +:+ pad2) = Str.code_points code ∧
  Codes.typed_code (pad1 +:+ Str.lower code +:+ pad2) = Str.code_points code.
Proof.
  intros Hbytes Hcode H1 H2.
  destruct (access_code_chars bytes) as [Hchars Hlen].
  rewrite <- Hcode in Hchars, Hlen.
  destruct (code_text_facts code Hchars) as (Hu & Hl & Ht & Htl).
  split; [lia|]. split; [done|]. unfold Codes.typed_code.
  by rewrite !strip_padded.
Qed.

(** ** Scenarios *)

(** Event 7 has five rows, one of them without its file: the four photos
    on disk are all picked, in the order of their scores. *)
Lemma top_photos_are_the_best_witness :
  ∃ picked,
    Reel.top_photos string string Z Z.ltb id ReelSample.imread ReelSample.cvtColor
      ReelSample.laplacian_var ReelSample.mean ReelSample.detect_faces
      ReelSample.exists_ "/photos" 7 ReelSample.table = inr picked ∧
    length picked = 4%nat ∧ Reel.falling picked.
Proof.
  assert (3 ≤ length (Reel.photos_of 7 ReelSample.table))%nat as Hrows
    by (vm_compute; repeat constructor).
  destruct (top_photos_are_the_best Z.ltb id ReelSample.imread ReelSample.cvtColor
              ReelSample.laplacian_var ReelSample.mean ReelSample.detect_faces
              ReelSample.exists_ "/photos" 7 ReelSample.table Hrows)
    as (picked & rest & Htop & Hlen & _ & Hfall & _).
  exists picked. split; [exact Htop|]. split.
  - rewrite Hlen. vm_compute. reflexivity.
  - clear -Hfall. induction picked as [|a picked IH]; [exact I|].
    simpl in Hfall. destruct Hfall as [Hall Hfall]. simpl. split.
    + rewrite Forall_app in Hall. apply Hall.
    + by apply IH.
Defined.

(** The four bytes 41 62 21 7a give the code 4162217A; the viewer types it
    in lower case between blanks. *)
Lemma access_code_found_as_typed_witness :
  Codes.typed_code ("  " +:+ "4162217a" +:+ " ") = Str.code_points "4162217A" ∧
  Codes.typed_code ("4162217A") = Codes.generate_access_code "Ab!z".
Proof.
  assert (String.length "Ab!z" = 4%nat) as Hbytes by reflexivity.
  assert (Str.code_points "4162217A" = Codes.generate_access_code "Ab!z") as Hcode
    by (vm_compute; reflexivity).
  destruct (access_code_found_as_typed "Ab!z" "4162217A" "  " " " Hbytes Hcode
              eq_refl eq_refl) as (_ & _ & _ & Hlower).
  destruct (access_code_found_as_typed "Ab!z" "4162217A" "" "" Hbytes Hcode
              eq_refl eq_refl) as (_ & _ & Hsame & _).
  split; [exact Hlower|]. rewrite <- Hcode. exact Hsame.
Defined.
